(** * Verification of the state-change layer of the ECS agent

    Shallow embedding of
    - [agent/api/statechange.go] (state-change events and their backend
      payloads),
    - [ecs-agent/utils/utils.go] ([AddScheme]),
    together with a model of the task engine's host resource manager and
    waiting queue, whose behaviour is observed through the integration tests
    of [agent/engine/engine_unix_integ_test.go]. *)

From Stdlib Require Import ZArith Ascii String List Bool Lia.
From Stdlib Require Import DecimalString DecimalZ DecimalPos.
From stdpp Require Import base option strings list sorting gmap.

Local Open Scope Z_scope.
Local Open Scope string_scope.
Local Open Scope list_scope.

(** ** [ecs-agent/utils/utils.go] *)

Module utils.

Definition httpsPrefix : string := "https://".

(** [schemeRegex = regexp.MustCompile(`^(http|https)://`)]: the pattern is
    anchored at the start and consists of literal bytes only, so
    [schemeRegex.MatchString] is a test on the leading bytes. *)
Definition schemeRegex_MatchString (s : string) : bool :=
  String.prefix "http://" s || String.prefix "https://" s.

Definition AddScheme (endpoint : string) : string :=
  if String.eqb endpoint "" then endpoint
  else if schemeRegex_MatchString endpoint then endpoint
  else httpsPrefix +:+ endpoint.

(** [strconv.Itoa]: the decimal numeral of an [int], with a minus sign in
    front of a negative one. *)
Definition Itoa (i : Z) : string := NilZero.string_of_int (Z.to_int i).

(** The slice is filled index by index with the numeral of each element. *)
Definition Uint16SliceToStringSlice (slice : list Z) : list string :=
  map Itoa slice.

(** Go's conversion [int32(x)] of an [int64]: wrap-around to 32 bits. *)
Definition int32_of_int64 (x : Z) : Z :=
  ((x + 2 ^ 31) mod 2 ^ 32 - 2 ^ 31)%Z.

(** Pointers are options; [int(x)] of an [int32] keeps the value. *)
Definition Int32PtrToIntPtr (int32ptr : option Z) : option Z :=
  match int32ptr with
  | None => None
  | Some v => Some v
  end.

Definition Int64PtrToInt32Ptr (int64ptr : option Z) : option Z :=
  match int64ptr with
  | None => None
  | Some v => Some (int32_of_int64 v)
  end.

(** [MaxNum] at an integer type. *)
Definition MaxNum (a b : Z) : Z := if (b <? a)%Z then a else b.

End utils.

(** ** Status enumerations

    The packages [ecs-agent/api/container/status] and
    [ecs-agent/api/task/status] declare the two status types as integer
    enumerations; [statechange.go] compares their values with [>=] and [==]. *)

Module apicontainerstatus.

Inductive ContainerStatus : Set :=
| ContainerStatusNone
| ContainerPulled
| ContainerManifestPulled
| ContainerCreated
| ContainerRunning
| ContainerResourcesProvisioned
| ContainerStopped.

#[export] Instance ContainerStatus_eq_dec : EqDecision ContainerStatus.
Proof. solve_decision. Defined.

(** Modelled from the spec: the enumeration is declared in another
    package; the numeric order is the one of the data model,
    NONE, PULLED, MANIFEST_PULLED, CREATED, RUNNING, RESOURCES_PROVISIONED,
    STOPPED. *)
Definition value (s : ContainerStatus) : Z :=
  match s with
  | ContainerStatusNone => 0
  | ContainerPulled => 1
  | ContainerManifestPulled => 2
  | ContainerCreated => 3
  | ContainerRunning => 4
  | ContainerResourcesProvisioned => 5
  | ContainerStopped => 6
  end.

(** Go's [a >= b] on the integer type. *)
Definition geb (a b : ContainerStatus) : bool := (value b <=? value a)%Z.

End apicontainerstatus.

Module apitaskstatus.

Inductive TaskStatus : Set :=
| TaskStatusNone
| TaskManifestPulled
| TaskCreated
| TaskRunning
| TaskStopped.

#[export] Instance TaskStatus_eq_dec : EqDecision TaskStatus.
Proof. solve_decision. Defined.

(** Modelled from the spec: the enumeration is declared in another
    package; the numeric order is NONE, MANIFEST_PULLED,
    CREATED (the internal waypoint), RUNNING, STOPPED. *)
Definition value (s : TaskStatus) : Z :=
  match s with
  | TaskStatusNone => 0
  | TaskManifestPulled => 1
  | TaskCreated => 2
  | TaskRunning => 3
  | TaskStopped => 4
  end.

Definition geb (a b : TaskStatus) : bool := (value b <=? value a)%Z.

End apitaskstatus.

Export apicontainerstatus apitaskstatus.

(** Methods of the status types that [statechange.go] calls and whose bodies
    are declared elsewhere. They are kept abstract: every theorem below holds
    for all their implementations. *)
Class StatusMethods : Type := {
  TaskStatus_BackendRecognized : TaskStatus → bool;
  TaskStatus_String : TaskStatus → string;
  ContainerStatus_ShouldReportToBackend :
    ContainerStatus → ContainerStatus → bool;
  ContainerStatus_String : ContainerStatus → string;
  ContainerStatus_BackendStatusString : ContainerStatus → string;
}.

(** ** Containers and tasks ([agent/api/container], [agent/api/task])

    The attributes that [statechange.go] reads through accessors, and those
    that admission and container ordering depend on. *)

Module apicontainer.

(** [Protocol] holds what [binding.Protocol.String()] yields. *)
Record PortBinding : Type := {
  ContainerPort : Z;
  HostPort : Z;
  BindIP : string;
  Protocol : string;
}.

(** Conditions of a [DependsOn] entry, as the task definition spells them. *)
Inductive ContainerCondition : Set := START | COMPLETE | SUCCESS | HEALTHY.

Record DependsOn : Type := {
  ContainerName : string;
  Condition : ContainerCondition;
}.

Record Container : Type := {
  Name : string;
  Image : string;
  Internal : bool;
  Essential : bool;
  DesiredStatus : ContainerStatus;
  KnownStatus : ContainerStatus;
  SentStatus : ContainerStatus;
  SteadyStateStatus : ContainerStatus;
  RuntimeID : string;
  KnownExitCode : option Z;
  Healthy : bool;
  KnownPortBindings : list PortBinding;
  ImageDigest : string;
  ApplyingError : option string;
  DependsOnUnsafe : list DependsOn;
  ContainerHasPortRange : bool;
  ContainerPortSet : gset Z;
  (** a Go map, listed in the order in which [range] visits it *)
  ContainerPortRangeMap : list (string * string);
}.

Definition IsInternal (c : Container) : bool := Internal c.
Definition GetKnownStatus (c : Container) : ContainerStatus := KnownStatus c.
Definition GetSentStatus (c : Container) : ContainerStatus := SentStatus c.
Definition GetSteadyStateStatus (c : Container) : ContainerStatus :=
  SteadyStateStatus c.
Definition HasPortRange (c : Container) : bool := ContainerHasPortRange c.

(** Modelled from the spec: [DigestResolved] is declared elsewhere; a
    container "has a resolved image digest" when its digest is populated
    (the integration test asserts [NotEmpty] on [GetImageDigest]). *)
Definition DigestResolved (c : Container) : bool :=
  negb (String.eqb (ImageDigest c) "").

(** The mutable attributes, written through one update function. *)
Definition update (c : Container)
  (known sent : ContainerStatus) (runtimeID digest : string)
  (applyingError : option string) : Container :=
  {| Name := Name c; Image := Image c; Internal := Internal c;
     Essential := Essential c; DesiredStatus := DesiredStatus c;
     KnownStatus := known; SentStatus := sent;
     SteadyStateStatus := SteadyStateStatus c;
     RuntimeID := runtimeID; KnownExitCode := KnownExitCode c;
     Healthy := Healthy c;
     KnownPortBindings := KnownPortBindings c;
     ImageDigest := digest; ApplyingError := applyingError;
     DependsOnUnsafe := DependsOnUnsafe c;
     ContainerHasPortRange := ContainerHasPortRange c;
     ContainerPortSet := ContainerPortSet c;
     ContainerPortRangeMap := ContainerPortRangeMap c |}.

Definition SetSentStatus (s : ContainerStatus) (c : Container) : Container :=
  update c (KnownStatus c) s (RuntimeID c) (ImageDigest c) (ApplyingError c).

Definition SetKnownStatus (s : ContainerStatus) (c : Container) : Container :=
  update c s (SentStatus c) (RuntimeID c) (ImageDigest c) (ApplyingError c).

Definition SetImageDigest (d : string) (c : Container) : Container :=
  update c (KnownStatus c) (SentStatus c) (RuntimeID c) d (ApplyingError c).

Definition SetRuntimeID (r : string) (c : Container) : Container :=
  update c (KnownStatus c) (SentStatus c) r (ImageDigest c) (ApplyingError c).

Definition SetApplyingError (e : string) (c : Container) : Container :=
  update c (KnownStatus c) (SentStatus c) (RuntimeID c) (ImageDigest c)
    (Some e).

End apicontainer.

Module apitask.

Record Task : Type := {
  Arn : string;
  IsInternal : bool;
  DesiredStatus : TaskStatus;
  KnownStatus : TaskStatus;
  SentStatus : TaskStatus;
  Containers : list apicontainer.Container;
  (** [None] stands for the zero [time.Time] *)
  PullStartedAt : option Z;
  PullStoppedAt : option Z;
  ExecutionStoppedAt : option Z;
  LaunchType : string;
  CPU : Z;
  Memory : Z;
}.

Definition GetKnownStatus (t : Task) : TaskStatus := KnownStatus t.
Definition GetSentStatus (t : Task) : TaskStatus := SentStatus t.

(** Modelled from the spec: [HasAContainerWithResolvedDigest] is declared
    elsewhere; "at least one container has a resolved image digest". *)
Definition HasAContainerWithResolvedDigest (t : Task) : bool :=
  existsb apicontainer.DigestResolved (Containers t).

Definition update (t : Task) (desired known sent : TaskStatus) : Task :=
  {| Arn := Arn t; IsInternal := IsInternal t; DesiredStatus := desired;
     KnownStatus := known; SentStatus := sent; Containers := Containers t;
     PullStartedAt := PullStartedAt t; PullStoppedAt := PullStoppedAt t;
     ExecutionStoppedAt := ExecutionStoppedAt t;
     LaunchType := LaunchType t; CPU := CPU t; Memory := Memory t |}.

Definition SetSentStatus (s : TaskStatus) (t : Task) : Task :=
  update t (DesiredStatus t) (KnownStatus t) s.

Definition SetKnownStatus (s : TaskStatus) (t : Task) : Task :=
  update t (DesiredStatus t) s (SentStatus t).

Definition SetDesiredStatus (s : TaskStatus) (t : Task) : Task :=
  update t s (KnownStatus t) (SentStatus t).

End apitask.

(** Helpers of [apitask.Task] used for bridge-mode Service Connect and the
    port-range parser of [docker/go-connections]; their bodies are declared
    elsewhere and are kept abstract. [None] is the error result of
    [GetBridgeModePauseContainerForTaskContainer]. *)
Class TaskMethods : Type := {
  IsServiceConnectEnabled : apitask.Task → bool;
  IsNetworkModeBridge : apitask.Task → bool;
  GetBridgeModePauseContainerForTaskContainer :
    apitask.Task → apicontainer.Container → option apicontainer.Container;
  (** first component of [nat.ParsePortRangeToInt] *)
  ParsePortRangeToInt : string → Z;
}.

(** ** [agent/api/statechange.go] *)

(** Go errors: [ErrShouldNotSendEvent] is the package's own error type;
    [errorString] stands for the values built by [errors.Errorf] and
    [fmt.Errorf]. A function of result type [(T, error)] is a pair whose
    second component is [None] for [nil]. *)
Inductive error : Type :=
| ErrShouldNotSendEvent (resourceId : string)
| errorString (msg : string).

Definition isErrShouldNotSendEvent (e : option error) : bool :=
  match e with
  | Some (ErrShouldNotSendEvent _) => true
  | _ => false
  end.


(** A call either returns or panics (nil pointer dereference). *)
Inductive outcome (A : Type) : Type :=
| Returns (a : A)
| Panics.
Arguments Returns {A} a.
Arguments Panics {A}.

Module ContainerStateChange.
Record t : Type := {
  TaskArn : string;
  RuntimeID : string;
  ContainerName : string;
  Status : ContainerStatus;
  ImageDigest : string;
  Reason : string;
  ExitCode : option Z;
  PortBindings : list apicontainer.PortBinding;
  Container : option apicontainer.Container;
}.

(** the zero value, [var event ContainerStateChange] *)
Definition zero : t :=
  {| TaskArn := ""; RuntimeID := ""; ContainerName := "";
     Status := ContainerStatusNone; ImageDigest := ""; Reason := "";
     ExitCode := None; PortBindings := []; Container := None |}.

Definition setReason (r : string) (e : t) : t :=
  {| TaskArn := TaskArn e; RuntimeID := RuntimeID e;
     ContainerName := ContainerName e; Status := Status e;
     ImageDigest := ImageDigest e; Reason := r; ExitCode := ExitCode e;
     PortBindings := PortBindings e; Container := Container e |}.
End ContainerStateChange.

(** The fields [Attachment] and [ManagedAgents] are left out: none of the
    functions below reads or writes them. *)
Module TaskStateChange.
Record t : Type := {
  TaskARN : string;
  Status : TaskStatus;
  Reason : string;
  Containers : list ContainerStateChange.t;
  PullStartedAt : option Z;
  PullStoppedAt : option Z;
  ExecutionStoppedAt : option Z;
  Task : option apitask.Task;
}.

(** the zero value, [var event TaskStateChange] *)
Definition zero : t :=
  {| TaskARN := ""; Status := TaskStatusNone; Reason := "";
     Containers := []; PullStartedAt := None; PullStoppedAt := None;
     ExecutionStoppedAt := None; Task := None |}.

(** [SetTaskTimestamps]: a timestamp of the task is copied when it is set
    (conversion to UTC does not change the instant). *)
Definition SetTaskTimestamps (change : t) : t :=
  match Task change with
  | None => change
  | Some task =>
      {| TaskARN := TaskARN change; Status := Status change;
         Reason := Reason change; Containers := Containers change;
         PullStartedAt :=
           match apitask.PullStartedAt task with
           | Some ts => Some ts
           | None => PullStartedAt change
           end;
         PullStoppedAt :=
           match apitask.PullStoppedAt task with
           | Some ts => Some ts
           | None => PullStoppedAt change
           end;
         ExecutionStoppedAt :=
           match apitask.ExecutionStoppedAt task with
           | Some ts => Some ts
           | None => ExecutionStoppedAt change
           end;
         Task := Task change |}
  end.
End TaskStateChange.

(** [types.NetworkBinding] and [types.ContainerStateChange] of the SDK;
    pointer fields are options. *)
Module types.
Record NetworkBinding : Type := {
  BindIP : option string;
  ContainerPort : option Z;
  ContainerPortRange : option string;
  HostPort : option Z;
  HostPortRange : option string;
  Protocol : string;
}.

Record ContainerStateChange : Type := {
  ContainerName : option string;
  RuntimeId : option string;
  Reason : option string;
  ImageDigest : option string;
  Status : option string;
  ExitCode : option Z;
  NetworkBindings : list NetworkBinding;
}.
End types.

Record ProtocolBindIP : Type := {
  protocol : string;
  bindIP : string;
}.

(** Go's conversion [int32(x)] of an [int]: wrap-around to 32 bits, signed. *)
Definition int32 (x : Z) : Z := ((x + 2 ^ 31) mod 2 ^ 32 - 2 ^ 31)%Z.

(** [aws.String]: a pointer to the string. *)
Definition aws_String (s : string) : option string := Some s.

Definition nonEmpty (s : string) : option string :=
  if String.eqb s "" then None else Some s.

(** [aws.ToString]: the string behind the pointer, empty for [nil]. *)
Definition aws_ToString (p : option string) : string := default "" p.

(** The types of managed agents and of network interface attachments, and the
    methods on them that [statechange.go] calls, are declared elsewhere and
    kept abstract. [GetManagedAgentByName] yields the name and the status of
    the managed agent of a container, if it has one of that name. *)
Class AgentDeclarations : Type := {
  ManagedAgentStatus : Type;
  ManagedAgentStatus_ShouldReportToBackend : ManagedAgentStatus → bool;
  ManagedAgentStatus_String : ManagedAgentStatus → string;
  GetManagedAgentByName :
    apicontainer.Container → string → option (string * ManagedAgentStatus);
  ENIAttachment : Type;
}.

Module ManagedAgentStateChange.
Record t `{AgentDeclarations} : Type := {
  TaskArn : string;
  Name : string;
  Container : option apicontainer.Container;
  Status : ManagedAgentStatus;
  Reason : string;
}.
End ManagedAgentStateChange.

(** The payload [types.ManagedAgentStateChange] of the SDK. *)
Module managedagent.
Record Payload : Type := {
  ManagedAgentName : string;
  ContainerName : option string;
  Status : option string;
  Reason : option string;
}.
End managedagent.

(** [ecs.ContainerStateChange] and [ecs.TaskStateChange] of the ecs-agent
    module. [MetadataGetter] is the container, or the task, that the getter
    wraps. *)
Module ecsContainerStateChange.
Record t : Type := {
  TaskArn : string;
  RuntimeID : string;
  ContainerName : string;
  Status : ContainerStatus;
  ImageDigest : string;
  Reason : string;
  ExitCode : option Z;
  NetworkBindings : list types.NetworkBinding;
  MetadataGetter : option apicontainer.Container;
}.
End ecsContainerStateChange.

Module ecsTaskStateChange.
Record t `{AgentDeclarations} : Type := {
  Attachment : option ENIAttachment;
  TaskARN : string;
  Status : TaskStatus;
  Reason : string;
  Containers : list types.ContainerStateChange;
  ManagedAgents : list managedagent.Payload;
  PullStartedAt : option Z;
  PullStoppedAt : option Z;
  ExecutionStoppedAt : option Z;
  MetadataGetter : option apitask.Task;
}.
End ecsTaskStateChange.

(** Values of a [logger.Fields] map. *)
Inductive FieldValue : Type :=
| FieldString (s : string)
| FieldPortBindings (bindings : list apicontainer.PortBinding).

Module api.
Section statechange.
Context `{StatusMethods} `{TaskMethods}.

Definition ecsMaxNetworkBindingsLength : Z := 100.

Definition NewTaskStateChangeEvent (task : apitask.Task) (reason : string)
  : TaskStateChange.t * option error :=
  let event := TaskStateChange.zero in
  if apitask.IsInternal task then
    (event, Some (ErrShouldNotSendEvent (apitask.Arn task)))
  else
    let taskKnownStatus := apitask.GetKnownStatus task in
    if bool_decide (taskKnownStatus ≠ TaskManifestPulled)
       && negb (TaskStatus_BackendRecognized taskKnownStatus) then
      (event, Some (errorString
         ("create task state change event api: status not recognized by ECS: "
          +:+ TaskStatus_String taskKnownStatus)))
    else if apitaskstatus.geb (apitask.GetSentStatus task) taskKnownStatus then
      (event, Some (errorString
         ("create task state change event api: status ["
          +:+ TaskStatus_String taskKnownStatus +:+ "] already sent")))
    else if bool_decide (taskKnownStatus = TaskManifestPulled)
            && negb (apitask.HasAContainerWithResolvedDigest task) then
      (event, Some (ErrShouldNotSendEvent
         ("create task state change event api: status "
          +:+ TaskStatus_String TaskManifestPulled
          +:+ " not eligible for backend reporting as no digests were resolved")))
    else
      (TaskStateChange.SetTaskTimestamps
         {| TaskStateChange.TaskARN := apitask.Arn task;
            TaskStateChange.Status := taskKnownStatus;
            TaskStateChange.Reason := reason;
            TaskStateChange.Containers := [];
            TaskStateChange.PullStartedAt := None;
            TaskStateChange.PullStoppedAt := None;
            TaskStateChange.ExecutionStoppedAt := None;
            TaskStateChange.Task := Some task |},
       None).

Definition containerStatusChangeStatus
  (knownStatus steadyStateStatus : ContainerStatus) : ContainerStatus :=
  if decide (knownStatus = steadyStateStatus) then ContainerRunning
  else if decide (knownStatus = ContainerManifestPulled) then
    ContainerManifestPulled
  else if decide (knownStatus = ContainerStopped) then ContainerStopped
  else ContainerStatusNone.

Definition newUncheckedContainerStateChangeEvent
  (task : apitask.Task) (cont : apicontainer.Container) (reason : string)
  : ContainerStateChange.t * option error :=
  let event := ContainerStateChange.zero in
  if apicontainer.IsInternal cont then
    (event, Some (ErrShouldNotSendEvent (apicontainer.Name cont)))
  else
    let build (portBindings : list apicontainer.PortBinding) :=
      let contKnownStatus := apicontainer.GetKnownStatus cont in
      ({| ContainerStateChange.TaskArn := apitask.Arn task;
          ContainerStateChange.ContainerName := apicontainer.Name cont;
          ContainerStateChange.RuntimeID := apicontainer.RuntimeID cont;
          ContainerStateChange.Status :=
            containerStatusChangeStatus contKnownStatus
              (apicontainer.GetSteadyStateStatus cont);
          ContainerStateChange.ExitCode := apicontainer.KnownExitCode cont;
          ContainerStateChange.PortBindings := portBindings;
          ContainerStateChange.ImageDigest := apicontainer.ImageDigest cont;
          ContainerStateChange.Reason := reason;
          ContainerStateChange.Container := Some cont |}, None) in
    if IsServiceConnectEnabled task && IsNetworkModeBridge task then
      match GetBridgeModePauseContainerForTaskContainer task cont with
      | None =>
          (event, Some (errorString
             ("error resolving pause container for bridge mode SC container: "
              +:+ apicontainer.Name cont)))
      | Some pauseCont => build (apicontainer.KnownPortBindings pauseCont)
      end
    else build (apicontainer.KnownPortBindings cont).

Definition NewContainerStateChangeEvent
  (task : apitask.Task) (cont : apicontainer.Container) (reason : string)
  : ContainerStateChange.t * option error :=
  match newUncheckedContainerStateChangeEvent task cont reason with
  | (event, Some err) => (event, Some err)
  | (event, None) =>
      let contKnownStatus := apicontainer.GetKnownStatus cont in
      if bool_decide (contKnownStatus ≠ ContainerManifestPulled)
         && negb (ContainerStatus_ShouldReportToBackend contKnownStatus
                    (apicontainer.GetSteadyStateStatus cont)) then
        (event, Some (ErrShouldNotSendEvent
           ("create container state change event api: status not recognized by ECS: "
            +:+ ContainerStatus_String contKnownStatus)))
      else if bool_decide (contKnownStatus = ContainerManifestPulled)
              && negb (apicontainer.DigestResolved cont) then
        (event, Some (ErrShouldNotSendEvent
           ("create container state change event api: no need to send "
            +:+ ContainerStatus_String ContainerManifestPulled
            +:+ " event as no resolved digests were found")))
      else if apicontainerstatus.geb (apicontainer.GetSentStatus cont)
                contKnownStatus then
        (event, Some (ErrShouldNotSendEvent
           ("create container state change event api: status ["
            +:+ ContainerStatus_String contKnownStatus
            +:+ "] already sent for container " +:+ apicontainer.Name cont
            +:+ ", task " +:+ apitask.Arn task)))
      else
        match apicontainer.ApplyingError cont with
        | Some msg =>
            if String.eqb reason "" then
              (ContainerStateChange.setReason msg event, None)
            else (event, None)
        | None => (event, None)
        end
  end.

(** First loop of [getNetworkBindings]: a binding whose container port is
    in the singular port set yields a network binding; any other binding is
    filed under its host port. The conversions [int32(uint16)] and
    [int64(uint16)] keep the value. *)
Definition bindingStep (containerPortSet : gset Z)
  (acc : list types.NetworkBinding * gmap Z (list ProtocolBindIP))
  (binding : apicontainer.PortBinding)
  : list types.NetworkBinding * gmap Z (list ProtocolBindIP) :=
  let containerPort := apicontainer.ContainerPort binding in
  let bindIP := apicontainer.BindIP binding in
  let protocol := apicontainer.Protocol binding in
  if bool_decide (containerPort ∈ containerPortSet) then
    ((acc.1 ++ [ {| types.BindIP := aws_String bindIP;
                    types.ContainerPort := Some containerPort;
                    types.ContainerPortRange := None;
                    types.HostPort := Some (apicontainer.HostPort binding);
                    types.HostPortRange := None;
                    types.Protocol := protocol |} ])%list,
     acc.2)
  else
    let hostPort := apicontainer.HostPort binding in
    (acc.1,
     <[ hostPort := (default [] (acc.2 !! hostPort)
                     ++ [ {| protocol := protocol; bindIP := bindIP |} ])%list ]>
       acc.2).

(** Second loop: one consolidated network binding per protocol and bind IP
    recorded for the first host port of each range. *)
Definition rangeStep (hostPortToProtocolBindIPMap : gmap Z (list ProtocolBindIP))
  (networkBindings : list types.NetworkBinding) (entry : string * string)
  : list types.NetworkBinding :=
  let containerPortRange := entry.1 in
  let hostPortRange := entry.2 in
  let hostPort := ParsePortRangeToInt hostPortRange in
  match hostPortToProtocolBindIPMap !! hostPort with
  | Some val =>
      (networkBindings ++
       map (λ v, {| types.BindIP := aws_String (bindIP v);
                    types.ContainerPort := None;
                    types.ContainerPortRange := aws_String containerPortRange;
                    types.HostPort := None;
                    types.HostPortRange := aws_String hostPortRange;
                    types.Protocol := protocol v |}) val)%list
  | None => networkBindings
  end.

(** [change.Container] is a pointer that the function dereferences. *)
Definition getNetworkBindings (change : ContainerStateChange.t)
  : outcome (list types.NetworkBinding) :=
  match ContainerStateChange.Container change with
  | None => Panics
  | Some cont =>
      let containerPortSet := apicontainer.ContainerPortSet cont in
      let containerPortRangeMap := apicontainer.ContainerPortRangeMap cont in
      let st := foldl (bindingStep containerPortSet) ([], ∅)
                  (ContainerStateChange.PortBindings change) in
      Returns (foldl (rangeStep st.2) st.1 containerPortRangeMap)
  end.

Definition buildContainerStateChangePayload (change : ContainerStateChange.t)
  : outcome (option types.ContainerStateChange * option error) :=
  if String.eqb (ContainerStateChange.ContainerName change) "" then
    Returns (None, Some (errorString "container state change has no container name"))
  else
    let stat := ContainerStateChange.Status change in
    if bool_decide (stat ≠ ContainerManifestPulled)
       && bool_decide (stat ≠ ContainerStopped)
       && bool_decide (stat ≠ ContainerRunning) then
      Returns (None, None)
    else
      let stat :=
        if String.eqb (ContainerStatus_String stat) "DEAD"
        then ContainerStopped else stat in
      match getNetworkBindings change,
            ContainerStateChange.Container change with
      | Returns networkBindings, Some cont =>
          if apicontainer.HasPortRange cont
             && (ecsMaxNetworkBindingsLength <? Z.of_nat (length networkBindings))%Z
          then
            (* the message of the source also renders both numbers, the
               container and the task *)
            Returns (None, Some (errorString
              "no. of network bindings is more than the maximum supported no."))
          else
            Returns
              (Some {| types.ContainerName :=
                         aws_String (ContainerStateChange.ContainerName change);
                       types.RuntimeId :=
                         nonEmpty (ContainerStateChange.RuntimeID change);
                       types.Reason :=
                         nonEmpty (ContainerStateChange.Reason change);
                       types.ImageDigest :=
                         nonEmpty (ContainerStateChange.ImageDigest change);
                       types.Status :=
                         aws_String (ContainerStatus_BackendStatusString stat);
                       types.ExitCode :=
                         int32 <$> ContainerStateChange.ExitCode change;
                       types.NetworkBindings := networkBindings |},
               None)
      | _, _ => Panics
      end.

(** Service Connect in bridge mode is off, or the pause container of the
    container is found: the lookup in
    [newUncheckedContainerStateChangeEvent] does not fail. *)
Definition pauseContainerResolves (task : apitask.Task)
  (cont : apicontainer.Container) : Prop :=
  IsServiceConnectEnabled task && IsNetworkModeBridge task = false
  ∨ is_Some (GetBridgeModePauseContainerForTaskContainer task cont).

(** the statuses that [buildContainerStateChangePayload] submits *)
Definition supportedUpstream (stat : ContainerStatus) : Prop :=
  stat = ContainerManifestPulled ∨ stat = ContainerStopped
  ∨ stat = ContainerRunning.

Context `{AgentDeclarations}.

(** A [TaskStateChange] with the two fields that the event constructors
    leave at their zero values. *)
Record TaskStateChangeAll : Type := {
  change : TaskStateChange.t;
  Attachment : option ENIAttachment;
  ManagedAgents : list ManagedAgentStateChange.t;
}.

Definition NewManagedAgentChangeEvent (task : apitask.Task)
  (cont : apicontainer.Container) (managedAgentName reason : string)
  : option ManagedAgentStateChange.t * option error :=
  match GetManagedAgentByName cont managedAgentName with
  | None =>
      (None, Some (errorString
         ("No ExecuteCommandAgent available in container: "
          +:+ apicontainer.Name cont)))
  | Some (name, status) =>
      if negb (ManagedAgentStatus_ShouldReportToBackend status) then
        (None, Some (errorString
           ("create managed agent state change event: status not recognized by ECS: "
            +:+ ManagedAgentStatus_String status)))
      else
        (Some {| ManagedAgentStateChange.TaskArn := apitask.Arn task;
                 ManagedAgentStateChange.Name := name;
                 ManagedAgentStateChange.Container := Some cont;
                 ManagedAgentStateChange.Status := status;
                 ManagedAgentStateChange.Reason := reason |},
         None)
  end.

(** Both branches read [change.Container.Name] through the pointer. *)
Definition buildManagedAgentStateChangePayload
  (change : ManagedAgentStateChange.t) : outcome (option managedagent.Payload) :=
  match ManagedAgentStateChange.Container change with
  | None => Panics
  | Some cont =>
      if negb (ManagedAgentStatus_ShouldReportToBackend
                 (ManagedAgentStateChange.Status change)) then Returns None
      else
        Returns (Some
          {| managedagent.ManagedAgentName := ManagedAgentStateChange.Name change;
             managedagent.ContainerName := aws_String (apicontainer.Name cont);
             managedagent.Status :=
               aws_String (ManagedAgentStatus_String
                             (ManagedAgentStateChange.Status change));
             managedagent.Reason :=
               aws_String (ManagedAgentStateChange.Reason change) |})
  end.

(** [(c *ContainerStateChange) ToECSAgent] *)
Definition ContainerStateChange_ToECSAgent (c : ContainerStateChange.t)
  : outcome (option ecsContainerStateChange.t * option error) :=
  match buildContainerStateChangePayload c with
  | Panics => Panics
  | Returns (_, Some err) => Returns (None, Some err)
  | Returns (None, None) => Returns (None, None)
  | Returns (Some pl, None) =>
      Returns
        (Some {| ecsContainerStateChange.TaskArn := ContainerStateChange.TaskArn c;
                 ecsContainerStateChange.RuntimeID := aws_ToString (types.RuntimeId pl);
                 ecsContainerStateChange.ContainerName := ContainerStateChange.ContainerName c;
                 ecsContainerStateChange.Status := ContainerStateChange.Status c;
                 ecsContainerStateChange.ImageDigest := aws_ToString (types.ImageDigest pl);
                 ecsContainerStateChange.Reason := aws_ToString (types.Reason pl);
                 ecsContainerStateChange.ExitCode := utils.Int32PtrToIntPtr (types.ExitCode pl);
                 ecsContainerStateChange.NetworkBindings := types.NetworkBindings pl;
                 ecsContainerStateChange.MetadataGetter := ContainerStateChange.Container c |},
         None)
  end.

(** [(c *ContainerStateChange) ToFields]: the exit code is read through its
    pointer without a test for [nil]. *)
Definition ContainerStateChange_ToFields (c : ContainerStateChange.t)
  : outcome (gmap string FieldValue) :=
  match ContainerStateChange.ExitCode c with
  | None => Panics
  | Some exitCode =>
      Returns
        (<["eventType" := FieldString "ContainerStateChange"]>
         (<["taskArn" := FieldString (ContainerStateChange.TaskArn c)]>
         (<["containerName" :=
              FieldString (ContainerStateChange.ContainerName c)]>
         (<["containerStatus" :=
              FieldString (ContainerStatus_String
                             (ContainerStateChange.Status c))]>
         (<["exitCode" := FieldString (utils.Itoa exitCode)]>
         (<["reason" := FieldString (ContainerStateChange.Reason c)]>
         (<["portBindings" :=
              FieldPortBindings (ContainerStateChange.PortBindings c)]>
          ∅)))))))
  end.

(** The first loop of [(change *TaskStateChange) ToECSAgent]: the payloads of
    the managed agent events that have one, in order. *)
Fixpoint managedAgentPayloads (events : list ManagedAgentStateChange.t)
  : outcome (list managedagent.Payload) :=
  match events with
  | [] => Returns []
  | managedAgentEvent :: rest =>
      match buildManagedAgentStateChangePayload managedAgentEvent with
      | Panics => Panics
      | Returns mgspl =>
          match managedAgentPayloads rest with
          | Panics => Panics
          | Returns payloads =>
              Returns (match mgspl with
                       | Some p => p :: payloads
                       | None => payloads
                       end)
          end
      end
  end.

(** The second loop: the first container event whose payload cannot be built
    ends the conversion with its error; [*payload] is read without a test for
    [nil]. *)
Fixpoint containerPayloads (events : list ContainerStateChange.t)
  : outcome (option (list types.ContainerStateChange) * option error) :=
  match events with
  | [] => Returns (Some [], None)
  | containerEvent :: rest =>
      match buildContainerStateChangePayload containerEvent with
      | Panics => Panics
      | Returns (_, Some err) => Returns (None, Some err)
      | Returns (None, None) => Panics
      | Returns (Some payload, None) =>
          match containerPayloads rest with
          | Returns (Some payloads, None) =>
              Returns (Some (payload :: payloads), None)
          | other => other
          end
      end
  end.

(** [(change *TaskStateChange) ToECSAgent] *)
Definition TaskStateChange_ToECSAgent (c : TaskStateChangeAll)
  : outcome (option ecsTaskStateChange.t * option error) :=
  match managedAgentPayloads (ManagedAgents c) with
  | Panics => Panics
  | Returns managedAgents =>
      match containerPayloads (TaskStateChange.Containers (change c)) with
      | Panics => Panics
      | Returns (Some containerEvents, None) =>
          Returns
            (Some {| ecsTaskStateChange.Attachment := Attachment c;
                     ecsTaskStateChange.TaskARN := TaskStateChange.TaskARN (change c);
                     ecsTaskStateChange.Status := TaskStateChange.Status (change c);
                     ecsTaskStateChange.Reason := TaskStateChange.Reason (change c);
                     ecsTaskStateChange.Containers := containerEvents;
                     ecsTaskStateChange.ManagedAgents := managedAgents;
                     ecsTaskStateChange.PullStartedAt :=
                       TaskStateChange.PullStartedAt (change c);
                     ecsTaskStateChange.PullStoppedAt :=
                       TaskStateChange.PullStoppedAt (change c);
                     ecsTaskStateChange.ExecutionStoppedAt :=
                       TaskStateChange.ExecutionStoppedAt (change c);
                     ecsTaskStateChange.MetadataGetter :=
                       TaskStateChange.Task (change c) |},
             None)
      | Returns (_, err) => Returns (None, err)
      end
  end.

(** A container event builds a payload: it names its container, carries a
    status that is submitted and a container, and is within the limit on
    network bindings. *)
Definition buildsPayload (c : ContainerStateChange.t) : Prop :=
  ∃ payload, buildContainerStateChangePayload c = Returns (Some payload, None).

End statechange.
End api.

(** ** [statechange.go]: strings and log fields of the state changes *)

Module apifmt.
Section fmt.
Context `{StatusMethods} `{AgentDeclarations}.
(** The renderings that [fmt] and the packages of the types give: the port
    bindings under [%v], a time in the layout [time.RFC3339], and the
    [String] method of an attachment. A Boolean under [%v] is [true] or
    [false]. *)
Context (PortBindings_String : list apicontainer.PortBinding → string).
Context (Time_RFC3339 : option Z → string).
Context (ENIAttachment_String : ENIAttachment → string).

Definition Bool_String (b : bool) : string :=
  if b then "true" else "false".

(** [(c *ContainerStateChange) String] *)
Definition ContainerStateChange_String (c : ContainerStateChange.t) : string :=
  let res :=
    "containerName=" +:+ ContainerStateChange.ContainerName c
    +:+ " containerStatus="
    +:+ ContainerStatus_String (ContainerStateChange.Status c) in
  let res :=
    match ContainerStateChange.ExitCode c with
    | Some exitCode => res +:+ " containerExitCode=" +:+ utils.Itoa exitCode
    | None => res
    end in
  let res :=
    if negb (String.eqb (ContainerStateChange.Reason c) "")
    then res +:+ " containerReason=" +:+ ContainerStateChange.Reason c
    else res in
  let res :=
    if negb (length (ContainerStateChange.PortBindings c) =? 0)%nat
    then res +:+ " containerPortBindings="
         +:+ PortBindings_String (ContainerStateChange.PortBindings c)
    else res in
  match ContainerStateChange.Container c with
  | Some cont =>
      res +:+ " containerKnownSentStatus="
      +:+ ContainerStatus_String (apicontainer.GetSentStatus cont)
      +:+ " containerRuntimeID=" +:+ apicontainer.RuntimeID cont
      +:+ " containerIsEssential="
      +:+ Bool_String (apicontainer.Essential cont)
  | None => res
  end.

(** [(m *ManagedAgentStateChange) String]: the name of the container is read
    through the pointer. *)
Definition ManagedAgentStateChange_String (m : ManagedAgentStateChange.t)
  : outcome string :=
  match ManagedAgentStateChange.Container m with
  | None => Panics
  | Some cont =>
      let res :=
        "containerName=" +:+ apicontainer.Name cont
        +:+ " managedAgentName=" +:+ ManagedAgentStateChange.Name m
        +:+ " managedAgentStatus="
        +:+ ManagedAgentStatus_String (ManagedAgentStateChange.Status m) in
      Returns
        (if negb (String.eqb (ManagedAgentStateChange.Reason m) "")
         then res +:+ " managedAgentReason="
              +:+ ManagedAgentStateChange.Reason m
         else res)
  end.

(** The two loops of [(change *TaskStateChange) ToFields], from index [i]. *)
Fixpoint containerChangeFields (fields : gmap string FieldValue) (i : nat)
  (containers : list ContainerStateChange.t) : gmap string FieldValue :=
  match containers with
  | [] => fields
  | containerChange :: rest =>
      containerChangeFields
        (<["containerChange-" +:+ utils.Itoa (Z.of_nat i) :=
             FieldString (ContainerStateChange_String containerChange)]>
           fields)
        (i + 1) rest
  end.

Fixpoint managedAgentChangeFields (fields : gmap string FieldValue) (i : nat)
  (managedAgents : list ManagedAgentStateChange.t)
  : outcome (gmap string FieldValue) :=
  match managedAgents with
  | [] => Returns fields
  | managedAgentChange :: rest =>
      match ManagedAgentStateChange_String managedAgentChange with
      | Panics => Panics
      | Returns str =>
          managedAgentChangeFields
            (<["managedAgentChange-" +:+ utils.Itoa (Z.of_nat i) :=
                 FieldString str]> fields)
            (i + 1) rest
      end
  end.

(** [(change *TaskStateChange) ToFields] *)
Definition TaskStateChange_ToFields (c : api.TaskStateChangeAll)
  : outcome (gmap string FieldValue) :=
  let change := api.change c in
  let fields : gmap string FieldValue :=
    <["eventType" := FieldString "TaskStateChange"]>
    (<["taskArn" := FieldString (TaskStateChange.TaskARN change)]>
    (<["taskStatus" :=
         FieldString (TaskStatus_String (TaskStateChange.Status change))]>
    (<["taskReason" := FieldString (TaskStateChange.Reason change)]> ∅))) in
  let fields :=
    match TaskStateChange.Task change with
    | Some task =>
        <["taskExecutionStoppedAt" :=
            FieldString (Time_RFC3339 (apitask.ExecutionStoppedAt task))]>
        (<["taskPullStoppedAt" :=
             FieldString (Time_RFC3339 (apitask.PullStoppedAt task))]>
        (<["taskPullStartedAt" :=
             FieldString (Time_RFC3339 (apitask.PullStartedAt task))]>
        (<["taskKnownSentStatus" :=
             FieldString (TaskStatus_String (apitask.GetSentStatus task))]>
           fields)))
    | None => fields
    end in
  let fields :=
    match api.Attachment c with
    | Some attachment =>
        <["eniAttachment" := FieldString (ENIAttachment_String attachment)]>
          fields
    | None => fields
    end in
  let fields :=
    containerChangeFields fields 0 (TaskStateChange.Containers change) in
  managedAgentChangeFields fields 0 (api.ManagedAgents c).

End fmt.
End apifmt.

(** ** [agent/ecr/client.go] *)

Module ecr.
Section client.
(** [types.AuthorizationData] of the SDK is kept abstract. The SDK client is
    the function from the registry ids of the request to its output and its
    error; the output holds the list [AuthorizationData]. *)
Context {AuthorizationData : Type}.

Definition GetAuthorizationToken
  (sdkClient : list string → option (list AuthorizationData) * option error)
  (registryId : string)
  : outcome (option AuthorizationData * option error) :=
  match sdkClient [registryId] with
  | (_, Some err) => Returns (None, Some err)
  | (None, None) => Panics
  | (Some authorizationData, None) =>
      match authorizationData with
      | [data] => Returns (Some data, None)
      | _ =>
          Returns (None, Some (errorString
            ("unexpected number of results in AuthorizationData ("
             +:+ utils.Itoa (Z.of_nat (length authorizationData)) +:+ ")")))
      end
  end.

End client.
End ecr.

(** ** [ecs-agent/tcs/client/client.go]: health requests *)

Module HealthMetadata.
Record t : Type := {
  Cluster : option string;
  ContainerInstance : option string;
  Fin : option bool;
  MessageId : option string;
}.
End HealthMetadata.

Module tcshealth.
Section health.
(** The element type of the health metrics and the request built by
    [ecstcs.NewPublishHealthMetricsRequest] from a metadata and a list of task
    healths are declared in the model package and kept abstract. *)
Context {TaskHealth PublishHealthRequest : Type}.
Context (NewPublishHealthMetricsRequest :
           HealthMetadata.t → list TaskHealth → PublishHealthRequest).

Definition tasksInHealthMessage : nat := 10.

(** [HealthMetrics] is a slice, [None] when it is [nil]. *)
Record HealthMessage : Type := {
  Metadata : option HealthMetadata.t;
  HealthMetrics : option (list TaskHealth);
}.

Definition copyHealthMetadata (metadata : HealthMetadata.t) (fin : bool)
  : HealthMetadata.t :=
  {| HealthMetadata.Cluster :=
       aws_String (aws_ToString (HealthMetadata.Cluster metadata));
     HealthMetadata.ContainerInstance :=
       aws_String (aws_ToString (HealthMetadata.ContainerInstance metadata));
     HealthMetadata.Fin := Some fin;
     HealthMetadata.MessageId :=
       aws_String (aws_ToString (HealthMetadata.MessageId metadata)) |}.

Definition copyTaskHealthMetrics (from : list TaskHealth) : list TaskHealth :=
  from.

(** The loop of [healthToPublishHealthRequests] from index [i] on: a request
    takes a copy of the collected task healths, so that resetting the
    collection leaves the request alone. *)
Fixpoint healthLoop (metadata : HealthMetadata.t) (numOfTasks i : nat)
  (requests : list PublishHealthRequest) (taskHealths : list TaskHealth)
  (taskHealthMetrics : list TaskHealth)
  : list PublishHealthRequest * list TaskHealth :=
  match taskHealthMetrics with
  | [] => (requests, taskHealths)
  | taskHealth :: rest =>
      let taskHealths := taskHealths ++ [taskHealth] in
      if ((i + 1) mod tasksInHealthMessage =? 0)%nat then
        let requestMetadata :=
          copyHealthMetadata metadata (i + 1 =? numOfTasks)%nat in
        let requestTaskHealth := copyTaskHealthMetrics taskHealths in
        healthLoop metadata numOfTasks (i + 1)
          (requests
           ++ [NewPublishHealthMetricsRequest requestMetadata requestTaskHealth])
          [] rest
      else healthLoop metadata numOfTasks (i + 1) requests taskHealths rest
  end.

Definition healthToPublishHealthRequests (health : HealthMessage)
  : list PublishHealthRequest * option error :=
  match Metadata health, HealthMetrics health with
  | Some metadata, Some taskHealthMetrics =>
      let '(requests, taskHealths) :=
        healthLoop metadata (length taskHealthMetrics) 0 [] []
          taskHealthMetrics in
      if negb (length taskHealths =? 0)%nat then
        (requests
         ++ [NewPublishHealthMetricsRequest (copyHealthMetadata metadata true)
               taskHealths],
         None)
      else (requests, None)
  | _, _ => ([], None)
  end.

End health.
End tcshealth.

(** ** [ecs-agent/tcs/client/client.go]: metrics requests *)

Module MetricsMetadata.
Record t : Type := {
  Cluster : option string;
  ContainerInstance : option string;
  Idle : option bool;
  MessageId : option string;
  Fin : option bool;
}.

(** [metadata.Fin = aws.Bool(fin)] *)
Definition setFin (fin : bool) (metadata : t) : t :=
  {| Cluster := Cluster metadata;
     ContainerInstance := ContainerInstance metadata;
     Idle := Idle metadata; MessageId := MessageId metadata;
     Fin := Some fin |}.
End MetricsMetadata.

(** Slices are options of lists, [None] for [nil]: [s[:0]] and [append]. *)
Definition sliceReset {A : Type} (s : option (list A)) : option (list A) :=
  match s with
  | None => None
  | Some _ => Some []
  end.

Definition sliceAppend {A : Type} (s : option (list A)) (x : A)
  : option (list A) :=
  Some (default [] s ++ [x]).

Module tcsmetrics.
Section metrics.
(** The types of the model package are kept abstract: the instance metrics,
    the elements of the container metrics and of the service connect metrics
    of a task metric, the remaining fields of a task metric, and the request
    that [ecstcs.NewPublishMetricsRequest] builds. Task metrics and service
    connect metrics are given by pointers that are not [nil]. *)
Context {InstanceMetrics ContainerMetric GeneralMetricsWrapper
         TaskMetricOther PublishMetricsRequest : Type}.

Record TaskMetric : Type := {
  ContainerMetrics : option (list ContainerMetric);
  ServiceConnectMetricsWrapper : option (list GeneralMetricsWrapper);
  Other : TaskMetricOther;
}.

Definition setServiceConnectMetricsWrapper
  (w : option (list GeneralMetricsWrapper)) (t : TaskMetric) : TaskMetric :=
  {| ContainerMetrics := ContainerMetrics t;
     ServiceConnectMetricsWrapper := w; Other := Other t |}.

Definition setContainerMetrics (c : option (list ContainerMetric))
  (t : TaskMetric) : TaskMetric :=
  {| ContainerMetrics := c;
     ServiceConnectMetricsWrapper := ServiceConnectMetricsWrapper t;
     Other := Other t |}.

Record TelemetryMessage : Type := {
  InstanceMetricsOf : option InstanceMetrics;
  Metadata : option MetricsMetadata.t;
  TaskMetrics : option (list TaskMetric);
}.

Context (NewPublishMetricsRequest :
           option InstanceMetrics → MetricsMetadata.t →
           option (list TaskMetric) → PublishMetricsRequest).
(** [len(BuildJSON(request)) > publishMetricRequestSizeLimit] *)
Context (exceedsSizeLimit : PublishMetricsRequest → bool).

Definition tasksInMetricMessage : nat := 10.

Definition filterInstanceMetrics (instanceMetrics : option InstanceMetrics)
  (requestCount : nat) : option InstanceMetrics :=
  match instanceMetrics with
  | Some _ => if (requestCount =? 0)%nat then instanceMetrics else None
  | None => None
  end.

(** The four fields are read through their pointers. *)
Definition copyMetricsMetadata (metadata : MetricsMetadata.t) (fin : bool)
  : outcome MetricsMetadata.t :=
  match MetricsMetadata.Cluster metadata,
        MetricsMetadata.ContainerInstance metadata,
        MetricsMetadata.Idle metadata,
        MetricsMetadata.MessageId metadata with
  | Some cluster, Some containerInstance, Some idle, Some messageId =>
      Returns {| MetricsMetadata.Cluster := Some cluster;
                 MetricsMetadata.ContainerInstance := Some containerInstance;
                 MetricsMetadata.Idle := Some idle;
                 MetricsMetadata.MessageId := Some messageId;
                 MetricsMetadata.Fin := Some fin |}
  | _, _, _, _ => Panics
  end.

Definition copyTaskMetrics (from : list TaskMetric) : list TaskMetric := from.

Definition copyServiceConnectMetrics (scMetrics : list GeneralMetricsWrapper)
  : list GeneralMetricsWrapper := scMetrics.

(** The loop of [serviceConnectMetricsToPublishMetricRequests] over the
    service connect metrics that are left. *)
Fixpoint serviceConnectLoop (instanceMetrics : option InstanceMetrics)
  (requestMetadata : MetricsMetadata.t) (tempTaskMetric : TaskMetric)
  (messageTaskMetrics : list TaskMetric)
  (requests : list PublishMetricsRequest)
  (serviceConnectMetrics : list GeneralMetricsWrapper)
  : TaskMetric * list TaskMetric * list PublishMetricsRequest :=
  match serviceConnectMetrics with
  | [] => (tempTaskMetric, messageTaskMetrics, requests)
  | serviceConnectMetric :: rest =>
      let messageInstanceMetrics :=
        filterInstanceMetrics instanceMetrics (length requests) in
      let appended :=
        default [] (ServiceConnectMetricsWrapper tempTaskMetric)
        ++ [serviceConnectMetric] in
      let tempTaskMetric :=
        setServiceConnectMetricsWrapper (Some appended) tempTaskMetric in
      let tempMessage :=
        NewPublishMetricsRequest messageInstanceMetrics requestMetadata
          (Some (copyTaskMetrics (messageTaskMetrics ++ [tempTaskMetric]))) in
      if exceedsSizeLimit tempMessage then
        let tempTaskMetric :=
          setServiceConnectMetricsWrapper (Some (removelast appended))
            tempTaskMetric in
        let taskMetricTruncated :=
          setServiceConnectMetricsWrapper
            (Some (copyServiceConnectMetrics
                     (default [] (ServiceConnectMetricsWrapper tempTaskMetric))))
            tempTaskMetric in
        let messageTaskMetrics := messageTaskMetrics ++ [taskMetricTruncated] in
        let requests :=
          requests
          ++ [NewPublishMetricsRequest messageInstanceMetrics requestMetadata
                (Some (copyTaskMetrics messageTaskMetrics))] in
        let tempTaskMetric :=
          setContainerMetrics (sliceReset (ContainerMetrics tempTaskMetric))
            (setServiceConnectMetricsWrapper
               (sliceReset (ServiceConnectMetricsWrapper tempTaskMetric))
               tempTaskMetric) in
        let tempTaskMetric :=
          setServiceConnectMetricsWrapper
            (sliceAppend (ServiceConnectMetricsWrapper tempTaskMetric)
               serviceConnectMetric)
            tempTaskMetric in
        serviceConnectLoop instanceMetrics requestMetadata tempTaskMetric
          [] requests rest
      else
        serviceConnectLoop instanceMetrics requestMetadata tempTaskMetric
          messageTaskMetrics requests rest
  end.

Definition serviceConnectMetricsToPublishMetricRequests
  (instanceMetrics : option InstanceMetrics)
  (requestMetadata : MetricsMetadata.t) (taskMetric : TaskMetric)
  (messageTaskMetrics : list TaskMetric)
  (requests : list PublishMetricsRequest)
  : TaskMetric * list TaskMetric * list PublishMetricsRequest :=
  let tempTaskMetric :=
    setServiceConnectMetricsWrapper
      (sliceReset (ServiceConnectMetricsWrapper taskMetric)) taskMetric in
  serviceConnectLoop instanceMetrics requestMetadata tempTaskMetric
    messageTaskMetrics requests
    (default [] (ServiceConnectMetricsWrapper taskMetric)).

(** The part of the loop body of [metricsToPublishMetricRequests] that deals
    with the size of the message: the requests made because the task metric,
    or one of its service connect metrics, would exceed the size limit, and
    the task metric that is left to add to the message. *)
Definition fitTaskMetric (messageInstanceMetrics : option InstanceMetrics)
  (requestMetadata : MetricsMetadata.t) (taskMetric : TaskMetric)
  (messageTaskMetrics : list TaskMetric)
  (requests : list PublishMetricsRequest)
  : TaskMetric * list TaskMetric * list PublishMetricsRequest :=
  let tempTaskMetric :=
    setServiceConnectMetricsWrapper
      (sliceReset (ServiceConnectMetricsWrapper taskMetric)) taskMetric in
  let tmsg :=
    NewPublishMetricsRequest messageInstanceMetrics requestMetadata
      (Some (copyTaskMetrics (messageTaskMetrics ++ [tempTaskMetric]))) in
  let '(requests, messageTaskMetrics) :=
    if exceedsSizeLimit tmsg then
      (requests
       ++ [NewPublishMetricsRequest messageInstanceMetrics requestMetadata
             (Some (copyTaskMetrics messageTaskMetrics))],
       [])
    else (requests, messageTaskMetrics) in
  match ServiceConnectMetricsWrapper taskMetric with
  | Some _ =>
      serviceConnectMetricsToPublishMetricRequests
        messageInstanceMetrics requestMetadata taskMetric
        messageTaskMetrics requests
  | None => (taskMetric, messageTaskMetrics, requests)
  end.

(** The loop of [metricsToPublishMetricRequests] from index [i] on. *)
Fixpoint metricsLoop (instanceMetrics : option InstanceMetrics)
  (metadata : MetricsMetadata.t) (numTasks i : nat)
  (requests : list PublishMetricsRequest)
  (messageTaskMetrics : list TaskMetric) (taskMetrics : list TaskMetric)
  : outcome (list PublishMetricsRequest * list TaskMetric) :=
  match taskMetrics with
  | [] => Returns (requests, messageTaskMetrics)
  | taskMetric :: rest =>
      let messageInstanceMetrics :=
        filterInstanceMetrics instanceMetrics (length requests) in
      match copyMetricsMetadata metadata false with
      | Panics => Panics
      | Returns requestMetadata =>
          let '(taskMetric, messageTaskMetrics, requests) :=
            fitTaskMetric messageInstanceMetrics requestMetadata taskMetric
              messageTaskMetrics requests in
          let messageTaskMetrics := messageTaskMetrics ++ [taskMetric] in
          match (if (i + 1 =? numTasks)%nat
                 then copyMetricsMetadata metadata true
                 else Returns requestMetadata) with
          | Panics => Panics
          | Returns requestMetadata =>
              if (length messageTaskMetrics mod tasksInMetricMessage =? 0)%nat
              then
                metricsLoop instanceMetrics metadata numTasks (i + 1)
                  (requests
                   ++ [NewPublishMetricsRequest messageInstanceMetrics
                         requestMetadata
                         (Some (copyTaskMetrics messageTaskMetrics))])
                  [] rest
              else
                metricsLoop instanceMetrics metadata numTasks (i + 1)
                  requests messageTaskMetrics rest
          end
      end
  end.

Definition metricsToPublishMetricRequests (metrics : TelemetryMessage)
  : outcome (list PublishMetricsRequest * option error) :=
  let instanceMetrics := InstanceMetricsOf metrics in
  let taskMetrics := TaskMetrics metrics in
  match Metadata metrics with
  | None => Returns ([], Some (errorString "nil metrics metadata"))
  | Some metadata =>
      match MetricsMetadata.Idle metadata with
      | None => Panics
      | Some true =>
          Returns
            ([NewPublishMetricsRequest instanceMetrics
                (MetricsMetadata.setFin true metadata) taskMetrics],
             None)
      | Some false =>
          match metricsLoop instanceMetrics metadata
                  (length (default [] taskMetrics)) 0 [] []
                  (default [] taskMetrics) with
          | Panics => Panics
          | Returns (requests, messageTaskMetrics) =>
              if (0 <? length messageTaskMetrics)%nat then
                match copyMetricsMetadata metadata true with
                | Panics => Panics
                | Returns requestMetadata =>
                    Returns
                      (requests
                       ++ [NewPublishMetricsRequest
                             (filterInstanceMetrics instanceMetrics
                                (length requests))
                             requestMetadata (Some messageTaskMetrics)],
                       None)
                end
              else Returns (requests, None)
          end
      end
  end.

(** [publishMetricsOnce] and [publishHealthOnce] make the requests in order
    and stop at the first that fails; [MakeRequest] acts on the connection,
    whose state is threaded through. *)
Fixpoint makeRequests {Connection Request : Type}
  (MakeRequest : Connection → Request → Connection * option error)
  (conn : Connection) (requests : list Request) : Connection * option error :=
  match requests with
  | [] => (conn, None)
  | request :: rest =>
      match MakeRequest conn request with
      | (conn, Some err) => (conn, Some err)
      | (conn, None) => makeRequests MakeRequest conn rest
      end
  end.

Definition publishMetricsOnce {Connection : Type}
  (MakeRequest : Connection → PublishMetricsRequest → Connection * option error)
  (conn : Connection) (message : TelemetryMessage)
  : outcome (Connection * option error) :=
  match metricsToPublishMetricRequests message with
  | Panics => Panics
  | Returns (_, Some err) => Returns (conn, Some err)
  | Returns (requests, None) => Returns (makeRequests MakeRequest conn requests)
  end.

End metrics.
End tcsmetrics.

(** [publishHealthOnce] *)
Definition publishHealthOnce {Connection TaskHealth PublishHealthRequest : Type}
  (NewPublishHealthMetricsRequest :
     HealthMetadata.t → list TaskHealth → PublishHealthRequest)
  (MakeRequest : Connection → PublishHealthRequest → Connection * option error)
  (conn : Connection) (health : tcshealth.HealthMessage)
  : Connection * option error :=
  match tcshealth.healthToPublishHealthRequests NewPublishHealthMetricsRequest
          health with
  | (_, Some err) => (conn, Some err)
  | (requests, None) => tcsmetrics.makeRequests MakeRequest conn requests
  end.

(** ** What becomes of a task metric in the metrics requests

    A task metric is sent as one or more pieces, in order: every piece has
    its remaining fields, and the service connect metrics and the container
    metrics of the pieces, put together in order, are those of the task
    metric. *)
Definition splitsInto
  {ContainerMetric GeneralMetricsWrapper TaskMetricOther : Type}
  (taskMetric : @tcsmetrics.TaskMetric ContainerMetric GeneralMetricsWrapper
                  TaskMetricOther)
  (pieces : list (@tcsmetrics.TaskMetric ContainerMetric GeneralMetricsWrapper
                    TaskMetricOther)) : Prop :=
  pieces ≠ []
  ∧ Forall (λ piece, tcsmetrics.Other piece = tcsmetrics.Other taskMetric)
      pieces
  ∧ concat ((λ piece,
              default [] (tcsmetrics.ServiceConnectMetricsWrapper piece))
            <$> pieces)
    = default [] (tcsmetrics.ServiceConnectMetricsWrapper taskMetric)
  ∧ concat ((λ piece, default [] (tcsmetrics.ContainerMetrics piece))
            <$> pieces)
    = default [] (tcsmetrics.ContainerMetrics taskMetric).

(** ** [ecs-agent/tcs/client/client.go]: instance status *)

Module instancestatus.
Section status.
(** The doctor, its health checks and their methods are declared in the
    doctor package and kept abstract, as are the time stamps;
    [GetHealthchecks] returns a pointer to a slice. The request id, made by
    [uuid.NewRandom], and the current time are taken as arguments. *)
Context {Doctor Healthcheck Time Connection : Type}.
Context (GetCluster GetContainerInstanceArn : Doctor → string).
Context (GetHealthchecks : Doctor → option (list Healthcheck)).
Context (HasStatusBeenReported : Doctor → bool).
Context (SetStatusReported : bool → Doctor → Doctor).
Context (GetStatusChangeTime GetLastHealthcheckTime : Healthcheck → Time).
Context (GetHealthcheckStatus_String GetHealthcheckType : Healthcheck → string).
Context (EmptyHealthcheckError : error).

Record InstanceStatus : Type := {
  LastStatusChange : option Time;
  LastUpdated : option Time;
  Status : option string;
  Type_ : option string;
}.

Record InstanceStatusMetadata : Type := {
  Cluster : option string;
  ContainerInstance : option string;
  RequestId : option string;
}.

Record PublishInstanceStatusRequest : Type := {
  Metadata : InstanceStatusMetadata;
  Statuses : list InstanceStatus;
  Timestamp : option Time;
}.

Definition instanceStatusOf (healthcheck : Healthcheck) : InstanceStatus :=
  {| LastStatusChange := Some (GetStatusChangeTime healthcheck);
     LastUpdated := Some (GetLastHealthcheckTime healthcheck);
     Status := aws_String (GetHealthcheckStatus_String healthcheck);
     Type_ := aws_String (GetHealthcheckType healthcheck) |}.

(** The result is [nil] when there is no health check: nothing is appended
    to the [nil] slice. *)
Definition getInstanceStatuses (doctor : Doctor)
  : outcome (option (list InstanceStatus)) :=
  match GetHealthchecks doctor with
  | None => Panics
  | Some healthchecks =>
      Returns (foldl (λ instanceStatuses healthcheck,
                        sliceAppend instanceStatuses
                          (instanceStatusOf healthcheck))
                 None healthchecks)
  end.

Definition getPublishInstanceStatusRequest (doctor : Doctor)
  (requestId : string) (now : Time)
  : outcome (option PublishInstanceStatusRequest * option error) :=
  let metadata :=
    {| Cluster := aws_String (GetCluster doctor);
       ContainerInstance := aws_String (GetContainerInstanceArn doctor);
       RequestId := aws_String requestId |} in
  match getInstanceStatuses doctor with
  | Panics => Panics
  | Returns None => Returns (None, Some EmptyHealthcheckError)
  | Returns (Some instanceStatuses) =>
      Returns (Some {| Metadata := metadata; Statuses := instanceStatuses;
                       Timestamp := Some now |}, None)
  end.

(** [MakeRequest] is given the pointer to the request. *)
Definition publishInstanceStatusOnce
  (MakeRequest : Connection → option PublishInstanceStatusRequest →
                 Connection * option error)
  (conn : Connection) (doctor : Doctor) (requestId : string) (now : Time)
  : outcome (Connection * Doctor * option error) :=
  match getPublishInstanceStatusRequest doctor requestId now with
  | Panics => Panics
  | Returns (_, Some err) => Returns (conn, doctor, Some err)
  | Returns (request, None) =>
      match MakeRequest conn request with
      | (conn, Some err) => Returns (conn, doctor, Some err)
      | (conn, None) => Returns (conn, SetStatusReported true doctor, None)
      end
  end.

(** One tick of the ticker in [publishInstanceStatus]. *)
Definition publishInstanceStatusTick
  (MakeRequest : Connection → option PublishInstanceStatusRequest →
                 Connection * option error)
  (conn : Connection) (doctor : Doctor) (requestId : string) (now : Time)
  : outcome (Connection * Doctor) :=
  if negb (HasStatusBeenReported doctor) then
    match publishInstanceStatusOnce MakeRequest conn doctor requestId now with
    | Panics => Panics
    | Returns (conn, doctor, Some err) => Returns (conn, doctor)
    | Returns (conn, doctor, None) =>
        Returns (conn, SetStatusReported true doctor)
    end
  else Returns (conn, doctor).

End status.
End instancestatus.

(** ** [agent/stats/common_test.go]: the validators of metadata *)

Module stats.

Definition defaultCluster : string := "default".
Definition defaultContainerInstance : string := "ci".

(** The three fields are read through their pointers, one after the other. *)
Definition validateMetricsMetadata (metadata : option MetricsMetadata.t)
  : outcome (option error) :=
  match metadata with
  | None => Returns (Some (errorString "Metadata is nil"))
  | Some metadata =>
      match MetricsMetadata.Cluster metadata with
      | None => Panics
      | Some cluster =>
          if negb (String.eqb cluster defaultCluster) then
            Returns (Some (errorString
              ("Expected cluster in metadata to be: " +:+ defaultCluster
               +:+ ", got " +:+ cluster)))
          else
            match MetricsMetadata.ContainerInstance metadata with
            | None => Panics
            | Some containerInstance =>
                if negb (String.eqb containerInstance defaultContainerInstance)
                then
                  Returns (Some (errorString
                    ("Expected container instance in metadata to be "
                     +:+ defaultContainerInstance +:+ ", got "
                     +:+ containerInstance)))
                else
                  match MetricsMetadata.MessageId metadata with
                  | None => Panics
                  | Some messageId =>
                      if (String.length messageId =? 0)%nat then
                        Returns (Some (errorString "Empty MessageId"))
                      else Returns None
                  end
            end
      end
  end.

Definition validateHealthMetricsMetadata (metadata : option HealthMetadata.t)
  : option error :=
  match metadata with
  | None => Some (errorString "metadata is nil")
  | Some metadata =>
      if negb (String.eqb (aws_ToString (HealthMetadata.Cluster metadata))
                 defaultCluster) then
        Some (errorString
          ("expected cluster in metadata to be: " +:+ defaultCluster
           +:+ ", got " +:+ aws_ToString (HealthMetadata.Cluster metadata)))
      else if negb (String.eqb
                      (aws_ToString (HealthMetadata.ContainerInstance metadata))
                      defaultContainerInstance) then
        Some (errorString
          ("expected container instance in metadata to be "
           +:+ defaultContainerInstance +:+ ", got "
           +:+ aws_ToString (HealthMetadata.ContainerInstance metadata)))
      else if (String.length (aws_ToString (HealthMetadata.MessageId metadata))
               =? 0)%nat then
        Some (errorString "empty MessageId")
      else None
  end.

End stats.

(** ** The two kinds of network binding

    The struct literals of the two loops of [getNetworkBindings], as functions
    of the port binding they are made from. *)

(** The binding of a singular port (first loop). *)
Definition singularBinding (binding : apicontainer.PortBinding)
  : types.NetworkBinding :=
  {| types.BindIP := aws_String (apicontainer.BindIP binding);
     types.ContainerPort := Some (apicontainer.ContainerPort binding);
     types.ContainerPortRange := None;
     types.HostPort := Some (apicontainer.HostPort binding);
     types.HostPortRange := None;
     types.Protocol := apicontainer.Protocol binding |}.

(** The consolidated binding of a port range (second loop), for the protocol
    and the bind IP of a port binding on the first host port of the range. *)
Definition rangeBinding (entry : string * string)
  (binding : apicontainer.PortBinding) : types.NetworkBinding :=
  {| types.BindIP := aws_String (apicontainer.BindIP binding);
     types.ContainerPort := None;
     types.ContainerPortRange := aws_String entry.1;
     types.HostPort := None;
     types.HostPortRange := aws_String entry.2;
     types.Protocol := apicontainer.Protocol binding |}.

(** ** A reference implementation of the abstract methods

    Used to evaluate the functions above on concrete tasks and containers. *)

Module reference.

Definition TaskStatus_name (s : TaskStatus) : string :=
  match s with
  | TaskStatusNone => "NONE"
  | TaskManifestPulled => "MANIFEST_PULLED"
  | TaskCreated => "CREATED"
  | TaskRunning => "RUNNING"
  | TaskStopped => "STOPPED"
  end.

Definition ContainerStatus_name (s : ContainerStatus) : string :=
  match s with
  | ContainerStatusNone => "NONE"
  | ContainerPulled => "PULLED"
  | ContainerManifestPulled => "MANIFEST_PULLED"
  | ContainerCreated => "CREATED"
  | ContainerRunning => "RUNNING"
  | ContainerResourcesProvisioned => "RESOURCES_PROVISIONED"
  | ContainerStopped => "STOPPED"
  end.

(** Modelled from the spec: the bodies of [BackendRecognized],
    [ShouldReportToBackend], [String] and [BackendStatusString] are declared
    in the status packages. The backend knows the task states RUNNING and
    STOPPED besides MANIFEST_PULLED, and a container is reported in its
    steady state and when it has stopped. *)
#[global] Instance statusMethods : StatusMethods := {|
  TaskStatus_BackendRecognized s :=
    bool_decide (s = TaskRunning) || bool_decide (s = TaskStopped);
  TaskStatus_String := TaskStatus_name;
  ContainerStatus_ShouldReportToBackend cs steadyStateStatus :=
    bool_decide (cs = steadyStateStatus) || bool_decide (cs = ContainerStopped);
  ContainerStatus_String := ContainerStatus_name;
  ContainerStatus_BackendStatusString cs :=
    match cs with
    | ContainerRunning => "RUNNING"
    | ContainerStopped => "STOPPED"
    | ContainerManifestPulled => "MANIFEST_PULLED"
    | _ => "PENDING"
    end;
|}.

Definition digitValue (a : ascii) : option Z :=
  let n := Z.of_N (N_of_ascii a) in
  if ((48 <=? n) && (n <=? 57))%Z then Some (n - 48)%Z else None.

(** the decimal number at the start of a range such as [8080-8085] *)
Fixpoint leadingNumber (acc : Z) (s : string) : Z :=
  match s with
  | EmptyString => acc
  | String a s' =>
      match digitValue a with
      | Some d => leadingNumber (10 * acc + d) s'
      | None => acc
      end
  end.

(** Modelled from the spec: Service Connect in bridge mode is not described;
    this implementation has it disabled, and parses the first port of a
    range. *)
#[global] Instance taskMethods : TaskMethods := {|
  IsServiceConnectEnabled _ := false;
  IsNetworkModeBridge _ := false;
  GetBridgeModePauseContainerForTaskContainer _ _ := None;
  ParsePortRangeToInt := leadingNumber 0;
|}.

(** The fixtures of the integration tests: a container that is to run, and
    a task that owns its containers. *)
Definition createTestContainerWithImageAndName (image name : string)
  : apicontainer.Container :=
  {| apicontainer.Name := name; apicontainer.Image := image;
     apicontainer.Internal := false; apicontainer.Essential := true;
     apicontainer.DesiredStatus := ContainerRunning;
     apicontainer.KnownStatus := ContainerStatusNone;
     apicontainer.SentStatus := ContainerStatusNone;
     apicontainer.SteadyStateStatus := ContainerRunning;
     apicontainer.RuntimeID := ""; apicontainer.KnownExitCode := None;
     apicontainer.Healthy := false;
     apicontainer.KnownPortBindings := [];
     apicontainer.ImageDigest := ""; apicontainer.ApplyingError := None;
     apicontainer.DependsOnUnsafe := [];
     apicontainer.ContainerHasPortRange := false;
     apicontainer.ContainerPortSet := ∅;
     apicontainer.ContainerPortRangeMap := [] |}.

Definition CreateTestTask (arn : string) (launchType : string) (memory : Z)
  (containers : list apicontainer.Container) : apitask.Task :=
  {| apitask.Arn := arn; apitask.IsInternal := false;
     apitask.DesiredStatus := TaskRunning;
     apitask.KnownStatus := TaskStatusNone;
     apitask.SentStatus := TaskStatusNone;
     apitask.Containers := containers;
     apitask.PullStartedAt := None; apitask.PullStoppedAt := None;
     apitask.ExecutionStoppedAt := None;
     apitask.LaunchType := launchType; apitask.CPU := 0;
     apitask.Memory := memory |}.

(** A task at MANIFEST_PULLED whose status was already sent and none of
    whose containers has a digest. *)
Definition manifestPulledSentTask : apitask.Task :=
  apitask.update (CreateTestTask "test-arn" "EC2" 512 [])
    TaskRunning TaskManifestPulled TaskManifestPulled.

(** A container with a requested port range [8000-8199] mapped to the same
    host ports, and [n] singular ports [1000 .. 1000+n-1]. *)
Definition portsContainer (n : nat) : apicontainer.Container :=
  {| apicontainer.Name := "web"; apicontainer.Image := "busybox";
     apicontainer.Internal := false; apicontainer.Essential := true;
     apicontainer.DesiredStatus := ContainerRunning;
     apicontainer.KnownStatus := ContainerRunning;
     apicontainer.SentStatus := ContainerStatusNone;
     apicontainer.SteadyStateStatus := ContainerRunning;
     apicontainer.RuntimeID := "c0ffee"; apicontainer.KnownExitCode := None;
     apicontainer.Healthy := false;
     apicontainer.KnownPortBindings :=
       map (λ i, {| apicontainer.ContainerPort := 1000 + Z.of_nat i;
                    apicontainer.HostPort := 32000 + Z.of_nat i;
                    apicontainer.BindIP := "0.0.0.0";
                    apicontainer.Protocol := "tcp" |}) (seq 0 n)
       ++ [ {| apicontainer.ContainerPort := 8000;
               apicontainer.HostPort := 8000;
               apicontainer.BindIP := "0.0.0.0";
               apicontainer.Protocol := "tcp" |} ];
     apicontainer.ImageDigest := ""; apicontainer.ApplyingError := None;
     apicontainer.DependsOnUnsafe := [];
     apicontainer.ContainerHasPortRange := true;
     apicontainer.ContainerPortSet :=
       list_to_set (map (λ i, 1000 + Z.of_nat i)%Z (seq 0 n));
     apicontainer.ContainerPortRangeMap := [("8000-8199", "8000-8199")] |}.

Definition portsChange (status : ContainerStatus) (n : nat)
  : ContainerStateChange.t :=
  {| ContainerStateChange.TaskArn := "test-arn";
     ContainerStateChange.RuntimeID := "c0ffee";
     ContainerStateChange.ContainerName := "web";
     ContainerStateChange.Status := status;
     ContainerStateChange.ImageDigest := "";
     ContainerStateChange.Reason := "";
     ContainerStateChange.ExitCode := None;
     ContainerStateChange.PortBindings :=
       apicontainer.KnownPortBindings (portsContainer n);
     ContainerStateChange.Container := Some (portsContainer n) |}.

(** A stand-in for the declarations of managed agents and attachments, to
    evaluate the functions on: a container has the one managed agent
    [ExecuteCommandAgent], which is running; an agent is reported when it is
    running or stopped. *)
Inductive ManagedAgentStatus_ref : Set :=
| ManagedAgentStatusNone
| ManagedAgentCreated
| ManagedAgentRunning
| ManagedAgentStopped.

Definition ManagedAgentStatus_name (s : ManagedAgentStatus_ref) : string :=
  match s with
  | ManagedAgentStatusNone => "NONE"
  | ManagedAgentCreated => "CREATED"
  | ManagedAgentRunning => "RUNNING"
  | ManagedAgentStopped => "STOPPED"
  end.

#[global] Instance agentDeclarations : AgentDeclarations := {|
  ManagedAgentStatus := ManagedAgentStatus_ref;
  ManagedAgentStatus_ShouldReportToBackend s :=
    match s with
    | ManagedAgentRunning | ManagedAgentStopped => true
    | _ => false
    end;
  ManagedAgentStatus_String := ManagedAgentStatus_name;
  GetManagedAgentByName _ name :=
    if String.eqb name "ExecuteCommandAgent"
    then Some (name, ManagedAgentRunning) else None;
  ENIAttachment := unit;
|}.

(** A stopped container with exit code 137 and its state change. *)
Definition stoppedContainer : apicontainer.Container :=
  {| apicontainer.Name := "web"; apicontainer.Image := "busybox";
     apicontainer.Internal := false; apicontainer.Essential := true;
     apicontainer.DesiredStatus := ContainerStopped;
     apicontainer.KnownStatus := ContainerStopped;
     apicontainer.SentStatus := ContainerRunning;
     apicontainer.SteadyStateStatus := ContainerRunning;
     apicontainer.RuntimeID := "c0ffee";
     apicontainer.KnownExitCode := Some 137;
     apicontainer.Healthy := false;
     apicontainer.KnownPortBindings := [];
     apicontainer.ImageDigest := "sha256:0123";
     apicontainer.ApplyingError := None;
     apicontainer.DependsOnUnsafe := [];
     apicontainer.ContainerHasPortRange := false;
     apicontainer.ContainerPortSet := ∅;
     apicontainer.ContainerPortRangeMap := [] |}.

Definition stoppedChange (status : ContainerStatus) : ContainerStateChange.t :=
  {| ContainerStateChange.TaskArn := "test-arn";
     ContainerStateChange.RuntimeID := "c0ffee";
     ContainerStateChange.ContainerName := "web";
     ContainerStateChange.Status := status;
     ContainerStateChange.ImageDigest := "sha256:0123";
     ContainerStateChange.Reason := "";
     ContainerStateChange.ExitCode := Some 137;
     ContainerStateChange.PortBindings := [];
     ContainerStateChange.Container := Some stoppedContainer |}.

(** A telemetry message with two task metrics, for requests that are the
    triple of their arguments and a size that counts the task metrics with
    their container and service connect metrics; the limit is 4. *)
Definition metricsRequest : Type :=
  option nat * MetricsMetadata.t
  * option (list (@tcsmetrics.TaskMetric nat nat string)).

Definition newMetricsRequest (instanceMetrics : option nat)
  (metadata : MetricsMetadata.t)
  (taskMetrics : option (list (@tcsmetrics.TaskMetric nat nat string)))
  : metricsRequest :=
  (instanceMetrics, metadata, taskMetrics).

Definition messageSize (request : metricsRequest) : nat :=
  sum_list
    ((λ t, 1 + length (default [] (tcsmetrics.ContainerMetrics t))
           + length (default [] (tcsmetrics.ServiceConnectMetricsWrapper t)))%nat
     <$> default [] request.2).

Definition exceedsSizeLimit (request : metricsRequest) : bool :=
  (4 <? messageSize request)%nat.

Definition telemetryMetadata : MetricsMetadata.t :=
  {| MetricsMetadata.Cluster := Some "default";
     MetricsMetadata.ContainerInstance := Some "instance-1";
     MetricsMetadata.Idle := Some false;
     MetricsMetadata.MessageId := Some "message-1";
     MetricsMetadata.Fin := None |}.

Definition telemetryMessage
  : @tcsmetrics.TelemetryMessage nat nat nat string :=
  {| tcsmetrics.InstanceMetricsOf := Some 7%nat;
     tcsmetrics.Metadata := Some telemetryMetadata;
     tcsmetrics.TaskMetrics :=
       Some [ {| tcsmetrics.ContainerMetrics := Some [1; 2]%nat;
                 tcsmetrics.ServiceConnectMetricsWrapper :=
                   Some [10; 11; 12]%nat;
                 tcsmetrics.Other := "task-1" |};
              {| tcsmetrics.ContainerMetrics := Some [3]%nat;
                 tcsmetrics.ServiceConnectMetricsWrapper := None;
                 tcsmetrics.Other := "task-2" |} ] |}.

End reference.

(** ** The task engine: host resource manager, waiting queue, admission

    The engine is modelled from its design document, with the names that its
    integration tests use ([hostResourceManager], [managedTasks], the waiting
    tasks queue). *)

Module engine.

(** Modelled from the spec: the host resource manager is declared in the
    engine package. Resources are CPU units, memory in MB and host ports. *)
Record Resources : Type := {
  cpu : Z;
  memory : Z;
  ports : gset Z;
}.

(** Modelled from the spec: [ToHostResources] is declared with the task; the
    requirements of a task are its CPU and memory and the host ports its
    containers bind. *)
Definition ToHostResources (t : apitask.Task) : Resources :=
  {| cpu := apitask.CPU t;
     memory := apitask.Memory t;
     ports :=
       list_to_set
         (flat_map (λ c, map apicontainer.HostPort
                           (apicontainer.KnownPortBindings c))
            (apitask.Containers t)) |}.

(** Modelled from the spec: the state of the resource ledger, "total capacity
    and a mapping task-ARN to consumed amounts". The ports of [total] are the
    ports reserved on the host. *)
Record HostResourceManager : Type := {
  total : Resources;
  consumed : gmap string Resources;
}.

(** Modelled from the spec: the amounts in use are the sums of the consumed
    amounts over all tasks of the ledger. *)
Definition usedCPU (h : HostResourceManager) : Z :=
  map_fold (λ _ r acc, cpu r + acc)%Z 0%Z (consumed h).

Definition usedMemory (h : HostResourceManager) : Z :=
  map_fold (λ _ r acc, memory r + acc)%Z 0%Z (consumed h).

Definition usedPorts (h : HostResourceManager) : gset Z :=
  map_fold (λ _ r acc, ports r ∪ acc) ∅ (consumed h).

(** Modelled from the spec: "requirements fit within remaining capacity";
    a requested host port must be neither reserved nor in use. *)
Definition fits (h : HostResourceManager) (r : Resources) : bool :=
  bool_decide (cpu r ≤ cpu (total h) - usedCPU h)%Z
  && bool_decide (memory r ≤ memory (total h) - usedMemory h)%Z
  && bool_decide (ports r ## ports (total h) ∪ usedPorts h).

(** The launch types that are exempt from accounting, as the table of
    [TestHostResourceManagerLaunchTypeBehavior] fixes them: a FARGATE task is
    not accounted, and the launch types EC2, EXTERNAL, an unknown string and
    the empty string are. *)
Definition exemptLaunchType (launchType : string) : bool :=
  String.eqb launchType "FARGATE".

(** Modelled from the spec: [IsConsuming], which the tests read as
    [checkTaskConsumed]. *)
Definition IsConsuming (h : HostResourceManager) (taskArn : string) : bool :=
  bool_decide (is_Some (consumed h !! taskArn)).

(** Modelled from the spec: [TryConsume] always succeeds for an exempt launch
    type and records nothing; it succeeds at most once per task without an
    intervening release; otherwise it records the requirements when they fit
    and records nothing when they do not. *)
Definition TryConsume (h : HostResourceManager) (t : apitask.Task)
  : bool * HostResourceManager :=
  if exemptLaunchType (apitask.LaunchType t) then (true, h)
  else if IsConsuming h (apitask.Arn t) then (false, h)
  else if fits h (ToHostResources t) then
    (true, {| total := total h;
              consumed := <[apitask.Arn t := ToHostResources t]> (consumed h) |})
  else (false, h).

(** Modelled from the spec: [Release] returns the consumed resources of the
    task to the pool; unknown and already released tasks are left alone. *)
Definition Release (h : HostResourceManager) (taskArn : string)
  : HostResourceManager :=
  {| total := total h; consumed := delete taskArn (consumed h) |}.

(** Modelled from the spec: an entry of the waiting queue, "(task reference,
    enqueue time)"; the queue is the list of its entries, front first. *)
Record Entry : Type := {
  entryTask : apitask.Task;
  enqueueTime : Z;
}.

Definition entryArn (e : Entry) : string := apitask.Arn (entryTask e).

(** Modelled from the spec: the operations of the waiting queue. [Enqueue]
    appends to the back, [PeekFront] inspects the front, [Dequeue] removes it
    and [Remove] takes a task out wherever it stands, keeping the order of the
    others. *)
Definition Enqueue (q : list Entry) (t : apitask.Task) (now : Z) : list Entry :=
  q ++ [ {| entryTask := t; enqueueTime := now |} ].


Definition Dequeue (q : list Entry) : option apitask.Task * list Entry :=
  match q with
  | [] => (None, [])
  | e :: q' => (Some (entryTask e), q')
  end.

Definition Remove (taskArn : string) (q : list Entry) : bool * list Entry :=
  (bool_decide (taskArn ∈ entryArn <$> q),
   filter (λ e, entryArn e ≠ taskArn) q).

(** Modelled from the spec: the events on the stream [StateChangeEvents()],
    by entity and status. *)
Inductive Event : Type :=
| TaskEvent (taskArn : string) (status : TaskStatus)
| ContainerEvent (taskArn containerName : string) (status : ContainerStatus).

Definition containerEvents (t : apitask.Task) (status : ContainerStatus)
  : list Event :=
  (λ c, ContainerEvent (apitask.Arn t) (apicontainer.Name c) status)
  <$> apitask.Containers t.

(** Modelled from the spec: the engine owns the ledger, the waiting queue and
    the registry of managed tasks; [containers] lists the containers that
    exist in the runtime as (task ARN, container name), [stateChangeEvents]
    the emitted events, oldest first, and [clock] stamps the queue entries. *)
Record DockerTaskEngine : Type := {
  hostResourceManager : HostResourceManager;
  waitingTasksQueue : list Entry;
  managedTasks : list apitask.Task;
  containers : list (string * string);
  stateChangeEvents : list Event;
  clock : Z;
}.

Definition NewDockerTaskEngine (capacity : Resources) : DockerTaskEngine :=
  {| hostResourceManager := {| total := capacity; consumed := ∅ |};
     waitingTasksQueue := [];
     managedTasks := [];
     containers := [];
     stateChangeEvents := [];
     clock := 0 |}.

Definition hasArn (taskArn : string) (t : apitask.Task) : bool :=
  bool_decide (apitask.Arn t = taskArn).

(** Modelled from the spec: admission retry, "dequeue and admit the new front
    of the waiting queue, repeating while admission succeeds". The result is
    the ledger, the admitted tasks in order and the remaining queue. *)
Fixpoint admitWaiting (h : HostResourceManager) (q : list Entry)
  : HostResourceManager * list apitask.Task * list Entry :=
  match q with
  | [] => (h, [], [])
  | e :: q' =>
      match TryConsume h (entryTask e) with
      | (true, h') =>
          let '(h'', admitted, rest) := admitWaiting h' q' in
          (h'', entryTask e :: admitted, rest)
      | (false, _) => (h, [], q)
      end
  end.

(** Modelled from the spec: the external stop of a queued task removes it
    from the queue and synthesises its STOPPED events at once. *)
Definition stopQueuedTask (e : DockerTaskEngine) (taskArn : string)
  : DockerTaskEngine :=
  let stopped :=
    flat_map (λ entry,
        if bool_decide (entryArn entry = taskArn)
        then containerEvents (entryTask entry) ContainerStopped
             ++ [TaskEvent taskArn TaskStopped]
        else [])
      (waitingTasksQueue e) in
  {| hostResourceManager := hostResourceManager e;
     waitingTasksQueue := (Remove taskArn (waitingTasksQueue e)).2;
     managedTasks := managedTasks e;
     containers := containers e;
     stateChangeEvents := stateChangeEvents e ++ stopped;
     clock := clock e |}.

(** Modelled from the spec: [AddTask]. A known ARN is an update, of which
    the model keeps the stop request: a managed task has its desired status
    set to STOPPED and is torn down by its own loop, a queued task is stopped
    at once. A new task is admitted when [TryConsume] succeeds and enqueued
    otherwise. *)
Definition AddTask (e : DockerTaskEngine) (t : apitask.Task)
  : DockerTaskEngine :=
  if existsb (hasArn (apitask.Arn t)) (managedTasks e) then
    if decide (apitask.DesiredStatus t = TaskStopped) then
      {| hostResourceManager := hostResourceManager e;
         waitingTasksQueue := waitingTasksQueue e;
         managedTasks :=
           (λ m, if hasArn (apitask.Arn t) m
                 then apitask.SetDesiredStatus TaskStopped m else m)
           <$> managedTasks e;
         containers := containers e;
         stateChangeEvents := stateChangeEvents e;
         clock := clock e |}
    else e
  else if bool_decide (apitask.Arn t ∈ entryArn <$> waitingTasksQueue e) then
    if decide (apitask.DesiredStatus t = TaskStopped) then
      stopQueuedTask e (apitask.Arn t)
    else e
  else
    match TryConsume (hostResourceManager e) t with
    | (true, h') =>
        {| hostResourceManager := h';
           waitingTasksQueue := waitingTasksQueue e;
           managedTasks := managedTasks e ++ [t];
           containers := containers e;
           stateChangeEvents := stateChangeEvents e;
           clock := clock e |}
    | (false, _) =>
        {| hostResourceManager := hostResourceManager e;
           waitingTasksQueue := Enqueue (waitingTasksQueue e) t (clock e);
           managedTasks := managedTasks e;
           containers := containers e;
           stateChangeEvents := stateChangeEvents e;
           clock := clock e + 1 |}
    end.

(** Modelled from the spec: one pass of the loop of a managed task. A task
    that is to stop reaches STOPPED; otherwise the task advances by one status
    towards RUNNING, creating its containers on the way to CREATED. The result
    is the task, the events and whether the containers were created. *)
Definition progressTask (t : apitask.Task)
  : apitask.Task * list Event * bool :=
  match apitask.KnownStatus t with
  | TaskStopped => (t, [], false)
  | known =>
      if decide (apitask.DesiredStatus t = TaskStopped) then
        (apitask.SetKnownStatus TaskStopped t,
         containerEvents t ContainerStopped
         ++ [TaskEvent (apitask.Arn t) TaskStopped], false)
      else
        match known with
        | TaskStatusNone =>
            (apitask.SetKnownStatus TaskManifestPulled t,
             containerEvents t ContainerManifestPulled
             ++ [TaskEvent (apitask.Arn t) TaskManifestPulled], false)
        | TaskManifestPulled =>
            (apitask.SetKnownStatus TaskCreated t, [], true)
        | TaskCreated =>
            (apitask.SetKnownStatus TaskRunning t,
             containerEvents t ContainerRunning
             ++ [TaskEvent (apitask.Arn t) TaskRunning], false)
        | _ => (t, [], false)
        end
  end.

Definition Progress (e : DockerTaskEngine) (taskArn : string)
  : DockerTaskEngine :=
  match find (hasArn taskArn) (managedTasks e) with
  | None => e
  | Some t =>
      let '(t', evs, creates) := progressTask t in
      {| hostResourceManager := hostResourceManager e;
         waitingTasksQueue := waitingTasksQueue e;
         managedTasks :=
           (λ m, if hasArn taskArn m then t' else m) <$> managedTasks e;
         containers :=
           if creates
           then containers e
                ++ ((λ c, (taskArn, apicontainer.Name c))
                    <$> apitask.Containers t)
           else containers e;
         stateChangeEvents := stateChangeEvents e ++ evs;
         clock := clock e |}
  end.

(** Modelled from the spec: cleanup of a stopped task. Its containers are
    torn down, it leaves the registry, its resources are released and the
    waiting queue is given the opportunity to admit. *)
Definition Cleanup (e : DockerTaskEngine) (taskArn : string)
  : DockerTaskEngine :=
  match find (hasArn taskArn) (managedTasks e) with
  | Some t =>
      if decide (apitask.KnownStatus t = TaskStopped) then
        let '(h, admitted, rest) :=
          admitWaiting (Release (hostResourceManager e) taskArn)
            (waitingTasksQueue e) in
        {| hostResourceManager := h;
           waitingTasksQueue := rest;
           managedTasks :=
             filter (λ m, apitask.Arn m ≠ taskArn) (managedTasks e)
             ++ admitted;
           containers := filter (λ c, c.1 ≠ taskArn) (containers e);
           stateChangeEvents := stateChangeEvents e;
           clock := clock e |}
      else e
  | None => e
  end.

(** Modelled from the spec: what happens to an engine. A task specification
    arrives, the loop of a managed task makes a pass, a stopped task is
    cleaned up. *)
Inductive Op : Type :=
| OpAddTask (t : apitask.Task)
| OpProgress (taskArn : string)
| OpCleanup (taskArn : string).

Definition step (e : DockerTaskEngine) (op : Op) : DockerTaskEngine :=
  match op with
  | OpAddTask t => AddTask e t
  | OpProgress taskArn => Progress e taskArn
  | OpCleanup taskArn => Cleanup e taskArn
  end.

Definition run (capacity : Resources) (ops : list Op) : DockerTaskEngine :=
  foldl step (NewDockerTaskEngine capacity) ops.

(** The invariant of the reachable engines. *)
Record invariant (e : DockerTaskEngine) : Prop := {
  inv_sorted :
    StronglySorted (λ a b, enqueueTime a < enqueueTime b)%Z
      (waitingTasksQueue e);
  inv_clock :
    Forall (λ entry, enqueueTime entry < clock e)%Z (waitingTasksQueue e);
  inv_nodup :
    NoDup ((apitask.Arn <$> managedTasks e)
           ++ (entryArn <$> waitingTasksQueue e));
  inv_consumed :
    ∀ taskArn, is_Some (consumed (hostResourceManager e) !! taskArn) →
      ∃ t, t ∈ managedTasks e ∧ apitask.Arn t = taskArn
           ∧ exemptLaunchType (apitask.LaunchType t) = false;
  inv_containers :
    ∀ c, c ∈ containers e → c.1 ∈ apitask.Arn <$> managedTasks e;
}.

(** The host of the integration tests: 1024 MB of memory. *)
Definition getTestHostResources : Resources :=
  {| cpu := 2048; memory := 1024; ports := {[22%Z; 2375%Z; 2376%Z; 51678%Z; 51679%Z]} |}.

End engine.

(** ** Dependency graph and container progression

    Both live in [agent/engine] as well and are modelled from the design
    document. *)

Module dependencygraph.



End dependencygraph.

(** The runtime driver, an external collaborator: [None] and [false] are its
    failures. *)
Class RuntimeDriver : Type := {
  PullImageManifest : string → option string;
  PullImage : string → bool;
  CreateContainer : apicontainer.Container → option string;
  StartContainer : string → bool;
  StopContainer : string → bool;
}.

Module taskmanager.
Section progression.
Context `{RuntimeDriver}.

(** Modelled from the spec: the status that follows a known status in the
    order of the data model. *)
Definition nextStatus (s : ContainerStatus) : ContainerStatus :=
  match s with
  | ContainerStatusNone => ContainerPulled
  | ContainerPulled => ContainerManifestPulled
  | ContainerManifestPulled => ContainerCreated
  | ContainerCreated => ContainerRunning
  | ContainerRunning => ContainerResourcesProvisioned
  | ContainerResourcesProvisioned => ContainerStopped
  | ContainerStopped => ContainerStopped
  end.

(** Modelled from the spec: the step that a container takes next towards a
    target; a stop is always the next step of a container that is to stop. *)
Definition nextStep (c : apicontainer.Container) (targetStatus : ContainerStatus)
  : ContainerStatus :=
  if decide (targetStatus = ContainerStopped) then ContainerStopped
  else nextStatus (apicontainer.KnownStatus c).

(** Modelled from the spec: [Progress] invokes the runtime operation of the
    next step towards the target and then updates the known status; a target
    at or below the known status is a no-op, and a failed step leaves the
    known status where it is and records the reason. *)
Definition Progress (c : apicontainer.Container) (targetStatus : ContainerStatus)
  : apicontainer.Container :=
  if apicontainerstatus.geb (apicontainer.KnownStatus c) targetStatus then c
  else
    match nextStep c targetStatus with
    | ContainerPulled =>
        if PullImage (apicontainer.Image c)
        then apicontainer.SetKnownStatus ContainerPulled c
        else apicontainer.SetApplyingError "image pull failed" c
    | ContainerManifestPulled =>
        match PullImageManifest (apicontainer.Image c) with
        | Some digest =>
            apicontainer.SetKnownStatus ContainerManifestPulled
              (apicontainer.SetImageDigest digest c)
        | None => apicontainer.SetApplyingError "manifest pull failed" c
        end
    | ContainerCreated =>
        match CreateContainer c with
        | Some runtimeID =>
            apicontainer.SetKnownStatus ContainerCreated
              (apicontainer.SetRuntimeID runtimeID c)
        | None => apicontainer.SetApplyingError "create failed" c
        end
    | ContainerRunning =>
        if StartContainer (apicontainer.RuntimeID c)
        then apicontainer.SetKnownStatus ContainerRunning c
        else apicontainer.SetApplyingError "start failed" c
    | ContainerStopped =>
        if StopContainer (apicontainer.RuntimeID c)
        then apicontainer.SetKnownStatus ContainerStopped c
        else apicontainer.SetApplyingError "stop failed" c
    | other => apicontainer.SetKnownStatus other c
    end.


End progression.
End taskmanager.

(** ** The scenarios of the integration tests *)

Module scenario.
Import engine.

Definition containerA : apicontainer.Container :=
  reference.createTestContainerWithImageAndName "busybox" "A".



(** a stop request as the backend sends it: the ARN and the desired status *)
Definition stopTask (taskArn : string) : apitask.Task :=
  apitask.SetDesiredStatus TaskStopped
    (reference.CreateTestTask taskArn "EC2" 0 []).


(** [TestHostResourceManagerStopTaskNotBlockWaitingTasks]: a task of 768 MB
    runs and a second one waits. *)
Definition bigTask (i : string) : apitask.Task :=
  reference.CreateTestTask ("IntegTaskArn-" +:+ i) "EC2" 768 [containerA].

Definition waitingOps : list Op :=
  [ OpAddTask (bigTask "0"); OpProgress "IntegTaskArn-0";
    OpProgress "IntegTaskArn-0"; OpProgress "IntegTaskArn-0";
    OpAddTask (stopTask "IntegTaskArn-0"); OpAddTask (bigTask "1") ].




(** a runtime in which every operation succeeds *)
#[global] Instance runtime : RuntimeDriver := {|
  PullImageManifest _ :=
    Some "sha256:c3839dd800b9eb7603340509769c43e146a74c63dca3045a8e7dc8ee07e53966";
  PullImage _ := true;
  CreateContainer c := Some ("docker-" +:+ apicontainer.Name c);
  StartContainer _ := true;
  StopContainer _ := true;
|}.

End scenario.

(** ** Theorems about [utils] *)

Lemma prefix_app_same (p s : string) : String.prefix p (p +:+ s) = true.
Proof.
  induction p as [|a p IH]; simpl.
  - by destruct s.
  - rewrite IH. by destruct (ascii_dec a a).
Qed.

Lemma AddScheme_has_scheme (s : string) :
  s ≠ "" → utils.schemeRegex_MatchString (utils.AddScheme s) = true.
Proof.
  intros Hne. unfold utils.AddScheme.
  destruct (String.eqb_spec s ""); [done|].
  destruct (utils.schemeRegex_MatchString s) eqn:Hm; [done|].
  unfold utils.schemeRegex_MatchString, utils.httpsPrefix.
  by rewrite (prefix_app_same "https://" s), orb_true_r.
Qed.

Lemma AddScheme_cases :
  utils.AddScheme "" = ""
  ∧ (∀ s, String.prefix "http://" s = true ∨ String.prefix "https://" s = true →
          utils.AddScheme s = s)
  ∧ (∀ s, s ≠ "" → String.prefix "http://" s = false →
          String.prefix "https://" s = false →
          utils.AddScheme s = "https://" +:+ s).
Proof.
  split; [done|]. split.
  - intros s Hs. unfold utils.AddScheme.
    destruct (String.eqb s ""); [done|].
    unfold utils.schemeRegex_MatchString.
    by destruct Hs as [-> | ->]; rewrite ?orb_true_r.
  - intros s Hne H1 H2. unfold utils.AddScheme.
    destruct (String.eqb_spec s ""); [done|].
    unfold utils.schemeRegex_MatchString. by rewrite H1, H2.
Qed.

(** ** Theorems about [statechange.go] *)

Section statechange_facts.
Context `{StatusMethods} `{TaskMethods}.



(** Every exit of [NewTaskStateChangeEvent] with an error carries the zero
    event. *)
Lemma NewTaskStateChangeEvent_error_zero task reason err :
  (api.NewTaskStateChangeEvent task reason).2 = Some err →
  (api.NewTaskStateChangeEvent task reason).1 = TaskStateChange.zero.
Proof.
  unfold api.NewTaskStateChangeEvent.
  repeat (case_match; simpl; try done).
Qed.




Lemma newUnchecked_internal task cont reason :
  apicontainer.IsInternal cont = true →
  api.newUncheckedContainerStateChangeEvent task cont reason
  = (ContainerStateChange.zero,
     Some (ErrShouldNotSendEvent (apicontainer.Name cont))).
Proof.
  intros Hi. unfold api.newUncheckedContainerStateChangeEvent.
  by rewrite Hi.
Qed.

Lemma newUnchecked_ok task cont reason :
  apicontainer.IsInternal cont = false →
  api.pauseContainerResolves task cont →
  ∃ event,
    api.newUncheckedContainerStateChangeEvent task cont reason
    = (event, None)
    ∧ ContainerStateChange.Status event
      = api.containerStatusChangeStatus (apicontainer.GetKnownStatus cont)
          (apicontainer.GetSteadyStateStatus cont)
    ∧ ContainerStateChange.ImageDigest event = apicontainer.ImageDigest cont
    ∧ ContainerStateChange.ContainerName event = apicontainer.Name cont
    ∧ ContainerStateChange.Container event = Some cont.
Proof.
  intros Hi Hp. unfold api.newUncheckedContainerStateChangeEvent.
  rewrite Hi. unfold api.pauseContainerResolves in Hp.
  destruct (IsServiceConnectEnabled task && IsNetworkModeBridge task) eqn:Hsc.
  - destruct Hp as [Hp | [pc Hp]]; [congruence|]. rewrite Hp. by eexists.
  - by eexists.
Qed.

End statechange_facts.


(** C7: events of internal tasks and internal containers are filtered. For a
    task with [IsInternal] set, [NewTaskStateChangeEvent] returns the empty
    event and an [ErrShouldNotSendEvent] naming the task; for a container whose
    [IsInternal()] holds, [NewContainerStateChangeEvent] returns the empty
    event and an [ErrShouldNotSendEvent] naming the container; the statuses of
    either play no role. *)
Theorem C7_internal_suppressed `{StatusMethods} `{TaskMethods}
  (task : apitask.Task) (cont : apicontainer.Container) (reason : string) :
  (apitask.IsInternal task = true →
   api.NewTaskStateChangeEvent task reason
   = (TaskStateChange.zero, Some (ErrShouldNotSendEvent (apitask.Arn task))))
  ∧ (apicontainer.IsInternal cont = true →
     api.NewContainerStateChangeEvent task cont reason
     = (ContainerStateChange.zero,
        Some (ErrShouldNotSendEvent (apicontainer.Name cont)))).
Proof.
  split.
  - intros Hi. unfold api.NewTaskStateChangeEvent. by rewrite Hi.
  - intros Hi. unfold api.NewContainerStateChangeEvent.
    by rewrite newUnchecked_internal.
Qed.

(** C8: the reported container status. [containerStatusChangeStatus] takes
    its cases in order: RUNNING when the known status is the steady-state
    status, else MANIFEST_PULLED when the known status is MANIFEST_PULLED,
    else STOPPED when it is STOPPED, else NONE. Its result is always one of
    NONE, MANIFEST_PULLED, RUNNING and STOPPED, and PULLED and CREATED, when
    they are not the steady state, map to NONE. *)
Theorem C8_containerStatusChangeStatus
  (knownStatus steadyStateStatus : ContainerStatus) :
  api.containerStatusChangeStatus knownStatus steadyStateStatus
  = (if decide (knownStatus = steadyStateStatus) then ContainerRunning
     else if decide (knownStatus = ContainerManifestPulled)
          then ContainerManifestPulled
     else if decide (knownStatus = ContainerStopped) then ContainerStopped
     else ContainerStatusNone)
  ∧ api.containerStatusChangeStatus knownStatus steadyStateStatus
    ∈ [ContainerStatusNone; ContainerManifestPulled; ContainerRunning;
       ContainerStopped]
  ∧ (knownStatus = steadyStateStatus →
     api.containerStatusChangeStatus knownStatus steadyStateStatus
     = ContainerRunning)
  ∧ (knownStatus ≠ steadyStateStatus →
     api.containerStatusChangeStatus knownStatus steadyStateStatus
     = match knownStatus with
       | ContainerManifestPulled => ContainerManifestPulled
       | ContainerStopped => ContainerStopped
       | _ => ContainerStatusNone
       end).
Proof.
  unfold api.containerStatusChangeStatus. split; [done|]. split; [|split].
  - repeat case_decide; set_solver.
  - intros ->. by case_decide.
  - intros Hne. case_decide; [done|].
    by destruct knownStatus.
Qed.

Section manifest_pulled.
Context `{StatusMethods} `{TaskMethods}.

Lemma task_manifest_pulled_no_digest task reason :
  apitask.GetKnownStatus task = TaskManifestPulled →
  apitask.HasAContainerWithResolvedDigest task = false →
  ∃ err,
    api.NewTaskStateChangeEvent task reason
    = (TaskStateChange.zero, Some err)
    ∧ isErrShouldNotSendEvent (Some err)
      = apitask.IsInternal task
        || negb (apitaskstatus.geb (apitask.GetSentStatus task)
                   (apitask.GetKnownStatus task)).
Proof.
  intros Hk Hd. unfold api.NewTaskStateChangeEvent.
  destruct (apitask.IsInternal task); [by eexists|].
  rewrite Hk, Hd. rewrite bool_decide_eq_false_2 by (by intros []).
  simpl. destruct (apitaskstatus.geb _ _); by eexists.
Qed.

Lemma container_manifest_pulled_no_digest task cont reason :
  apicontainer.GetKnownStatus cont = ContainerManifestPulled →
  apicontainer.DigestResolved cont = false →
  ∃ err,
    (api.NewContainerStateChangeEvent task cont reason).2 = Some err
    ∧ (apicontainer.IsInternal cont = true
       ∨ api.pauseContainerResolves task cont →
       isErrShouldNotSendEvent (Some err) = true).
Proof.
  intros Hk Hd. unfold api.NewContainerStateChangeEvent.
  destruct (apicontainer.IsInternal cont) eqn:Hi.
  - rewrite newUnchecked_internal by done. by eexists.
  - destruct (api.newUncheckedContainerStateChangeEvent task cont reason)
      as [event [err|]] eqn:Hu.
    + eexists. split; [done|]. intros [?|Hp]; [done|].
      destruct (newUnchecked_ok task cont reason Hi Hp) as (ev & Hev & _).
      congruence.
    + rewrite Hk, Hd. rewrite bool_decide_eq_false_2 by (by intros []).
      simpl. by eexists.
Qed.

End manifest_pulled.

(** C3 (amended): a MANIFEST_PULLED event is created only when a digest was
    resolved. For a task whose known status is MANIFEST_PULLED and none of
    whose containers has a resolved digest, [NewTaskStateChangeEvent] returns
    the empty event and an error; the error is an [ErrShouldNotSendEvent]
    exactly when the task is internal or its sent status is below its known
    status, and the plain "already sent" error otherwise. For a container
    whose known status is MANIFEST_PULLED and whose digest is not resolved,
    [NewContainerStateChangeEvent] returns an error, which is an
    [ErrShouldNotSendEvent] whenever the container is internal or the lookup
    of the pause container does not fail. Conversely a created event for
    MANIFEST_PULLED witnesses a resolved digest. *)
Theorem C3_manifest_pulled_needs_digest `{StatusMethods} `{TaskMethods}
  (task : apitask.Task) (cont : apicontainer.Container) (reason : string) :
  (apitask.GetKnownStatus task = TaskManifestPulled →
   apitask.HasAContainerWithResolvedDigest task = false →
   ∃ err,
     api.NewTaskStateChangeEvent task reason
     = (TaskStateChange.zero, Some err)
     ∧ isErrShouldNotSendEvent (Some err)
       = apitask.IsInternal task
         || negb (apitaskstatus.geb (apitask.GetSentStatus task)
                    (apitask.GetKnownStatus task)))
  ∧ (apicontainer.GetKnownStatus cont = ContainerManifestPulled →
     apicontainer.DigestResolved cont = false →
     ∃ err,
       (api.NewContainerStateChangeEvent task cont reason).2 = Some err
       ∧ (apicontainer.IsInternal cont = true
          ∨ api.pauseContainerResolves task cont →
          isErrShouldNotSendEvent (Some err) = true))
  ∧ (apitask.GetKnownStatus task = TaskManifestPulled →
     (api.NewTaskStateChangeEvent task reason).2 = None →
     apitask.HasAContainerWithResolvedDigest task = true)
  ∧ (apicontainer.GetKnownStatus cont = ContainerManifestPulled →
     (api.NewContainerStateChangeEvent task cont reason).2 = None →
     apicontainer.DigestResolved cont = true).
Proof.
  split; [apply task_manifest_pulled_no_digest|].
  split; [apply container_manifest_pulled_no_digest|].
  split.
  - intros Hk Hnone.
    destruct (apitask.HasAContainerWithResolvedDigest task) eqn:Hd; [done|].
    destruct (task_manifest_pulled_no_digest task reason Hk Hd)
      as (err & Herr & _).
    rewrite Herr in Hnone. done.
  - intros Hk Hnone.
    destruct (apicontainer.DigestResolved cont) eqn:Hd; [done|].
    destruct (container_manifest_pulled_no_digest task cont reason Hk Hd)
      as (err & Herr & _).
    congruence.
Qed.

(** C3 as stated fails: a task at MANIFEST_PULLED whose status was already
    sent and that has no resolved digest gets the plain "already sent" error,
    not an [ErrShouldNotSendEvent]. *)
Lemma C3_counterexample :
  ¬ (∀ (task : apitask.Task) (reason : string),
       apitask.GetKnownStatus task = TaskManifestPulled →
       apitask.HasAContainerWithResolvedDigest task = false →
       isErrShouldNotSendEvent
         (api.NewTaskStateChangeEvent task reason).2 = true).
Proof.
  intros Hclaim.
  specialize (Hclaim reference.manifestPulledSentTask "" eq_refl eq_refl).
  vm_compute in Hclaim. discriminate.
Qed.

Section payload.
Context `{StatusMethods} `{TaskMethods}.

Lemma getNetworkBindings_returns change cont :
  ContainerStateChange.Container change = Some cont →
  ∃ networkBindings, api.getNetworkBindings change = Returns networkBindings.
Proof. intros Hc. unfold api.getNetworkBindings. rewrite Hc. by eexists. Qed.

Lemma supportedUpstream_guard stat :
  bool_decide (stat ≠ ContainerManifestPulled)
  && bool_decide (stat ≠ ContainerStopped)
  && bool_decide (stat ≠ ContainerRunning)
  = bool_decide (¬ api.supportedUpstream stat).
Proof.
  unfold api.supportedUpstream. by destruct stat.
Qed.

End payload.

(** C9 (amended): the limit on network bindings. Let the change name its
    container and carry one of the statuses MANIFEST_PULLED, RUNNING and
    STOPPED. If the container requested a port range and more than 100
    network bindings were computed, [buildContainerStateChangePayload] returns
    an error and no payload; otherwise it returns a payload that holds the
    computed network bindings, and no error. A change without a container
    name yields an error and no payload, and a change with any other status
    yields neither payload nor error, whatever its bindings. *)
Theorem C9_network_bindings_limit `{StatusMethods} `{TaskMethods}
  (change : ContainerStateChange.t) (cont : apicontainer.Container) :
  ContainerStateChange.Container change = Some cont →
  ∃ networkBindings,
    api.getNetworkBindings change = Returns networkBindings
    ∧ (ContainerStateChange.ContainerName change ≠ "" →
       api.supportedUpstream (ContainerStateChange.Status change) →
       if apicontainer.HasPortRange cont
          && (100 <? Z.of_nat (length networkBindings))%Z
       then ∃ err,
         api.buildContainerStateChangePayload change
         = Returns (None, Some err)
       else ∃ payload,
         api.buildContainerStateChangePayload change
         = Returns (Some payload, None)
         ∧ types.NetworkBindings payload = networkBindings)
    ∧ (ContainerStateChange.ContainerName change = "" →
       ∃ err,
         api.buildContainerStateChangePayload change
         = Returns (None, Some err))
    ∧ (ContainerStateChange.ContainerName change ≠ "" →
       ¬ api.supportedUpstream (ContainerStateChange.Status change) →
       api.buildContainerStateChangePayload change = Returns (None, None)).
Proof.
  intros Hc.
  destruct (getNetworkBindings_returns change cont Hc) as [nbs Hnbs].
  exists nbs. split; [done|].
  unfold api.buildContainerStateChangePayload.
  rewrite supportedUpstream_guard, Hnbs, Hc.
  split; [|split].
  - intros Hname Hsup.
    destruct (String.eqb_spec (ContainerStateChange.ContainerName change) "");
      [done|].
    rewrite bool_decide_eq_false_2 by (by intros Hn).
    unfold api.ecsMaxNetworkBindingsLength.
    destruct (_ && _); by eexists.
  - intros ->. simpl. by eexists.
  - intros Hname Hsup.
    destruct (String.eqb_spec (ContainerStateChange.ContainerName change) "");
      [done|].
    by rewrite bool_decide_eq_true_2.
Qed.

(** C9 as stated fails: for a change whose status is NONE the function
    returns neither a payload nor an error, although its container requested
    a port range and 101 network bindings were computed. *)
Lemma C9_counterexample :
  ¬ (∀ (change : ContainerStateChange.t) (cont : apicontainer.Container)
       (networkBindings : list types.NetworkBinding),
       ContainerStateChange.Container change = Some cont →
       api.getNetworkBindings change = Returns networkBindings →
       (apicontainer.HasPortRange cont = true
        ∧ (100 < Z.of_nat (length networkBindings))%Z →
        ∃ err,
          api.buildContainerStateChangePayload change
          = Returns (None, Some err))
       ∧ (¬ (apicontainer.HasPortRange cont = true
             ∧ (100 < Z.of_nat (length networkBindings))%Z) →
          ∃ payload,
            api.buildContainerStateChangePayload change
            = Returns (Some payload, None)
            ∧ types.NetworkBindings payload = networkBindings)).
Proof.
  intros Hclaim.
  destruct (Hclaim (reference.portsChange ContainerStatusNone 100)
              (reference.portsContainer 100) _ eq_refl eq_refl) as [Herr _].
  destruct Herr as (err & Herr).
  - split; [reflexivity|]. vm_compute. reflexivity.
  - vm_compute in Herr. discriminate.
Qed.

(** C10: [AddScheme] returns the empty string unchanged, returns a string
    that starts with [http://] or [https://] unchanged, and puts [https://]
    in front of any other string; hence it is idempotent. *)
Theorem C10_AddScheme_idempotent (s : string) :
  utils.AddScheme "" = ""
  ∧ (String.prefix "http://" s = true ∨ String.prefix "https://" s = true →
     utils.AddScheme s = s)
  ∧ (s ≠ "" → String.prefix "http://" s = false →
     String.prefix "https://" s = false →
     utils.AddScheme s = "https://" +:+ s)
  ∧ utils.AddScheme (utils.AddScheme s) = utils.AddScheme s.
Proof.
  destruct AddScheme_cases as (He & Hp & Hn).
  split; [done|]. split; [apply Hp|]. split; [apply Hn|].
  destruct (String.eqb_spec s "") as [->|Hne]; [done|].
  pose proof (AddScheme_has_scheme s Hne) as Hm.
  unfold utils.AddScheme at 1.
  rewrite Hm. by destruct (String.eqb _ "").
Qed.

(** ** Theorems about the engine *)

Section ledger_facts.
Import engine.


Lemma TryConsume_false h t h' : TryConsume h t = (false, h') → h' = h.
Proof.
  unfold TryConsume. intros Ht.
  repeat case_match; by simplify_eq.
Qed.

(** A successful [TryConsume] either concerns an exempt task and leaves the
    ledger alone, or records the requirements of a task that was not yet
    consuming. *)
Lemma TryConsume_true h t h' :
  TryConsume h t = (true, h') →
  (exemptLaunchType (apitask.LaunchType t) = true ∧ h' = h)
  ∨ (exemptLaunchType (apitask.LaunchType t) = false
     ∧ IsConsuming h (apitask.Arn t) = false
     ∧ fits h (ToHostResources t) = true
     ∧ total h' = total h
     ∧ consumed h' = <[apitask.Arn t := ToHostResources t]> (consumed h)).
Proof.
  unfold TryConsume. intros Ht.
  destruct (exemptLaunchType _); [left; by simplify_eq|].
  destruct (IsConsuming _ _); [done|].
  destruct (fits _ _); [|done].
  right. by simplify_eq.
Qed.

Lemma IsConsuming_false h taskArn :
  IsConsuming h taskArn = false ↔ consumed h !! taskArn = None.
Proof.
  unfold IsConsuming. rewrite bool_decide_eq_false, <-eq_None_not_Some. done.
Qed.

Lemma Release_not_consuming h taskArn :
  IsConsuming h taskArn = false → Release h taskArn = h.
Proof.
  rewrite IsConsuming_false. intros Hn. unfold Release.
  destruct h as [tot con]; simpl in *. f_equal. by apply delete_id.
Qed.

Lemma Release_idempotent h taskArn :
  Release (Release h taskArn) taskArn = Release h taskArn.
Proof.
  apply Release_not_consuming, IsConsuming_false. simpl.
  apply lookup_delete_eq.
Qed.

(** Admission takes a prefix of the queue: the admitted tasks are the tasks
    of the entries in front of the remaining queue, in queue order; every one
    of them was consumed successfully, and the new front, if any, does not
    fit. *)
Lemma admitWaiting_prefix h q h' admitted rest :
  admitWaiting h q = (h', admitted, rest) →
  ∃ front, q = front ++ rest ∧ admitted = entryTask <$> front.
Proof.
  revert h h' admitted rest.
  induction q as [|e q IH]; intros h h' admitted rest Ha; simpl in Ha.
  - simplify_eq. by exists [].
  - destruct (TryConsume h (entryTask e)) as [[] h1] eqn:Ht.
    + destruct (admitWaiting h1 q) as [[h2 adm] rst] eqn:Hrec.
      simplify_eq. destruct (IH _ _ _ _ Hrec) as (front & -> & ->).
      by exists (e :: front).
    + simplify_eq. by exists [].
Qed.

Lemma admitWaiting_blocked h q h' admitted e rest :
  admitWaiting h q = (h', admitted, e :: rest) →
  (TryConsume h' (entryTask e)).1 = false.
Proof.
  revert h h' admitted.
  induction q as [|e0 q IH]; intros h h' admitted Ha; simpl in Ha.
  - simplify_eq.
  - destruct (TryConsume h (entryTask e0)) as [[] h1] eqn:Ht.
    + destruct (admitWaiting h1 q) as [[h2 adm] rst] eqn:Hrec.
      simplify_eq. by eapply IH.
    + simplify_eq. by rewrite Ht.
Qed.

Lemma admitWaiting_consumed h q h' admitted rest taskArn :
  admitWaiting h q = (h', admitted, rest) →
  is_Some (consumed h' !! taskArn) →
  is_Some (consumed h !! taskArn)
  ∨ ∃ t, t ∈ admitted ∧ apitask.Arn t = taskArn
         ∧ exemptLaunchType (apitask.LaunchType t) = false.
Proof.
  revert h h' admitted rest.
  induction q as [|e q IH]; intros h h' admitted rest Ha Hsome; simpl in Ha.
  - simplify_eq. by left.
  - destruct (TryConsume h (entryTask e)) as [[] h1] eqn:Ht.
    + destruct (admitWaiting h1 q) as [[h2 adm] rst] eqn:Hrec.
      simplify_eq.
      destruct (IH _ _ _ _ Hrec Hsome) as [H1 | (t & Hin & Harn & Hx)].
      * destruct (TryConsume_true _ _ _ Ht)
          as [[_ ->] | (Hx & _ & _ & _ & Hcon)]; [by left|].
        rewrite Hcon in H1.
        destruct (decide (apitask.Arn (entryTask e) = taskArn)) as [<-|Hne].
        -- right. exists (entryTask e). split; [left|done].
        -- left. by rewrite lookup_insert_ne in H1.
      * right. exists t. split; [by right|done].
    + simplify_eq. by left.
Qed.

End ledger_facts.

Section invariant_facts.
Import engine.

Lemma existsb_hasArn (l : list apitask.Task) taskArn :
  existsb (hasArn taskArn) l = true ↔ taskArn ∈ apitask.Arn <$> l.
Proof.
  rewrite existsb_exists, list_elem_of_fmap. unfold hasArn.
  split.
  - intros (t & Hin & Ht). apply bool_decide_eq_true in Ht.
    exists t. by rewrite list_elem_of_In.
  - intros (t & -> & Hin). exists t. rewrite <-list_elem_of_In.
    by rewrite bool_decide_eq_true.
Qed.

Lemma find_hasArn (l : list apitask.Task) taskArn t :
  find (hasArn taskArn) l = Some t → t ∈ l ∧ apitask.Arn t = taskArn.
Proof.
  intros Hf. apply find_some in Hf as [Hin Ht].
  apply bool_decide_eq_true in Ht. by rewrite list_elem_of_In.
Qed.

Lemma fmap_arn_preserved (f : apitask.Task → apitask.Task)
  (l : list apitask.Task) :
  (∀ m, apitask.Arn (f m) = apitask.Arn m) →
  apitask.Arn <$> (f <$> l) = apitask.Arn <$> l.
Proof.
  intros Hf. rewrite <-list_fmap_compose. apply list_fmap_ext.
  intros i m _. simpl. apply Hf.
Qed.

Lemma NoDup_fmap_elem_inj {A B : Type} (f : A → B) (l : list A) x y :
  NoDup (f <$> l) → x ∈ l → y ∈ l → f x = f y → x = y.
Proof.
  induction l as [|a l IH]; intros Hnd Hx Hy Hf.
  - by apply elem_of_nil in Hx.
  - rewrite fmap_cons in Hnd. apply NoDup_cons in Hnd as [Hna Hnd].
    apply elem_of_cons in Hx as [->|Hx], Hy as [->|Hy]; [done| | |by apply IH].
    + exfalso. apply Hna. rewrite Hf. by apply list_elem_of_fmap_2.
    + exfalso. apply Hna. rewrite <-Hf. by apply list_elem_of_fmap_2.
Qed.

Lemma Forall_filter_keep {A : Type} (Q P : A → Prop)
  `{!∀ x, Decision (P x)} (l : list A) :
  Forall Q l → Forall Q (filter P l).
Proof.
  rewrite !Forall_forall. intros HQ x [_ Hx]%list_elem_of_filter. by apply HQ.
Qed.

Lemma StronglySorted_filter {A : Type} (R : relation A) (P : A → Prop)
  `{!∀ x, Decision (P x)} (l : list A) :
  StronglySorted R l → StronglySorted R (filter P l).
Proof.
  induction 1 as [|a l Hs IH Hall]; [constructor|].
  rewrite filter_cons. case_decide; [|done].
  constructor; [done|]. by apply Forall_filter_keep.
Qed.

Lemma progressTask_preserves t :
  apitask.Arn (progressTask t).1.1 = apitask.Arn t
  ∧ apitask.LaunchType (progressTask t).1.1 = apitask.LaunchType t.
Proof.
  unfold progressTask.
  destruct (apitask.KnownStatus t); repeat case_decide; done.
Qed.

Lemma invariant_init capacity : invariant (NewDockerTaskEngine capacity).
Proof.
  split; simpl.
  - constructor.
  - constructor.
  - constructor.
  - intros taskArn [r Hr]. by rewrite lookup_empty in Hr.
  - intros c Hc. by apply elem_of_nil in Hc.
Qed.

Lemma invariant_stopQueuedTask e taskArn :
  invariant e → invariant (stopQueuedTask e taskArn).
Proof.
  intros [Hsort Hclock Hnd Hcons Hcont]. split; simpl; try done.
  - by apply StronglySorted_filter.
  - by apply Forall_filter_keep.
  - eapply sublist_NoDup; [exact Hnd|].
    apply sublist_app; [done|]. apply fmap_sublist, sublist_filter.
Qed.

Lemma invariant_AddTask e t : invariant e → invariant (AddTask e t).
Proof.
  intros Hinv. unfold AddTask.
  destruct (existsb _ _) eqn:Hman.
  { case_decide; [|done].
    destruct Hinv as [Hsort Hclock Hnd Hcons Hcont]. split; simpl; try done.
    - rewrite fmap_arn_preserved; [done|]. intros m. by case_match.
    - intros a Ha. destruct (Hcons a Ha) as (m & Hin & Harn & Hx).
      eexists. split; [by apply list_elem_of_fmap_2|].
      by case_match.
    - intros c Hc. rewrite fmap_arn_preserved; [by apply Hcont|].
      intros m. by case_match. }
  apply not_true_iff_false in Hman. rewrite existsb_hasArn in Hman.
  case_bool_decide as Hq.
  { case_decide; [|done]. by apply invariant_stopQueuedTask. }
  destruct Hinv as [Hsort Hclock Hnd Hcons Hcont].
  destruct (TryConsume _ _) as [[] h'] eqn:Ht.
  - split; simpl; try done.
    + rewrite fmap_app, <-app_assoc. simpl.
      apply NoDup_app in Hnd as (Hn1 & Hn12 & Hn2).
      apply NoDup_app. split; [done|]. split.
      * intros x Hx [->|Hx2]%elem_of_cons; [done|]. by eapply Hn12.
      * by apply NoDup_cons.
    + intros a Ha.
      destruct (TryConsume_true _ _ _ Ht)
        as [[_ ->] | (Hx & _ & _ & _ & Hcon)].
      * destruct (Hcons a Ha) as (m & Hin & Hm). exists m.
        split; [|done]. apply elem_of_app. by left.
      * rewrite Hcon in Ha.
        destruct (decide (apitask.Arn t = a)) as [<-|Hne].
        -- exists t. split; [|done]. apply elem_of_app. right. by left.
        -- rewrite lookup_insert_ne in Ha by done.
           destruct (Hcons a Ha) as (m & Hin & Hm). exists m.
           split; [|done]. apply elem_of_app. by left.
    + intros c Hc. rewrite fmap_app, elem_of_app. left. by apply Hcont.
  - split; simpl; try done.
    + unfold Enqueue. apply StronglySorted_app. split; [|split].
      * intros x1 x2 Hx1 ->%list_elem_of_singleton. simpl.
        rewrite Forall_forall in Hclock. by apply Hclock.
      * done.
      * repeat constructor.
    + unfold Enqueue. apply Forall_app. split.
      * eapply Forall_impl; [exact Hclock|]. simpl. intros; lia.
      * repeat constructor. simpl. lia.
    + unfold Enqueue. rewrite fmap_app, app_assoc. simpl.
      apply NoDup_app. split; [done|]. split.
      * intros x Hx ->%list_elem_of_singleton.
        apply elem_of_app in Hx as [?|?]; done.
      * apply NoDup_singleton.
Qed.

Lemma invariant_Progress e taskArn :
  invariant e → invariant (Progress e taskArn).
Proof.
  intros Hinv. unfold Progress.
  destruct (find _ _) as [t|] eqn:Hfind; [|done].
  apply find_hasArn in Hfind as [Hin Harn].
  destruct (progressTask t) as [[t' evs] creates] eqn:Hp.
  pose proof (progressTask_preserves t) as [Ha Hl]. rewrite Hp in Ha, Hl.
  simpl in Ha, Hl.
  assert (∀ m, apitask.Arn (if hasArn taskArn m then t' else m)
               = apitask.Arn m) as Hsame.
  { intros m. unfold hasArn. case_bool_decide; congruence. }
  destruct Hinv as [Hsort Hclock Hnd Hcons Hcont]. split; simpl; try done.
  - by rewrite fmap_arn_preserved.
  - intros a Hsome. destruct (Hcons a Hsome) as (m & Hm & Hma & Hx).
    eexists. split; [by apply (list_elem_of_fmap_2 _ _ m)|]. simpl.
    unfold hasArn. case_bool_decide as Heq; [|done].
    assert (m = t) as ->.
    { apply NoDup_app in Hnd as (Hnd & _ & _).
      apply (NoDup_fmap_elem_inj apitask.Arn (managedTasks e)); [done..|].
      congruence. }
    split; congruence.
  - intros c Hc. rewrite fmap_arn_preserved by done.
    destruct creates; [|by apply Hcont].
    apply elem_of_app in Hc as [Hc|Hc]; [by apply Hcont|].
    apply list_elem_of_fmap in Hc as (x & -> & _). simpl.
    rewrite <-Harn. by apply list_elem_of_fmap_2.
Qed.

Lemma invariant_Cleanup e taskArn :
  invariant e → invariant (Cleanup e taskArn).
Proof.
  intros Hinv. unfold Cleanup.
  destruct (find _ _) as [t|] eqn:Hfind; [|done].
  case_decide as Hstopped; [|done].
  destruct (admitWaiting _ _) as [[h admitted] rest] eqn:Hadm.
  destruct (admitWaiting_prefix _ _ _ _ _ Hadm) as (front & Hq & ->).
  destruct Hinv as [Hsort Hclock Hnd Hcons Hcont]. rewrite Hq in *.
  split; simpl.
  - by apply StronglySorted_app_1_r in Hsort.
  - by apply Forall_app in Hclock as [_ ?].
  - rewrite fmap_app, <-app_assoc.
    rewrite fmap_app in Hnd.
    replace (apitask.Arn <$> (entryTask <$> front)) with (entryArn <$> front)
      by (by rewrite <-list_fmap_compose).
    eapply sublist_NoDup; [exact Hnd|].
    apply sublist_app; [|done]. apply fmap_sublist, sublist_filter.
  - intros a Hsome.
    destruct (admitWaiting_consumed _ _ _ _ _ _ Hadm Hsome)
      as [Hold | (m & Hm & Hma & Hx)].
    + simpl in Hold. destruct (decide (taskArn = a)) as [->|Hne].
      { rewrite lookup_delete_eq in Hold. by destruct Hold. }
      rewrite lookup_delete_ne in Hold by done.
      destruct (Hcons a Hold) as (m & Hm & Hma & Hx).
      exists m. split; [|done]. apply elem_of_app. left.
      apply list_elem_of_filter. split; [congruence|done].
    + exists m. split; [|done]. apply elem_of_app. by right.
  - intros c [Hne Hc]%list_elem_of_filter.
    rewrite fmap_app, elem_of_app. left.
    apply Hcont, list_elem_of_fmap in Hc as (m & Hcm & Hm).
    apply list_elem_of_fmap. exists m. split; [done|].
    apply list_elem_of_filter. split; [congruence|done].
Qed.

Lemma invariant_step e op : invariant e → invariant (step e op).
Proof.
  destruct op; simpl;
    auto using invariant_AddTask, invariant_Progress, invariant_Cleanup.
Qed.

Lemma invariant_foldl e ops : invariant e → invariant (foldl step e ops).
Proof.
  revert e. induction ops as [|op ops IH]; intros e Hinv; [done|].
  simpl. by apply IH, invariant_step.
Qed.

Lemma invariant_run capacity ops : invariant (run capacity ops).
Proof. apply invariant_foldl, invariant_init. Qed.

(** A task in the waiting queue is not managed, does not consume and has no
    container. *)
Lemma queued_not_managed e taskArn :
  invariant e →
  taskArn ∈ entryArn <$> waitingTasksQueue e →
  taskArn ∉ apitask.Arn <$> managedTasks e.
Proof.
  intros [_ _ Hnd _ _] Hq Hm.
  apply NoDup_app in Hnd as (_ & Hdisj & _). by apply (Hdisj taskArn).
Qed.

Lemma queued_not_consuming e taskArn :
  invariant e →
  taskArn ∈ entryArn <$> waitingTasksQueue e →
  IsConsuming (hostResourceManager e) taskArn = false.
Proof.
  intros Hinv Hq. apply bool_decide_eq_false. intros Hsome.
  destruct (inv_consumed e Hinv taskArn Hsome) as (m & Hm & <- & _).
  eapply queued_not_managed; [done..|]. by apply list_elem_of_fmap_2.
Qed.

Lemma queued_no_container e taskArn name :
  invariant e →
  taskArn ∈ entryArn <$> waitingTasksQueue e →
  (taskArn, name) ∉ containers e.
Proof.
  intros Hinv Hq Hc. apply (inv_containers e Hinv) in Hc.
  by eapply queued_not_managed.
Qed.

End invariant_facts.

Section engine_facts.
Import engine.




Lemma flat_map_single {B : Type} (f : Entry → list B) (q : list Entry) entry :
  NoDup (entryArn <$> q) → entry ∈ q →
  flat_map (λ x, if bool_decide (entryArn x = entryArn entry)
                 then f x else []) q = f entry.
Proof.
  induction q as [|a q IH]; intros Hnd Hin; [by apply elem_of_nil in Hin|].
  rewrite fmap_cons in Hnd. apply NoDup_cons in Hnd as [Hna Hnd]. simpl.
  apply elem_of_cons in Hin as [->|Hin].
  - rewrite bool_decide_eq_true_2 by done.
    assert (flat_map (λ x, if bool_decide (entryArn x = entryArn a)
                           then f x else []) q = []) as ->;
      [|by rewrite app_nil_r].
    clear IH Hnd. induction q as [|b q IH]; [done|]. simpl.
    rewrite bool_decide_eq_false_2.
    + apply IH. intros Hq. apply Hna. rewrite fmap_cons. by right.
    + intros Heq. apply Hna. rewrite fmap_cons, Heq. by left.
  - rewrite bool_decide_eq_false_2; [by apply IH|].
    intros Heq. apply Hna. rewrite Heq. by apply list_elem_of_fmap_2.
Qed.

End engine_facts.






(** C6: external stop of a task that waits in the admission queue. When a
    stop request arrives for a task that is in the waiting queue of a
    reachable engine, that very step appends the STOPPED events of the task
    (those of its containers, then its own) to the event stream, without any
    pass of a task loop; the ledger is unchanged and does not report the task
    as consuming, the managed tasks are unchanged, the containers are
    unchanged and none belongs to the task, and the other entries of the queue
    stay in their order. *)
Theorem C6_stop_of_queued_task
  (capacity : engine.Resources) (ops : list engine.Op) (t : apitask.Task) :
  apitask.DesiredStatus t = TaskStopped →
  apitask.Arn t
  ∈ engine.entryArn <$> engine.waitingTasksQueue (engine.run capacity ops) →
  (∃ entry,
     entry ∈ engine.waitingTasksQueue (engine.run capacity ops)
     ∧ engine.entryArn entry = apitask.Arn t
     ∧ engine.stateChangeEvents (engine.AddTask (engine.run capacity ops) t)
       = engine.stateChangeEvents (engine.run capacity ops)
         ++ engine.containerEvents (engine.entryTask entry) ContainerStopped
         ++ [engine.TaskEvent (apitask.Arn t) TaskStopped])
  ∧ engine.hostResourceManager (engine.AddTask (engine.run capacity ops) t)
    = engine.hostResourceManager (engine.run capacity ops)
  ∧ engine.IsConsuming
      (engine.hostResourceManager (engine.AddTask (engine.run capacity ops) t))
      (apitask.Arn t) = false
  ∧ engine.managedTasks (engine.AddTask (engine.run capacity ops) t)
    = engine.managedTasks (engine.run capacity ops)
  ∧ engine.containers (engine.AddTask (engine.run capacity ops) t)
    = engine.containers (engine.run capacity ops)
  ∧ (∀ name,
       (apitask.Arn t, name)
       ∉ engine.containers (engine.AddTask (engine.run capacity ops) t))
  ∧ engine.waitingTasksQueue (engine.AddTask (engine.run capacity ops) t)
    = filter (λ x, engine.entryArn x ≠ apitask.Arn t)
        (engine.waitingTasksQueue (engine.run capacity ops)).
Proof.
  intros Hstop Hq.
  pose proof (invariant_run capacity ops) as Hinv.
  set (e := engine.run capacity ops) in *.
  pose proof (queued_not_managed e _ Hinv Hq) as Hnm.
  pose proof (queued_not_consuming e _ Hinv Hq) as Hnc.
  assert (engine.AddTask e t = engine.stopQueuedTask e (apitask.Arn t)) as ->.
  { unfold engine.AddTask.
    destruct (existsb _ _) eqn:Hex.
    - by apply existsb_hasArn in Hex.
    - rewrite bool_decide_eq_true_2 by done. by rewrite decide_True. }
  simpl. repeat split; try done.
  - apply list_elem_of_fmap in Hq as (entry & Harn & Hin).
    exists entry. split; [done|]. split; [done|]. f_equal.
    destruct Hinv as [_ _ Hnd _ _]. apply NoDup_app in Hnd as (_ & _ & Hnd).
    rewrite Harn.
    apply (flat_map_single
             (λ x, engine.containerEvents (engine.entryTask x) ContainerStopped
                   ++ [engine.TaskEvent (engine.entryArn entry) TaskStopped]));
      done.
  - intros name. by apply queued_no_container.
Qed.

(** The second task of 768 MB waits while the first is stopping; its stop
    request yields its STOPPED events at once. *)
Lemma C6_witness :
  engine.stateChangeEvents
    (engine.AddTask
       (engine.run engine.getTestHostResources scenario.waitingOps)
       (scenario.stopTask "IntegTaskArn-1"))
  = engine.stateChangeEvents
      (engine.run engine.getTestHostResources scenario.waitingOps)
    ++ [engine.ContainerEvent "IntegTaskArn-1" "A" ContainerStopped;
        engine.TaskEvent "IntegTaskArn-1" TaskStopped]
  ∧ engine.managedTasks
      (engine.AddTask
         (engine.run engine.getTestHostResources scenario.waitingOps)
         (scenario.stopTask "IntegTaskArn-1"))
    = engine.managedTasks
        (engine.run engine.getTestHostResources scenario.waitingOps).
Proof.
  destruct (C6_stop_of_queued_task engine.getTestHostResources
              scenario.waitingOps (scenario.stopTask "IntegTaskArn-1"))
    as ((entry & Hin & Harn & Hev) & _ & _ & Hm & _).
  - reflexivity.
  - vm_compute. left.
  - split; [|exact Hm]. rewrite Hev. f_equal.
    vm_compute in Hin. apply list_elem_of_singleton in Hin. by subst entry.
Defined.

(** ** Theorems about container ordering *)

Section ordering_facts.
Context `{RuntimeDriver} `{StatusMethods} `{TaskMethods}.



End ordering_facts.



(** ** The theorems at concrete inputs *)


(** A task at MANIFEST_PULLED without digests whose status was not sent gets
    an [ErrShouldNotSendEvent]. *)
Lemma C3_witness :
  isErrShouldNotSendEvent
    (api.NewTaskStateChangeEvent
       (apitask.SetKnownStatus TaskManifestPulled
          (reference.CreateTestTask "test-arn" "EC2" 512
             [scenario.containerA])) "").2
  = true.
Proof.
  destruct (C3_manifest_pulled_needs_digest
              (apitask.SetKnownStatus TaskManifestPulled
                 (reference.CreateTestTask "test-arn" "EC2" 512
                    [scenario.containerA]))
              scenario.containerA "") as (Ht & _).
  destruct (Ht eq_refl eq_refl) as (err & Hev & Herr).
  rewrite Hev. exact Herr.
Defined.

(** An internal task and an internal container. *)
Lemma C7_witness :
  api.NewTaskStateChangeEvent
    (apitask.Build_Task "internal-arn" true TaskRunning TaskRunning
       TaskStatusNone [] None None None "EC2" 0 0) "stopped"
  = (TaskStateChange.zero, Some (ErrShouldNotSendEvent "internal-arn")).
Proof.
  destruct (C7_internal_suppressed
              (apitask.Build_Task "internal-arn" true TaskRunning TaskRunning
                 TaskStatusNone [] None None None "EC2" 0 0)
              scenario.containerA "stopped") as (Ht & _).
  apply Ht. reflexivity.
Defined.

(** A container at CREATED whose steady state is RUNNING reports NONE. *)
Lemma C8_witness :
  api.containerStatusChangeStatus ContainerCreated ContainerRunning
  = ContainerStatusNone.
Proof.
  destruct (C8_containerStatusChangeStatus ContainerCreated ContainerRunning)
    as (_ & _ & _ & Hother).
  apply Hother. discriminate.
Defined.

(** With a port range requested, 100 network bindings pass and 101 do not. *)
Lemma C9_witness :
  (∃ payload,
     api.buildContainerStateChangePayload
       (reference.portsChange ContainerRunning 99)
     = Returns (Some payload, None)
     ∧ length (types.NetworkBindings payload) = 100%nat)
  ∧ (∃ err,
       api.buildContainerStateChangePayload
         (reference.portsChange ContainerRunning 100)
       = Returns (None, Some err)).
Proof.
  split.
  - destruct (C9_network_bindings_limit
                (reference.portsChange ContainerRunning 99)
                (reference.portsContainer 99) eq_refl)
      as (nbs & Hnbs & Hlimit & _).
    vm_compute in Hnbs. injection Hnbs as <-.
    specialize (Hlimit ltac:(discriminate)
                  ltac:(right; right; reflexivity)).
    destruct Hlimit as (payload & Hp & Hb).
    exists payload. split; [exact Hp|]. rewrite Hb. reflexivity.
  - destruct (C9_network_bindings_limit
                (reference.portsChange ContainerRunning 100)
                (reference.portsContainer 100) eq_refl)
      as (nbs & Hnbs & Hlimit & _).
    vm_compute in Hnbs. injection Hnbs as <-.
    exact (Hlimit ltac:(discriminate) ltac:(right; right; reflexivity)).
Defined.

(** An endpoint without scheme gets [https://], once. *)
Lemma C10_witness :
  utils.AddScheme "ecs.us-west-2.amazonaws.com"
  = "https://ecs.us-west-2.amazonaws.com"
  ∧ utils.AddScheme (utils.AddScheme "ecs.us-west-2.amazonaws.com")
    = utils.AddScheme "ecs.us-west-2.amazonaws.com".
Proof.
  destruct (C10_AddScheme_idempotent "ecs.us-west-2.amazonaws.com")
    as (_ & _ & Hother & Hidem).
  split; [|exact Hidem].
  apply Hother; [discriminate|reflexivity|reflexivity].
Defined.

(** ** Further properties of [utils.go] *)

Lemma to_int_not_nil (z : Z) :
  Z.to_int z ≠ Decimal.Pos Decimal.Nil ∧ Z.to_int z ≠ Decimal.Neg Decimal.Nil.
Proof.
  destruct z as [|p|p]; simpl; split; try discriminate;
    intros [=Hp]; by apply (Unsigned.to_uint_nonnil p).
Qed.

Lemma Itoa_reads_back (i : Z) :
  NilZero.int_of_string (utils.Itoa i) = Some (Z.to_int i).
Proof.
  unfold utils.Itoa. destruct (to_int_not_nil i). by apply NilZero.isi.
Qed.

Lemma Itoa_inj (i j : Z) : utils.Itoa i = utils.Itoa j → i = j.
Proof.
  intros Heq. apply DecimalZ.to_int_inj.
  pose proof (Itoa_reads_back i) as Hi. rewrite Heq, Itoa_reads_back in Hi.
  congruence.
Qed.

(** X1: [Uint16SliceToStringSlice] keeps the length of the slice, puts the
    decimal numeral of each element at the index of the element, and loses
    nothing: the numerals read back as the elements, and two slices with the
    same result are the same slice. *)
Theorem Uint16SliceToStringSlice_faithful (slice slice' : list Z) :
  length (utils.Uint16SliceToStringSlice slice) = length slice
  ∧ (∀ i, utils.Uint16SliceToStringSlice slice !! i
          = utils.Itoa <$> slice !! i)
  ∧ Forall2 (λ el str, Z.of_int <$> NilZero.int_of_string str = Some el)
      slice (utils.Uint16SliceToStringSlice slice)
  ∧ (utils.Uint16SliceToStringSlice slice
     = utils.Uint16SliceToStringSlice slice' → slice = slice').
Proof.
  unfold utils.Uint16SliceToStringSlice. split; [apply length_map|].
  split; [|split].
  - intros i. revert i. induction slice as [|el slice IH]; intros [|i]; simpl;
      auto.
  - induction slice as [|el slice IH]; simpl; constructor; [|done].
    rewrite Itoa_reads_back. simpl. by rewrite DecimalZ.of_to.
  - revert slice'. induction slice as [|el slice IH]; intros [|el' slice'];
      simpl; intros Heq; try done.
    injection Heq as Hel Hrest. f_equal; [by apply Itoa_inj|by apply IH].
Qed.

Lemma int32_of_int64_range (x : Z) :
  (- 2 ^ 31 ≤ utils.int32_of_int64 x < 2 ^ 31)%Z.
Proof.
  unfold utils.int32_of_int64.
  pose proof (Z.mod_pos_bound (x + 2 ^ 31) (2 ^ 32) ltac:(lia)). lia.
Qed.

Lemma int32_of_int64_id (x : Z) :
  utils.int32_of_int64 x = x ↔ (- 2 ^ 31 ≤ x < 2 ^ 31)%Z.
Proof.
  split.
  - intros <-. apply int32_of_int64_range.
  - intros Hx. unfold utils.int32_of_int64.
    rewrite Z.mod_small by lia. lia.
Qed.

(** X2: [Int64PtrToInt32Ptr] maps [nil] to [nil]; the value it returns lies in
    the range of an [int32], differs from the given value by a multiple of
    2^32, and is the given value exactly when that one is in the range.
    Followed by [Int32PtrToIntPtr] it gives the pointer back exactly for
    [nil] and for values in the range. *)
Theorem Int64PtrToInt32Ptr_wraps (int64ptr : option Z) :
  (utils.Int64PtrToInt32Ptr int64ptr = None ↔ int64ptr = None)
  ∧ (∀ v, int64ptr = Some v →
       ∃ w k, utils.Int64PtrToInt32Ptr int64ptr = Some w
              ∧ (- 2 ^ 31 ≤ w < 2 ^ 31)%Z
              ∧ (w = v + k * 2 ^ 32)%Z
              ∧ (w = v ↔ (- 2 ^ 31 ≤ v < 2 ^ 31)%Z))
  ∧ (utils.Int32PtrToIntPtr (utils.Int64PtrToInt32Ptr int64ptr) = int64ptr
     ↔ ∀ v, int64ptr = Some v → (- 2 ^ 31 ≤ v < 2 ^ 31)%Z).
Proof.
  split; [by destruct int64ptr|]. split.
  - intros v ->. simpl. exists (utils.int32_of_int64 v).
    exists (- ((v + 2 ^ 31) / 2 ^ 32))%Z.
    split; [done|]. split; [apply int32_of_int64_range|].
    split; [|apply int32_of_int64_id].
    unfold utils.int32_of_int64.
    pose proof (Z.div_mod (v + 2 ^ 31) (2 ^ 32) ltac:(lia)). lia.
  - destruct int64ptr as [v|]; simpl; [|by split].
    split.
    + intros [=Hv] w [= <-]. by apply int32_of_int64_id.
    + intros Hv. f_equal. by apply int32_of_int64_id, Hv.
Qed.

Lemma Int64PtrToInt32Ptr_witness :
  utils.Int64PtrToInt32Ptr (Some (2 ^ 31)%Z) = Some (- 2 ^ 31)%Z
  ∧ utils.Int32PtrToIntPtr (utils.Int64PtrToInt32Ptr (Some 137%Z))
    = Some 137%Z.
Proof.
  split; [reflexivity|].
  apply (Int64PtrToInt32Ptr_wraps (Some 137%Z)).
  intros v [= <-]. lia.
Defined.

(** X3: whatever the endpoint, [AddScheme] keeps it as the end of its result;
    the result of a non-empty endpoint starts with [http://] or [https://],
    and the result is empty only for the empty endpoint. *)
Theorem AddScheme_scheme_and_suffix (endpoint : string) :
  (utils.AddScheme endpoint = endpoint
   ∨ utils.AddScheme endpoint = "https://" +:+ endpoint)
  ∧ (endpoint ≠ "" →
     String.prefix "http://" (utils.AddScheme endpoint) = true
     ∨ String.prefix "https://" (utils.AddScheme endpoint) = true)
  ∧ (utils.AddScheme endpoint = "" ↔ endpoint = "").
Proof.
  split; [|split].
  - unfold utils.AddScheme.
    destruct (String.eqb endpoint ""); [by left|].
    destruct (utils.schemeRegex_MatchString endpoint); [by left|by right].
  - intros Hne. pose proof (AddScheme_has_scheme endpoint Hne) as Hm.
    unfold utils.schemeRegex_MatchString in Hm.
    by apply orb_true_iff in Hm.
  - split; [|by intros ->].
    unfold utils.AddScheme.
    destruct (String.eqb_spec endpoint ""); [done|].
    destruct (utils.schemeRegex_MatchString endpoint); [done|].
    discriminate.
Qed.

(** ** Further properties of [statechange.go] *)

Section event_facts.
Context `{StatusMethods} `{TaskMethods}.

Lemma task_geb_false (a b : TaskStatus) :
  apitaskstatus.geb a b = false ↔ (apitaskstatus.value a < apitaskstatus.value b)%Z.
Proof. unfold apitaskstatus.geb. rewrite Z.leb_gt. done. Qed.

Lemma container_geb_false (a b : ContainerStatus) :
  apicontainerstatus.geb a b = false
  ↔ (apicontainerstatus.value a < apicontainerstatus.value b)%Z.
Proof. unfold apicontainerstatus.geb. rewrite Z.leb_gt. done. Qed.

Lemma SetTaskTimestamps_fields (c : TaskStateChange.t) :
  TaskStateChange.TaskARN (TaskStateChange.SetTaskTimestamps c)
  = TaskStateChange.TaskARN c
  ∧ TaskStateChange.Status (TaskStateChange.SetTaskTimestamps c)
    = TaskStateChange.Status c
  ∧ TaskStateChange.Reason (TaskStateChange.SetTaskTimestamps c)
    = TaskStateChange.Reason c
  ∧ TaskStateChange.Containers (TaskStateChange.SetTaskTimestamps c)
    = TaskStateChange.Containers c
  ∧ TaskStateChange.Task (TaskStateChange.SetTaskTimestamps c)
    = TaskStateChange.Task c.
Proof.
  unfold TaskStateChange.SetTaskTimestamps.
  by destruct (TaskStateChange.Task c) eqn:Ht.
Qed.

Lemma applyingError_reason (cont : apicontainer.Container)
  (event : ContainerStateChange.t) (reason : string) :
  ContainerStateChange.Reason event = reason →
  ∃ event',
    match apicontainer.ApplyingError cont with
    | Some msg =>
        if String.eqb reason "" then
          (ContainerStateChange.setReason msg event, None)
        else (event, None)
    | None => (event, @None error)
    end = (event', None)
    ∧ ContainerStateChange.Reason event'
      = (if String.eqb reason ""
         then default "" (apicontainer.ApplyingError cont) else reason)
    ∧ ContainerStateChange.Container event'
      = ContainerStateChange.Container event
    ∧ ContainerStateChange.ExitCode event'
      = ContainerStateChange.ExitCode event.
Proof.
  intros Hr.
  destruct (apicontainer.ApplyingError cont) as [msg|];
    destruct (String.eqb_spec reason ""); simpl; eexists; split; try done;
    simpl; repeat split; congruence.
Qed.

End event_facts.

Lemma NewTaskStateChangeEvent_cases `{StatusMethods}
  (task : apitask.Task) (reason : string) :
  ((api.NewTaskStateChangeEvent task reason).2 = None
   ↔ apitask.IsInternal task = false
     ∧ (apitask.GetKnownStatus task = TaskManifestPulled
        ∨ TaskStatus_BackendRecognized (apitask.GetKnownStatus task) = true)
     ∧ (apitaskstatus.value (apitask.GetSentStatus task)
        < apitaskstatus.value (apitask.GetKnownStatus task))%Z
     ∧ (apitask.GetKnownStatus task = TaskManifestPulled →
        apitask.HasAContainerWithResolvedDigest task = true))
  ∧ ((api.NewTaskStateChangeEvent task reason).2 = None →
     (api.NewTaskStateChangeEvent task reason).1
     = {| TaskStateChange.TaskARN := apitask.Arn task;
          TaskStateChange.Status := apitask.GetKnownStatus task;
          TaskStateChange.Reason := reason;
          TaskStateChange.Containers := [];
          TaskStateChange.PullStartedAt := apitask.PullStartedAt task;
          TaskStateChange.PullStoppedAt := apitask.PullStoppedAt task;
          TaskStateChange.ExecutionStoppedAt :=
            apitask.ExecutionStoppedAt task;
          TaskStateChange.Task := Some task |}).
Proof.
  unfold api.NewTaskStateChangeEvent.
  destruct (apitask.IsInternal task) eqn:Hint; simpl.
  { split; [|done]. split; [done|]. by intros [? _]. }
  destruct (decide (apitask.GetKnownStatus task = TaskManifestPulled))
    as [Hmp|Hmp].
  - rewrite (bool_decide_eq_false_2 (_ ≠ _)) by (by intros Hn). simpl.
    rewrite (bool_decide_eq_true_2 _ Hmp). simpl.
    destruct (apitaskstatus.geb _ _) eqn:Hge; simpl.
    { split; [|done]. split; [done|].
      intros (_ & _ & Hlt & _). apply task_geb_false in Hlt. congruence. }
    apply task_geb_false in Hge.
    destruct (apitask.HasAContainerWithResolvedDigest task) eqn:Hd; simpl.
    + split; [split; [intros _; repeat split; by auto|done]|]. intros _.
      unfold TaskStateChange.SetTaskTimestamps. simpl.
      by destruct (apitask.PullStartedAt task), (apitask.PullStoppedAt task),
        (apitask.ExecutionStoppedAt task).
    + split; [|done]. split; [done|]. intros (_ & _ & _ & Hdig).
      by specialize (Hdig Hmp).
  - rewrite (bool_decide_eq_true_2 (_ ≠ _)) by done. simpl.
    rewrite (bool_decide_eq_false_2 _ Hmp). simpl.
    destruct (TaskStatus_BackendRecognized _) eqn:Hrec; simpl.
    + destruct (apitaskstatus.geb _ _) eqn:Hge; simpl.
      { split; [|done]. split; [done|].
        intros (_ & _ & Hlt & _). apply task_geb_false in Hlt. congruence. }
      apply task_geb_false in Hge.
      split; [split; [intros _; repeat split; by auto|done]|]. intros _.
      unfold TaskStateChange.SetTaskTimestamps. simpl.
      by destruct (apitask.PullStartedAt task), (apitask.PullStoppedAt task),
        (apitask.ExecutionStoppedAt task).
    + split; [|done]. split; [done|]. by intros (_ & [?|?] & _).
Qed.

(** X4: [NewTaskStateChangeEvent] creates an event exactly when the task is
    not internal, its known status is MANIFEST_PULLED or recognised by the
    backend, its sent status is below its known status, and, at
    MANIFEST_PULLED, one of its containers has a resolved digest. The event
    then carries the ARN, the known status, the given reason, the task
    itself, and each timestamp that the task has set. *)
Theorem NewTaskStateChangeEvent_succeeds_iff `{StatusMethods}
  (task : apitask.Task) (reason : string) :
  ((api.NewTaskStateChangeEvent task reason).2 = None
   ↔ apitask.IsInternal task = false
     ∧ (apitask.GetKnownStatus task = TaskManifestPulled
        ∨ TaskStatus_BackendRecognized (apitask.GetKnownStatus task) = true)
     ∧ (apitaskstatus.value (apitask.GetSentStatus task)
        < apitaskstatus.value (apitask.GetKnownStatus task))%Z
     ∧ (apitask.GetKnownStatus task = TaskManifestPulled →
        apitask.HasAContainerWithResolvedDigest task = true))
  ∧ ((api.NewTaskStateChangeEvent task reason).2 = None →
     (api.NewTaskStateChangeEvent task reason).1
     = {| TaskStateChange.TaskARN := apitask.Arn task;
          TaskStateChange.Status := apitask.GetKnownStatus task;
          TaskStateChange.Reason := reason;
          TaskStateChange.Containers := [];
          TaskStateChange.PullStartedAt := apitask.PullStartedAt task;
          TaskStateChange.PullStoppedAt := apitask.PullStoppedAt task;
          TaskStateChange.ExecutionStoppedAt :=
            apitask.ExecutionStoppedAt task;
          TaskStateChange.Task := Some task |}).
Proof. apply NewTaskStateChangeEvent_cases. Qed.

Lemma NewContainerStateChangeEvent_cases
  `{StatusMethods} `{TaskMethods}
  (task : apitask.Task) (cont : apicontainer.Container) (reason : string) :
  ((api.NewContainerStateChangeEvent task cont reason).2 = None
   ↔ apicontainer.IsInternal cont = false
     ∧ api.pauseContainerResolves task cont
     ∧ (apicontainer.GetKnownStatus cont = ContainerManifestPulled
        ∨ ContainerStatus_ShouldReportToBackend
            (apicontainer.GetKnownStatus cont)
            (apicontainer.GetSteadyStateStatus cont) = true)
     ∧ (apicontainer.GetKnownStatus cont = ContainerManifestPulled →
        apicontainer.DigestResolved cont = true)
     ∧ (apicontainerstatus.value (apicontainer.GetSentStatus cont)
        < apicontainerstatus.value (apicontainer.GetKnownStatus cont))%Z)
  ∧ ((api.NewContainerStateChangeEvent task cont reason).2 = None →
     ContainerStateChange.Reason
       (api.NewContainerStateChangeEvent task cont reason).1
     = (if String.eqb reason ""
        then default "" (apicontainer.ApplyingError cont) else reason)
     ∧ ContainerStateChange.Container
         (api.NewContainerStateChangeEvent task cont reason).1 = Some cont
     ∧ ContainerStateChange.ExitCode
         (api.NewContainerStateChangeEvent task cont reason).1
       = apicontainer.KnownExitCode cont).
Proof.
  assert (api.pauseContainerResolves task cont
          ∨ ¬ api.pauseContainerResolves task cont) as [Hp|Hp].
  { unfold api.pauseContainerResolves.
    destruct (IsServiceConnectEnabled task && IsNetworkModeBridge task);
      [|by left; left].
    destruct (GetBridgeModePauseContainerForTaskContainer task cont);
      [by left; right|].
    right. intros [?|[? ?]]; done. }
  2:{ assert (∃ err, (api.NewContainerStateChangeEvent task cont reason).2
                     = Some err) as [err Herr].
      { unfold api.NewContainerStateChangeEvent,
          api.newUncheckedContainerStateChangeEvent.
        destruct (apicontainer.IsInternal cont); [by eexists|].
        unfold api.pauseContainerResolves in Hp.
        destruct (IsServiceConnectEnabled task && IsNetworkModeBridge task);
          [|by destruct Hp; left].
        destruct (GetBridgeModePauseContainerForTaskContainer task cont);
          [by destruct Hp; right|]. by eexists. }
      rewrite Herr. split; [|done]. split; [done|]. by intros (_ & ? & _). }
  destruct (apicontainer.IsInternal cont) eqn:Hint.
  { unfold api.NewContainerStateChangeEvent.
    rewrite newUnchecked_internal by done. simpl.
    split; [|done]. split; [done|]. by intros [? _]. }
  destruct (newUnchecked_ok task cont reason Hint Hp)
    as (event & Hev & _ & _ & _ & Hcont).
  assert (ContainerStateChange.Reason event = reason
          ∧ ContainerStateChange.ExitCode event
            = apicontainer.KnownExitCode cont) as [Hreason Hexit].
  { unfold api.newUncheckedContainerStateChangeEvent in Hev.
    rewrite Hint in Hev.
    destruct (IsServiceConnectEnabled task && IsNetworkModeBridge task);
      [destruct (GetBridgeModePauseContainerForTaskContainer task cont)|];
      by simplify_eq. }
  unfold api.NewContainerStateChangeEvent. rewrite Hev.
  destruct (decide (apicontainer.GetKnownStatus cont = ContainerManifestPulled))
    as [Hmp|Hmp].
  - rewrite (bool_decide_eq_false_2 (_ ≠ _)) by (by intros Hn). simpl.
    rewrite (bool_decide_eq_true_2 _ Hmp). simpl.
    destruct (apicontainer.DigestResolved cont) eqn:Hd; simpl.
    + destruct (apicontainerstatus.geb _ _) eqn:Hge; simpl.
      { split; [|done]. split; [done|].
        intros (_ & _ & _ & _ & Hlt).
        apply container_geb_false in Hlt. congruence. }
      apply container_geb_false in Hge.
      destruct (applyingError_reason cont event reason Hreason)
        as (event' & -> & Hr' & Hc' & He'). simpl.
      split; [split; [intros _; repeat split; by auto|done]|]. intros _.
      repeat split; congruence.
    + split; [|done]. split; [done|]. intros (_ & _ & _ & Hdig & _).
      by specialize (Hdig Hmp).
  - rewrite (bool_decide_eq_true_2 (_ ≠ _)) by done. simpl.
    rewrite (bool_decide_eq_false_2 _ Hmp). simpl.
    destruct (ContainerStatus_ShouldReportToBackend _ _) eqn:Hrec; simpl.
    + destruct (apicontainerstatus.geb _ _) eqn:Hge; simpl.
      { split; [|done]. split; [done|].
        intros (_ & _ & _ & _ & Hlt).
        apply container_geb_false in Hlt. congruence. }
      apply container_geb_false in Hge.
      destruct (applyingError_reason cont event reason Hreason)
        as (event' & -> & Hr' & Hc' & He'). simpl.
      split; [split; [intros _; repeat split; by auto|done]|]. intros _.
      repeat split; congruence.
    + split; [|done]. split; [done|]. by intros (_ & _ & [?|?] & _).
Qed.

(** X5: [NewContainerStateChangeEvent] creates an event exactly when the
    container is not internal, the lookup of the pause container does not
    fail, its known status is MANIFEST_PULLED or to be reported for its steady
    state, its digest is resolved if it is at MANIFEST_PULLED, and its sent
    status is below its known status. The reason of the event is the given
    reason, unless that one is empty: then it is the error the container keeps
    from applying a transition, if any. *)
Theorem NewContainerStateChangeEvent_succeeds_iff
  `{StatusMethods} `{TaskMethods}
  (task : apitask.Task) (cont : apicontainer.Container) (reason : string) :
  ((api.NewContainerStateChangeEvent task cont reason).2 = None
   ↔ apicontainer.IsInternal cont = false
     ∧ api.pauseContainerResolves task cont
     ∧ (apicontainer.GetKnownStatus cont = ContainerManifestPulled
        ∨ ContainerStatus_ShouldReportToBackend
            (apicontainer.GetKnownStatus cont)
            (apicontainer.GetSteadyStateStatus cont) = true)
     ∧ (apicontainer.GetKnownStatus cont = ContainerManifestPulled →
        apicontainer.DigestResolved cont = true)
     ∧ (apicontainerstatus.value (apicontainer.GetSentStatus cont)
        < apicontainerstatus.value (apicontainer.GetKnownStatus cont))%Z)
  ∧ ((api.NewContainerStateChangeEvent task cont reason).2 = None →
     ContainerStateChange.Reason
       (api.NewContainerStateChangeEvent task cont reason).1
     = (if String.eqb reason ""
        then default "" (apicontainer.ApplyingError cont) else reason)
     ∧ ContainerStateChange.Container
         (api.NewContainerStateChangeEvent task cont reason).1 = Some cont
     ∧ ContainerStateChange.ExitCode
         (api.NewContainerStateChangeEvent task cont reason).1
       = apicontainer.KnownExitCode cont).
Proof. apply NewContainerStateChangeEvent_cases. Qed.

(** X6: [SetTaskTimestamps] changes nothing but the three timestamps; it
    leaves a change without task alone, gives the change every timestamp that
    its task has set, keeps the timestamps of the change where the task has
    none, and applying it twice is applying it once. *)
Theorem SetTaskTimestamps_idempotent (c : TaskStateChange.t) :
  TaskStateChange.SetTaskTimestamps (TaskStateChange.SetTaskTimestamps c)
  = TaskStateChange.SetTaskTimestamps c
  ∧ (TaskStateChange.Task c = None → TaskStateChange.SetTaskTimestamps c = c)
  ∧ (∀ task, TaskStateChange.Task c = Some task →
       TaskStateChange.PullStartedAt (TaskStateChange.SetTaskTimestamps c)
       = match apitask.PullStartedAt task with
         | Some ts => Some ts
         | None => TaskStateChange.PullStartedAt c
         end
       ∧ TaskStateChange.PullStoppedAt (TaskStateChange.SetTaskTimestamps c)
         = match apitask.PullStoppedAt task with
           | Some ts => Some ts
           | None => TaskStateChange.PullStoppedAt c
           end
       ∧ TaskStateChange.ExecutionStoppedAt
           (TaskStateChange.SetTaskTimestamps c)
         = match apitask.ExecutionStoppedAt task with
           | Some ts => Some ts
           | None => TaskStateChange.ExecutionStoppedAt c
           end)
  ∧ TaskStateChange.TaskARN (TaskStateChange.SetTaskTimestamps c)
    = TaskStateChange.TaskARN c
  ∧ TaskStateChange.Status (TaskStateChange.SetTaskTimestamps c)
    = TaskStateChange.Status c
  ∧ TaskStateChange.Reason (TaskStateChange.SetTaskTimestamps c)
    = TaskStateChange.Reason c
  ∧ TaskStateChange.Containers (TaskStateChange.SetTaskTimestamps c)
    = TaskStateChange.Containers c
  ∧ TaskStateChange.Task (TaskStateChange.SetTaskTimestamps c)
    = TaskStateChange.Task c.
Proof.
  split; [|split; [|split]].
  - unfold TaskStateChange.SetTaskTimestamps.
    destruct (TaskStateChange.Task c) as [task|] eqn:Ht; simpl;
      [|by rewrite Ht].
    by destruct (apitask.PullStartedAt task), (apitask.PullStoppedAt task),
      (apitask.ExecutionStoppedAt task).
  - intros Ht. unfold TaskStateChange.SetTaskTimestamps. by rewrite Ht.
  - intros task Ht. unfold TaskStateChange.SetTaskTimestamps. by rewrite Ht.
  - apply SetTaskTimestamps_fields.
Qed.

(** ** The network bindings of a container state change *)

Section binding_facts.
Context `{StatusMethods} `{TaskMethods}.

Lemma map_is_fmap {A B : Type} (f : A → B) (l : list A) : map f l = f <$> l.
Proof. induction l as [|a l IH]; simpl; [done|]. by rewrite IH. Qed.

Lemma bindingStep_foldl (containerPortSet : gset Z)
  (bindings : list apicontainer.PortBinding)
  (acc : list types.NetworkBinding * gmap Z (list ProtocolBindIP)) :
  (foldl (api.bindingStep containerPortSet) acc bindings).1
  = acc.1 ++ (singularBinding <$>
              filter (λ b, apicontainer.ContainerPort b ∈ containerPortSet)
                bindings)
  ∧ ∀ hostPort : Z,
      default [] ((foldl (api.bindingStep containerPortSet) acc bindings).2
                  !! hostPort)
      = default [] (acc.2 !! hostPort)
        ++ ((λ b, {| protocol := apicontainer.Protocol b;
                     bindIP := apicontainer.BindIP b |}) <$>
            filter (λ b, (apicontainer.ContainerPort b ∉ containerPortSet)
                         ∧ apicontainer.HostPort b = hostPort) bindings).
Proof.
  revert acc. induction bindings as [|b bindings IH]; intros acc; simpl.
  { split; [|intros hostPort]; by rewrite app_nil_r. }
  destruct (IH (api.bindingStep containerPortSet acc b)) as [IH1 IH2].
  rewrite IH1. clear IH1. unfold api.bindingStep in *.
  destruct (decide (apicontainer.ContainerPort b ∈ containerPortSet))
    as [Hin|Hin].
  - rewrite (bool_decide_eq_true_2 _ Hin) in *. simpl in *. split.
    + rewrite filter_cons_True by done. simpl. by rewrite <- app_assoc.
    + intros hostPort. rewrite IH2.
      rewrite filter_cons_False; [done|]. by intros [? _].
  - rewrite (bool_decide_eq_false_2 _ Hin) in *. simpl in *. split.
    + by rewrite filter_cons_False.
    + intros hostPort. rewrite IH2.
      destruct (decide (apicontainer.HostPort b = hostPort)) as [<-|Hne].
      * rewrite lookup_insert_eq. simpl.
        rewrite filter_cons_True by done. simpl. by rewrite <- app_assoc.
      * rewrite lookup_insert_ne by done.
        rewrite filter_cons_False; [done|]. by intros [_ ?].
Qed.

Lemma rangeStep_foldl (m : gmap Z (list ProtocolBindIP))
  (networkBindings : list types.NetworkBinding)
  (ranges : list (string * string)) :
  foldl (api.rangeStep m) networkBindings ranges
  = networkBindings
    ++ concat ((λ entry,
                 (λ v, {| types.BindIP := aws_String (bindIP v);
                          types.ContainerPort := None;
                          types.ContainerPortRange := aws_String entry.1;
                          types.HostPort := None;
                          types.HostPortRange := aws_String entry.2;
                          types.Protocol := protocol v |}) <$>
                 default [] (m !! ParsePortRangeToInt entry.2)) <$> ranges).
Proof.
  revert networkBindings.
  induction ranges as [|entry ranges IH]; intros networkBindings; simpl.
  { by rewrite app_nil_r. }
  rewrite IH. unfold api.rangeStep.
  destruct (m !! ParsePortRangeToInt entry.2) as [val|]; simpl.
  - by rewrite map_is_fmap, <- app_assoc.
  - done.
Qed.

Lemma getNetworkBindings_closed (change : ContainerStateChange.t)
  (cont : apicontainer.Container) :
  ContainerStateChange.Container change = Some cont →
  api.getNetworkBindings change
  = Returns
      ((singularBinding <$>
        filter (λ b, apicontainer.ContainerPort b
                     ∈ apicontainer.ContainerPortSet cont)
          (ContainerStateChange.PortBindings change))
       ++ concat
            ((λ entry,
               rangeBinding entry <$>
               filter (λ b, (apicontainer.ContainerPort b
                             ∉ apicontainer.ContainerPortSet cont)
                            ∧ apicontainer.HostPort b
                              = ParsePortRangeToInt entry.2)
                 (ContainerStateChange.PortBindings change))
             <$> apicontainer.ContainerPortRangeMap cont)).
Proof.
  intros Hc. unfold api.getNetworkBindings. rewrite Hc. f_equal.
  rewrite rangeStep_foldl.
  destruct (bindingStep_foldl (apicontainer.ContainerPortSet cont)
              (ContainerStateChange.PortBindings change) ([], ∅)) as [-> H2].
  simpl. f_equal. f_equal. apply list_fmap_ext. intros _ entry _.
  rewrite H2. cbn [snd]. rewrite lookup_empty. simpl.
  rewrite <- list_fmap_compose. done.
Qed.

Lemma filter_filter_hostPort (P : apicontainer.PortBinding → Prop)
  `{∀ b, Decision (P b)} (hp hp' : Z) (l : list apicontainer.PortBinding) :
  hp ≠ hp' →
  filter (λ b, P b ∧ apicontainer.HostPort b = hp')
    (filter (λ b, apicontainer.HostPort b ≠ hp) l)
  = filter (λ b, P b ∧ apicontainer.HostPort b = hp') l.
Proof.
  intros Hne. induction l as [|b l IH]; [done|].
  destruct (decide (apicontainer.HostPort b = hp)) as [Heq|Hneq].
  - rewrite (filter_cons_False (λ b, apicontainer.HostPort b ≠ hp)) by tauto.
    rewrite (filter_cons_False (λ b, P b ∧ _)); [done|].
    intros [_ ?]. congruence.
  - rewrite (filter_cons_True (λ b, apicontainer.HostPort b ≠ hp)) by done.
    destruct (decide (P b ∧ apicontainer.HostPort b = hp')) as [Hy|Hn].
    + rewrite !(filter_cons_True (λ b, P b ∧ _)) by done. by rewrite IH.
    + rewrite !(filter_cons_False (λ b, P b ∧ _)) by done. done.
Qed.

Lemma range_lengths_bound (P : apicontainer.PortBinding → Prop)
  `{∀ b, Decision (P b)} (hostPorts : list Z)
  (l : list apicontainer.PortBinding) :
  NoDup hostPorts →
  (sum_list ((λ hp, length (filter (λ b, P b ∧ apicontainer.HostPort b = hp)
                              l)) <$> hostPorts)
   ≤ length (filter P l))%nat.
Proof.
  intros Hnd. revert l.
  induction Hnd as [|hp hostPorts Hnotin Hnd IH]; intros l.
  { simpl. lia. }
  rewrite fmap_cons.
  assert (∀ x xs, sum_list (x :: xs) = (x + sum_list xs)%nat) as -> by done.
  assert (sum_list ((λ hp0, length (filter
             (λ b, P b ∧ apicontainer.HostPort b = hp0) l)) <$> hostPorts)
          = sum_list ((λ hp0, length (filter
             (λ b, P b ∧ apicontainer.HostPort b = hp0)
             (filter (λ b, apicontainer.HostPort b ≠ hp) l))) <$> hostPorts))
    as ->.
  { f_equal. apply list_fmap_ext. intros _ hp' Hin%list_elem_of_lookup_2.
    rewrite filter_filter_hostPort; [done|]. intros ->. done. }
  specialize (IH (filter (λ b, apicontainer.HostPort b ≠ hp) l)).
  assert (length (filter (λ b, P b ∧ apicontainer.HostPort b = hp) l)
          + length (filter P (filter (λ b, apicontainer.HostPort b ≠ hp) l))
          = length (filter P l))%nat as <-; [|lia].
  clear. induction l as [|b l IHl]; [done|].
  destruct (decide (apicontainer.HostPort b = hp)) as [Heq|Hneq];
    destruct (decide (P b)) as [Hp|Hp].
  - rewrite (filter_cons_True (λ b, P b ∧ _)) by done.
    rewrite (filter_cons_False (λ b, apicontainer.HostPort b ≠ hp)) by tauto.
    rewrite (filter_cons_True P) by done. simpl. lia.
  - rewrite (filter_cons_False (λ b, P b ∧ _)) by tauto.
    rewrite (filter_cons_False (λ b, apicontainer.HostPort b ≠ hp)) by tauto.
    rewrite (filter_cons_False P) by done. lia.
  - rewrite (filter_cons_False (λ b, P b ∧ _)) by tauto.
    rewrite (filter_cons_True (λ b, apicontainer.HostPort b ≠ hp)) by done.
    rewrite !(filter_cons_True P) by done. simpl. lia.
  - rewrite (filter_cons_False (λ b, P b ∧ _)) by tauto.
    rewrite (filter_cons_True (λ b, apicontainer.HostPort b ≠ hp)) by done.
    rewrite !(filter_cons_False P) by done. lia.
Qed.

Lemma filter_complement_length {A : Type} (P : A → Prop)
  `{∀ a, Decision (P a)} (l : list A) :
  (length (filter P l) + length (filter (λ a, ¬ P a) l) = length l)%nat.
Proof.
  induction l as [|a l IH]; [done|].
  destruct (decide (P a)).
  - rewrite (filter_cons_True P), (filter_cons_False (λ a, ¬ P a)) by tauto.
    simpl. lia.
  - rewrite (filter_cons_False P), (filter_cons_True (λ a, ¬ P a)) by tauto.
    simpl. lia.
Qed.

Lemma length_concat_fmap {A B : Type} (f : A → list B) (l : list A) :
  length (concat (f <$> l)) = sum_list ((λ x, length (f x)) <$> l).
Proof.
  induction l as [|a l IH]; [done|].
  rewrite !fmap_cons. simpl concat. rewrite length_app, IH. done.
Qed.

Lemma getNetworkBindings_length (change : ContainerStateChange.t)
  (cont : apicontainer.Container) (networkBindings : list types.NetworkBinding) :
  ContainerStateChange.Container change = Some cont →
  NoDup ((λ entry, ParsePortRangeToInt entry.2)
         <$> apicontainer.ContainerPortRangeMap cont) →
  api.getNetworkBindings change = Returns networkBindings →
  (length networkBindings
   ≤ length (ContainerStateChange.PortBindings change))%nat.
Proof.
  intros Hc Hnd Hnb. rewrite (getNetworkBindings_closed change cont Hc) in Hnb.
  injection Hnb as <-.
  rewrite length_app, length_fmap, length_concat_fmap.
  pose proof (range_lengths_bound
    (λ b, apicontainer.ContainerPort b ∉ apicontainer.ContainerPortSet cont)
    _ (ContainerStateChange.PortBindings change) Hnd) as Hle.
  rewrite <- list_fmap_compose in Hle.
  pose proof (filter_complement_length
    (λ b, apicontainer.ContainerPort b ∈ apicontainer.ContainerPortSet cont)
    (ContainerStateChange.PortBindings change)) as Hsum.
  match goal with
  | |- (_ + ?x ≤ _)%nat =>
      match type of Hle with (?y ≤ _)%nat => replace x with y end
  end.
  - etrans; [|by rewrite <- Hsum]. apply Nat.add_le_mono_l.
    etrans; [exact Hle|]. by apply Nat.eq_le_incl.
  - f_equal. apply list_fmap_ext. intros _ entry _. simpl.
    by rewrite length_fmap.
Qed.

End binding_facts.

(** X7: [getNetworkBindings] in closed form. The result lists first one
    singular binding for each port binding of the change whose container port
    is in the port set of the container, in the order of the port bindings;
    then, for each entry of the port range map in the order of the iteration,
    one range binding for each port binding whose container port is not in
    the port set and whose host port is the first host port of the range. *)
Theorem getNetworkBindings_closed_form `{TaskMethods}
  (change : ContainerStateChange.t) (cont : apicontainer.Container) :
  ContainerStateChange.Container change = Some cont →
  api.getNetworkBindings change
  = Returns
      ((singularBinding <$>
        filter (λ b, apicontainer.ContainerPort b
                     ∈ apicontainer.ContainerPortSet cont)
          (ContainerStateChange.PortBindings change))
       ++ concat
            ((λ entry,
               rangeBinding entry <$>
               filter (λ b, (apicontainer.ContainerPort b
                             ∉ apicontainer.ContainerPortSet cont)
                            ∧ apicontainer.HostPort b
                              = ParsePortRangeToInt entry.2)
                 (ContainerStateChange.PortBindings change))
             <$> apicontainer.ContainerPortRangeMap cont)).
Proof. apply getNetworkBindings_closed. Qed.

Lemma getNetworkBindings_closed_form_witness :
  ContainerStateChange.Container (reference.portsChange ContainerRunning 2)
  = Some (reference.portsContainer 2)
  ∧ api.getNetworkBindings (reference.portsChange ContainerRunning 2)
    = Returns
        [ singularBinding
            {| apicontainer.ContainerPort := 1000;
               apicontainer.HostPort := 32000;
               apicontainer.BindIP := "0.0.0.0";
               apicontainer.Protocol := "tcp" |};
          singularBinding
            {| apicontainer.ContainerPort := 1001;
               apicontainer.HostPort := 32001;
               apicontainer.BindIP := "0.0.0.0";
               apicontainer.Protocol := "tcp" |};
          rangeBinding ("8000-8199", "8000-8199")
            {| apicontainer.ContainerPort := 8000;
               apicontainer.HostPort := 8000;
               apicontainer.BindIP := "0.0.0.0";
               apicontainer.Protocol := "tcp" |} ].
Proof.
  split; [reflexivity|].
  rewrite (getNetworkBindings_closed_form
             (reference.portsChange ContainerRunning 2)
             (reference.portsContainer 2) eq_refl).
  vm_compute. reflexivity.
Defined.

(** X8: when the ranges of the port range map start at pairwise distinct host
    ports, [getNetworkBindings] returns at most as many network bindings as
    the change has port bindings. A change with at most 100 port bindings
    that names its container and carries a status that is submitted then
    builds its payload: the limit on network bindings is not reached. *)
Theorem network_bindings_within_port_bindings `{StatusMethods} `{TaskMethods}
  (change : ContainerStateChange.t) (cont : apicontainer.Container) :
  ContainerStateChange.Container change = Some cont →
  NoDup ((λ entry, ParsePortRangeToInt entry.2)
         <$> apicontainer.ContainerPortRangeMap cont) →
  ∃ networkBindings,
    api.getNetworkBindings change = Returns networkBindings
    ∧ (length networkBindings
       ≤ length (ContainerStateChange.PortBindings change))%nat
    ∧ ((length (ContainerStateChange.PortBindings change) ≤ 100)%nat →
       ContainerStateChange.ContainerName change ≠ "" →
       api.supportedUpstream (ContainerStateChange.Status change) →
       api.buildsPayload change).
Proof.
  intros Hc Hnd.
  destruct (getNetworkBindings_returns change cont Hc) as [nb Hnb].
  exists nb. split; [done|].
  pose proof (getNetworkBindings_length change cont nb Hc Hnd Hnb) as Hlen.
  split; [done|]. intros Hle Hname Hstat.
  unfold api.buildsPayload, api.buildContainerStateChangePayload.
  apply String.eqb_neq in Hname. rewrite Hname.
  rewrite supportedUpstream_guard.
  rewrite (bool_decide_eq_false_2 (¬ _)) by tauto.
  rewrite Hnb, Hc.
  assert ((api.ecsMaxNetworkBindingsLength <? Z.of_nat (length nb))%Z = false)
    as ->.
  { apply Z.ltb_ge. unfold api.ecsMaxNetworkBindingsLength. lia. }
  rewrite andb_false_r. by eexists.
Qed.

Lemma network_bindings_within_port_bindings_witness :
  ∃ networkBindings,
    api.getNetworkBindings (reference.portsChange ContainerRunning 3)
    = Returns networkBindings
    ∧ (length networkBindings ≤ 4)%nat
    ∧ api.buildsPayload (reference.portsChange ContainerRunning 3).
Proof.
  destruct (network_bindings_within_port_bindings
              (reference.portsChange ContainerRunning 3)
              (reference.portsContainer 3) eq_refl)
    as (nb & Hnb & Hlen & Hbuild).
  { vm_compute. apply NoDup_cons. split; [apply not_elem_of_nil|apply NoDup_nil_2]. }
  exists nb. split; [exact Hnb|]. split; [exact Hlen|].
  apply Hbuild.
  - vm_compute. lia.
  - discriminate.
  - right. right. reflexivity.
Defined.

(** ** Conversions to the payloads of the backend *)

Section conversion_facts.
Context `{StatusMethods} `{TaskMethods} `{AgentDeclarations}.

Lemma aws_ToString_nonEmpty (s : string) : aws_ToString (nonEmpty s) = s.
Proof.
  unfold aws_ToString, nonEmpty.
  by destruct (String.eqb_spec s "") as [->|].
Qed.

Lemma int32_id (x : Z) : (- 2 ^ 31 ≤ x < 2 ^ 31)%Z → int32 x = x.
Proof.
  intros Hx. unfold int32. rewrite Z.mod_small by lia. lia.
Qed.

Lemma buildContainerStateChangePayload_some (c : ContainerStateChange.t)
  (pl : types.ContainerStateChange) :
  api.buildContainerStateChangePayload c = Returns (Some pl, None) →
  ContainerStateChange.ContainerName c ≠ ""
  ∧ api.supportedUpstream (ContainerStateChange.Status c)
  ∧ api.getNetworkBindings c = Returns (types.NetworkBindings pl)
  ∧ types.ContainerName pl = Some (ContainerStateChange.ContainerName c)
  ∧ types.RuntimeId pl = nonEmpty (ContainerStateChange.RuntimeID c)
  ∧ types.Reason pl = nonEmpty (ContainerStateChange.Reason c)
  ∧ types.ImageDigest pl = nonEmpty (ContainerStateChange.ImageDigest c)
  ∧ types.ExitCode pl = int32 <$> ContainerStateChange.ExitCode c.
Proof.
  unfold api.buildContainerStateChangePayload.
  destruct (String.eqb_spec (ContainerStateChange.ContainerName c) "");
    [done|].
  rewrite supportedUpstream_guard.
  destruct (decide (api.supportedUpstream (ContainerStateChange.Status c)))
    as [Hs|Hs].
  2:{ by rewrite (bool_decide_eq_true_2 (¬ _)). }
  rewrite (bool_decide_eq_false_2 (¬ _)) by tauto.
  destruct (api.getNetworkBindings c) as [nb|]; [|done].
  destruct (ContainerStateChange.Container c) as [cont|]; [|done].
  destruct (_ && _); [done|]. intros [= <-]. done.
Qed.

Lemma buildContainerStateChangePayload_unsupported
  (c : ContainerStateChange.t) :
  ContainerStateChange.ContainerName c ≠ "" →
  ¬ api.supportedUpstream (ContainerStateChange.Status c) →
  api.buildContainerStateChangePayload c = Returns (None, None).
Proof.
  intros Hname%String.eqb_neq Hs.
  unfold api.buildContainerStateChangePayload. rewrite Hname.
  rewrite supportedUpstream_guard.
  by rewrite (bool_decide_eq_true_2 (¬ _)).
Qed.

Lemma managedAgentPayloads_returns
  (events : list ManagedAgentStateChange.t) :
  Forall (λ m, is_Some (ManagedAgentStateChange.Container m)) events →
  ∃ payloads,
    api.managedAgentPayloads events = Returns payloads
    ∧ Forall2 (λ m pl,
                 api.buildManagedAgentStateChangePayload m = Returns (Some pl))
        (filter (λ m, ManagedAgentStatus_ShouldReportToBackend
                        (ManagedAgentStateChange.Status m) = true) events)
        payloads.
Proof.
  induction 1 as [|m events [cont Hm] _ (payloads & IH1 & IH2)]; simpl.
  { eexists. split; [done|]. constructor. }
  rewrite IH1. unfold api.buildManagedAgentStateChangePayload at 1.
  rewrite Hm.
  destruct (ManagedAgentStatus_ShouldReportToBackend
              (ManagedAgentStateChange.Status m)) eqn:Hr; simpl.
  - eexists. split; [done|]. rewrite filter_cons_True by done.
    constructor; [|done].
    unfold api.buildManagedAgentStateChangePayload. by rewrite Hm, Hr.
  - eexists. split; [done|]. rewrite filter_cons_False; [done|].
    by rewrite Hr.
Qed.

Lemma containerPayloads_returns (events : list ContainerStateChange.t) :
  Forall api.buildsPayload events →
  ∃ payloads,
    api.containerPayloads events = Returns (Some payloads, None)
    ∧ Forall2 (λ ev pl,
                 api.buildContainerStateChangePayload ev
                 = Returns (Some pl, None)) events payloads.
Proof.
  induction 1 as [|ev events [pl Hpl] _ (payloads & IH1 & IH2)]; simpl.
  { eexists. split; [done|]. constructor. }
  rewrite Hpl, IH1. eexists. split; [done|]. by constructor.
Qed.

Lemma containerPayloads_first_failure
  (pre post : list ContainerStateChange.t) (ev : ContainerStateChange.t) :
  Forall api.buildsPayload pre →
  api.containerPayloads (pre ++ ev :: post)
  = match api.buildContainerStateChangePayload ev with
    | Panics => Panics
    | Returns (_, Some err) => Returns (None, Some err)
    | Returns (None, None) => Panics
    | Returns (Some payload, None) =>
        match api.containerPayloads post with
        | Returns (Some payloads, None) =>
            match api.containerPayloads pre with
            | Returns (Some before, None) =>
                Returns (Some (before ++ payload :: payloads), None)
            | other => other
            end
        | other => other
        end
    end.
Proof.
  induction 1 as [|ev' pre [pl Hpl] _ IH]; simpl.
  { by destruct (api.buildContainerStateChangePayload ev)
      as [[[?|] [?|]]|]. }
  rewrite Hpl, IH.
  destruct (api.buildContainerStateChangePayload ev) as [[[?|] [?|]]|];
    try done.
  destruct (api.containerPayloads post) as [[[?|] [?|]]|]; try done.
  by destruct (api.containerPayloads pre) as [[[?|] [?|]]|].
Qed.

End conversion_facts.

(** X9: a successful [ContainerStateChange.ToECSAgent] keeps the change. The
    change names its container and has a status that is submitted; the result
    has its task ARN, container name, status, runtime id, image digest,
    reason and container, the network bindings that [getNetworkBindings]
    computes for it, and its exit code wrapped to 32 bits, which is the exit
    code itself when that fits into 32 bits. *)
Theorem ContainerStateChange_ToECSAgent_faithful
  `{StatusMethods} `{TaskMethods}
  (c : ContainerStateChange.t) (out : ecsContainerStateChange.t) :
  api.ContainerStateChange_ToECSAgent c = Returns (Some out, None) →
  ContainerStateChange.ContainerName c ≠ ""
  ∧ api.supportedUpstream (ContainerStateChange.Status c)
  ∧ ecsContainerStateChange.TaskArn out = ContainerStateChange.TaskArn c
  ∧ ecsContainerStateChange.ContainerName out
    = ContainerStateChange.ContainerName c
  ∧ ecsContainerStateChange.Status out = ContainerStateChange.Status c
  ∧ ecsContainerStateChange.RuntimeID out = ContainerStateChange.RuntimeID c
  ∧ ecsContainerStateChange.ImageDigest out
    = ContainerStateChange.ImageDigest c
  ∧ ecsContainerStateChange.Reason out = ContainerStateChange.Reason c
  ∧ ecsContainerStateChange.MetadataGetter out
    = ContainerStateChange.Container c
  ∧ api.getNetworkBindings c
    = Returns (ecsContainerStateChange.NetworkBindings out)
  ∧ ecsContainerStateChange.ExitCode out
    = int32 <$> ContainerStateChange.ExitCode c
  ∧ (∀ exitCode, ContainerStateChange.ExitCode c = Some exitCode →
       (- 2 ^ 31 ≤ exitCode < 2 ^ 31)%Z →
       ecsContainerStateChange.ExitCode out = Some exitCode).
Proof.
  unfold api.ContainerStateChange_ToECSAgent.
  destruct (api.buildContainerStateChangePayload c)
    as [[[pl|] [err|]]|] eqn:Hb; try done.
  intros [= <-]. simpl.
  destruct (buildContainerStateChangePayload_some c pl Hb)
    as (Hname & Hstat & Hnb & _ & Hrt & Hreason & Hdig & Hexit).
  rewrite Hrt, Hreason, Hdig, Hexit, !aws_ToString_nonEmpty.
  assert (utils.Int32PtrToIntPtr (int32 <$> ContainerStateChange.ExitCode c)
          = int32 <$> ContainerStateChange.ExitCode c) as ->.
  { by destruct (ContainerStateChange.ExitCode c). }
  repeat split; try done.
  intros exitCode -> Hrange. simpl. by rewrite int32_id.
Qed.

Lemma ContainerStateChange_ToECSAgent_faithful_witness :
  ∃ out,
    api.ContainerStateChange_ToECSAgent
      (reference.stoppedChange ContainerStopped) = Returns (Some out, None)
    ∧ ecsContainerStateChange.ImageDigest out = "sha256:0123"
    ∧ ecsContainerStateChange.ExitCode out = Some 137%Z.
Proof.
  eexists. split; [vm_compute; reflexivity|].
  match goal with
  | |- context [ecsContainerStateChange.ImageDigest ?o] =>
      destruct (ContainerStateChange_ToECSAgent_faithful
                  (reference.stoppedChange ContainerStopped) o)
        as (_ & _ & _ & _ & _ & _ & Hd & _ & _ & _ & _ & He)
  end.
  { vm_compute. reflexivity. }
  split; [exact Hd|]. apply He; [reflexivity|lia].
Defined.

(** X10: [TaskStateChange.ToECSAgent] converts a task change all of whose
    container changes build a payload and all of whose managed agent changes
    have a container. The result has the attachment, ARN, status, reason,
    timestamps and task of the change, one payload for each container change,
    in their order, and the payloads of the managed agent changes whose
    status is reported, in their order. *)
Theorem TaskStateChange_ToECSAgent_converts
  `{StatusMethods} `{TaskMethods} `{AgentDeclarations}
  (c : api.TaskStateChangeAll) :
  Forall api.buildsPayload (TaskStateChange.Containers (api.change c)) →
  Forall (λ m, is_Some (ManagedAgentStateChange.Container m))
    (api.ManagedAgents c) →
  ∃ out,
    api.TaskStateChange_ToECSAgent c = Returns (Some out, None)
    ∧ Forall2 (λ ev pl, api.buildContainerStateChangePayload ev
                        = Returns (Some pl, None))
        (TaskStateChange.Containers (api.change c))
        (ecsTaskStateChange.Containers out)
    ∧ Forall2 (λ m pl, api.buildManagedAgentStateChangePayload m
                       = Returns (Some pl))
        (filter (λ m, ManagedAgentStatus_ShouldReportToBackend
                        (ManagedAgentStateChange.Status m) = true)
           (api.ManagedAgents c))
        (ecsTaskStateChange.ManagedAgents out)
    ∧ ecsTaskStateChange.Attachment out = api.Attachment c
    ∧ ecsTaskStateChange.TaskARN out = TaskStateChange.TaskARN (api.change c)
    ∧ ecsTaskStateChange.Status out = TaskStateChange.Status (api.change c)
    ∧ ecsTaskStateChange.Reason out = TaskStateChange.Reason (api.change c)
    ∧ ecsTaskStateChange.PullStartedAt out
      = TaskStateChange.PullStartedAt (api.change c)
    ∧ ecsTaskStateChange.PullStoppedAt out
      = TaskStateChange.PullStoppedAt (api.change c)
    ∧ ecsTaskStateChange.ExecutionStoppedAt out
      = TaskStateChange.ExecutionStoppedAt (api.change c)
    ∧ ecsTaskStateChange.MetadataGetter out
      = TaskStateChange.Task (api.change c).
Proof.
  intros Hc Hm.
  destruct (managedAgentPayloads_returns _ Hm) as (agents & Ha1 & Ha2).
  destruct (containerPayloads_returns _ Hc) as (payloads & Hp1 & Hp2).
  unfold api.TaskStateChange_ToECSAgent. rewrite Ha1, Hp1.
  eexists. split; [done|]. simpl. by repeat split.
Qed.

(** X11: the first container change of a task change that builds no payload
    decides the outcome of [TaskStateChange.ToECSAgent]. When the container
    changes before it build their payloads and the managed agent changes have
    containers, an error of that container change is the error of the
    conversion, with no result; and a container change that names its
    container but has a status that is not submitted makes the conversion
    panic, on reading the payload that is [nil]. *)
Theorem TaskStateChange_ToECSAgent_first_failure
  `{StatusMethods} `{TaskMethods} `{AgentDeclarations}
  (c : api.TaskStateChangeAll)
  (pre post : list ContainerStateChange.t) (ev : ContainerStateChange.t) :
  TaskStateChange.Containers (api.change c) = pre ++ ev :: post →
  Forall api.buildsPayload pre →
  Forall (λ m, is_Some (ManagedAgentStateChange.Container m))
    (api.ManagedAgents c) →
  (∀ pl err,
     api.buildContainerStateChangePayload ev = Returns (pl, Some err) →
     api.TaskStateChange_ToECSAgent c = Returns (None, Some err))
  ∧ (ContainerStateChange.ContainerName ev ≠ "" →
     ¬ api.supportedUpstream (ContainerStateChange.Status ev) →
     api.TaskStateChange_ToECSAgent c = Panics).
Proof.
  intros Hcs Hpre Hm.
  destruct (managedAgentPayloads_returns _ Hm) as (agents & Ha1 & _).
  unfold api.TaskStateChange_ToECSAgent.
  rewrite Ha1, Hcs, (containerPayloads_first_failure pre post ev Hpre).
  split.
  - intros pl err ->. by destruct pl.
  - intros Hname Hstat.
    by rewrite (buildContainerStateChangePayload_unsupported ev Hname Hstat).
Qed.

Lemma TaskStateChange_ToECSAgent_first_failure_witness :
  api.TaskStateChange_ToECSAgent
    {| api.change :=
         {| TaskStateChange.TaskARN := "test-arn";
            TaskStateChange.Status := TaskStopped;
            TaskStateChange.Reason := "";
            TaskStateChange.Containers :=
              [reference.stoppedChange ContainerStopped;
               reference.stoppedChange ContainerStatusNone];
            TaskStateChange.PullStartedAt := None;
            TaskStateChange.PullStoppedAt := None;
            TaskStateChange.ExecutionStoppedAt := None;
            TaskStateChange.Task := None |};
       api.Attachment := None;
       api.ManagedAgents := [] |}
  = Panics.
Proof.
  match goal with
  | |- api.TaskStateChange_ToECSAgent ?c = _ =>
      refine (proj2 (TaskStateChange_ToECSAgent_first_failure c
                [reference.stoppedChange ContainerStopped] []
                (reference.stoppedChange ContainerStatusNone) eq_refl _ _) _ _)
  end.
  - constructor; [|constructor]. eexists. vm_compute. reflexivity.
  - constructor.
  - discriminate.
  - intros [?|[?|?]]; discriminate.
Defined.

Lemma TaskStateChange_ToECSAgent_converts_witness :
  ∃ out,
    api.TaskStateChange_ToECSAgent
      {| api.change :=
           {| TaskStateChange.TaskARN := "test-arn";
              TaskStateChange.Status := TaskStopped;
              TaskStateChange.Reason := "";
              TaskStateChange.Containers :=
                [reference.stoppedChange ContainerStopped];
              TaskStateChange.PullStartedAt := None;
              TaskStateChange.PullStoppedAt := None;
              TaskStateChange.ExecutionStoppedAt := None;
              TaskStateChange.Task := None |};
         api.Attachment := None;
         api.ManagedAgents := [] |}
    = Returns (Some out, None)
    ∧ length (ecsTaskStateChange.Containers out) = 1%nat.
Proof.
  match goal with
  | |- ∃ out, api.TaskStateChange_ToECSAgent ?c = _ ∧ _ =>
      destruct (TaskStateChange_ToECSAgent_converts c)
        as (out & Hout & Hcs & _)
  end.
  - constructor; [|constructor]. eexists. vm_compute. reflexivity.
  - constructor.
  - exists out. split; [exact Hout|].
    apply Forall2_length in Hcs. simpl in Hcs. by rewrite <- Hcs.
Defined.

(** X12: [NewManagedAgentChangeEvent] creates an event exactly when the
    container has a managed agent of the given name whose status is reported
    to the backend. The payload of that event is then built, never skipped
    and without a panic; it names the agent as the container does, with the
    name of the container and the given reason. *)
Theorem NewManagedAgentChangeEvent_builds_payload `{AgentDeclarations}
  (task : apitask.Task) (cont : apicontainer.Container)
  (managedAgentName reason : string) :
  ((api.NewManagedAgentChangeEvent task cont managedAgentName reason).2 = None
   ↔ ∃ name status,
       GetManagedAgentByName cont managedAgentName = Some (name, status)
       ∧ ManagedAgentStatus_ShouldReportToBackend status = true)
  ∧ (∀ name status,
       GetManagedAgentByName cont managedAgentName = Some (name, status) →
       ManagedAgentStatus_ShouldReportToBackend status = true →
       ∃ event,
         api.NewManagedAgentChangeEvent task cont managedAgentName reason
         = (Some event, None)
         ∧ ManagedAgentStateChange.TaskArn event = apitask.Arn task
         ∧ api.buildManagedAgentStateChangePayload event
           = Returns (Some
               {| managedagent.ManagedAgentName := name;
                  managedagent.ContainerName := Some (apicontainer.Name cont);
                  managedagent.Status :=
                    Some (ManagedAgentStatus_String status);
                  managedagent.Reason := Some reason |})).
Proof.
  unfold api.NewManagedAgentChangeEvent. split.
  - destruct (GetManagedAgentByName cont managedAgentName)
      as [[name status]|]; simpl.
    + destruct (ManagedAgentStatus_ShouldReportToBackend status) eqn:Hr;
        simpl.
      * split; [by eauto|done].
      * split; [done|]. intros (? & ? & [= <- <-] & ?). congruence.
    + split; [done|]. by intros (? & ? & ? & _).
  - intros name status -> Hr. rewrite Hr. simpl. eexists.
    split; [done|]. split; [done|].
    unfold api.buildManagedAgentStateChangePayload. simpl. by rewrite Hr.
Qed.

(** X13: [ContainerStateChange.ToFields] reads the exit code through its
    pointer. On the event that [NewContainerStateChangeEvent] creates for a
    container without a known exit code, such as a running one, it panics;
    for a container with a known exit code it returns seven fields, among
    them the decimal numeral of the exit code and the reason of the event. *)
Theorem ContainerStateChange_ToFields_of_event `{StatusMethods} `{TaskMethods}
  (task : apitask.Task) (cont : apicontainer.Container) (reason : string) :
  (api.NewContainerStateChangeEvent task cont reason).2 = None →
  (apicontainer.KnownExitCode cont = None →
   api.ContainerStateChange_ToFields
     (api.NewContainerStateChangeEvent task cont reason).1 = Panics)
  ∧ (∀ exitCode, apicontainer.KnownExitCode cont = Some exitCode →
       ∃ fields,
         api.ContainerStateChange_ToFields
           (api.NewContainerStateChangeEvent task cont reason).1
         = Returns fields
         ∧ size fields = 7%nat
         ∧ fields !! "exitCode" = Some (FieldString (utils.Itoa exitCode))
         ∧ fields !! "eventType" = Some (FieldString "ContainerStateChange")
         ∧ fields !! "reason"
           = Some (FieldString
                     (if String.eqb reason ""
                      then default "" (apicontainer.ApplyingError cont)
                      else reason))).
Proof.
  intros Herr.
  destruct (NewContainerStateChangeEvent_cases task cont reason)
    as [_ Hev].
  destruct (Hev Herr) as (Hreason & _ & Hexit).
  unfold api.ContainerStateChange_ToFields. rewrite Hexit. split.
  - by intros ->.
  - intros exitCode ->. eexists. split; [done|].
    rewrite Hreason. split; [|by repeat split].
    rewrite !map_size_insert_None; [by rewrite map_size_empty|..];
      by simplify_map_eq.
Qed.

Lemma ContainerStateChange_ToFields_of_event_witness :
  ∃ fields,
    api.ContainerStateChange_ToFields
      (api.NewContainerStateChangeEvent
         (reference.CreateTestTask "test-arn" "EC2" 512
            [reference.stoppedContainer])
         reference.stoppedContainer "").1
    = Returns fields
    ∧ fields !! "exitCode" = Some (FieldString "137").
Proof.
  assert ((api.NewContainerStateChangeEvent
             (reference.CreateTestTask "test-arn" "EC2" 512
                [reference.stoppedContainer])
             reference.stoppedContainer "").2 = None) as Herr.
  { vm_compute. reflexivity. }
  destruct (ContainerStateChange_ToFields_of_event _ _ _ Herr)
    as [_ Hfields].
  destruct (Hfields 137%Z eq_refl) as (fields & Hf & _ & Hexit & _).
  exists fields. split; [exact Hf|exact Hexit].
Defined.

(** ** Further properties of [tcs/client/client.go]: health requests *)

Section health_facts.
Context {TaskHealth PublishHealthRequest : Type}.
Context (NewPublishHealthMetricsRequest :
           HealthMetadata.t → list TaskHealth → PublishHealthRequest).

Lemma mod_page (q k : nat) : (k < 10 → (10 * q + k) mod 10 = k)%nat.
Proof.
  intros Hk. rewrite Nat.add_comm, Nat.mul_comm, Nat.Div0.mod_add.
  by apply Nat.mod_small.
Qed.

Lemma healthLoop_cons (metadata : HealthMetadata.t) (numOfTasks i : nat)
  (requests : list PublishHealthRequest) (taskHealths : list TaskHealth)
  (taskHealth : TaskHealth) (rest : list TaskHealth) :
  tcshealth.healthLoop NewPublishHealthMetricsRequest metadata numOfTasks i
    requests taskHealths (taskHealth :: rest)
  = if ((i + 1) mod 10 =? 0)%nat then
      tcshealth.healthLoop NewPublishHealthMetricsRequest metadata numOfTasks
        (i + 1)
        (requests
         ++ [NewPublishHealthMetricsRequest
               (tcshealth.copyHealthMetadata metadata
                  (i + 1 =? numOfTasks)%nat)
               (taskHealths ++ [taskHealth])])
        [] rest
    else
      tcshealth.healthLoop NewPublishHealthMetricsRequest metadata numOfTasks
        (i + 1) requests (taskHealths ++ [taskHealth]) rest.
Proof. reflexivity. Qed.

(** The loop, started after [i] task healths of which the last
    [length taskHealths] are collected: it adds full pages only, in order,
    and a page is marked final exactly when it ends the task healths. *)
Lemma healthLoop_pages (metadata : HealthMetadata.t) (numOfTasks : nat)
  (rest : list TaskHealth) :
  ∀ (i q : nat) (requests : list PublishHealthRequest)
    (taskHealths : list TaskHealth),
    (i = 10 * q + length taskHealths)%nat →
    (length taskHealths < 10)%nat →
    (i + length rest = numOfTasks)%nat →
    ∃ (pages : list (HealthMetadata.t * list TaskHealth))
      (left : list TaskHealth),
      tcshealth.healthLoop NewPublishHealthMetricsRequest metadata numOfTasks
        i requests taskHealths rest
      = (requests
         ++ ((λ page, NewPublishHealthMetricsRequest page.1 page.2) <$> pages),
         left)
      ∧ concat (snd <$> pages) ++ left = taskHealths ++ rest
      ∧ (length left < 10)%nat
      ∧ Forall (λ page, length page.2 = 10%nat) pages
      ∧ (∀ j page, pages !! j = Some page →
           page.1 = tcshealth.copyHealthMetadata metadata
                      (bool_decide (left = [] ∧ S j = length pages))).
Proof.
  induction rest as [|taskHealth rest IH];
    intros i q requests taskHealths Hi Hlen Hn.
  { exists [], taskHealths. simpl. rewrite !app_nil_r.
    by repeat split. }
  rewrite healthLoop_cons.
  destruct (decide (length taskHealths + 1 = 10)%nat) as [Hfull|Hnot].
  - assert (((i + 1) mod 10 =? 0)%nat = true) as ->.
    { apply Nat.eqb_eq.
      replace (i + 1)%nat with (10 * (q + 1) + 0)%nat by lia.
      by apply mod_page; lia. }
    destruct (IH (i + 1)%nat (q + 1)%nat
                (requests
                 ++ [NewPublishHealthMetricsRequest
                       (tcshealth.copyHealthMetadata metadata
                          (i + 1 =? numOfTasks)%nat)
                       (taskHealths ++ [taskHealth])]) [])
      as (pages & left & -> & Hcat & Hleft & Hall & Hfin);
      [simpl; lia|simpl; lia|simpl in Hn; lia|].
    exists ((tcshealth.copyHealthMetadata metadata (i + 1 =? numOfTasks)%nat,
             taskHealths ++ [taskHealth]) :: pages), left.
    split; [by rewrite <- app_assoc|].
    split.
    { simpl. simpl in Hcat. rewrite <- !app_assoc. simpl. by rewrite <- Hcat. }
    split; [done|]. split.
    { constructor; [|done]. simpl. rewrite length_app. simpl. lia. }
    intros [|j] page Hj; simpl in Hj.
    + injection Hj as <-. simpl. f_equal.
      simpl in Hn, Hcat.
      destruct (Nat.eqb_spec (i + 1) numOfTasks) as [Heq|Hne].
      * assert (rest = []) as -> by (destruct rest; [done|simpl in Hn; lia]).
        apply app_eq_nil in Hcat as [Hpages ->].
        destruct pages as [|page pages]; [|exfalso].
        { symmetry. by apply bool_decide_eq_true_2. }
        apply Forall_cons in Hall as [Hpage _]. simpl in Hpages.
        apply app_eq_nil in Hpages as [Hnil _].
        rewrite Hnil in Hpage. done.
      * symmetry. apply bool_decide_eq_false_2. intros [-> Hone].
        destruct pages; [|done]. simpl in Hcat. subst rest. simpl in Hn. lia.
    + rewrite (Hfin j page Hj). f_equal. apply bool_decide_ext. simpl.
      split; intros [? ?]; split; try done; lia.
  - assert (((i + 1) mod 10 =? 0)%nat = false) as ->.
    { apply Nat.eqb_neq.
      replace (i + 1)%nat with (10 * q + (length taskHealths + 1))%nat by lia.
      rewrite mod_page; lia. }
    destruct (IH (i + 1)%nat q requests (taskHealths ++ [taskHealth]))
      as (pages & left & -> & Hcat & Hleft & Hall & Hfin);
      [rewrite length_app; simpl; lia|rewrite length_app; simpl; lia
      |simpl in Hn; lia|].
    exists pages, left. split; [done|]. split; [|done].
    by rewrite Hcat, <- app_assoc.
Qed.

Lemma healthToPublishHealthRequests_pages (health : tcshealth.HealthMessage)
  (metadata : HealthMetadata.t) (taskHealthMetrics : list TaskHealth) :
  tcshealth.Metadata health = Some metadata →
  tcshealth.HealthMetrics health = Some taskHealthMetrics →
  ∃ pages : list (HealthMetadata.t * list TaskHealth),
    tcshealth.healthToPublishHealthRequests NewPublishHealthMetricsRequest
      health
    = ((λ page, NewPublishHealthMetricsRequest page.1 page.2) <$> pages, None)
    ∧ concat (snd <$> pages) = taskHealthMetrics
    ∧ (∀ j page, pages !! j = Some page →
         page.1 = tcshealth.copyHealthMetadata metadata
                    (bool_decide (S j = length pages))
         ∧ (0 < length page.2 ≤ 10)%nat
         ∧ ((S j < length pages)%nat → length page.2 = 10%nat))
    ∧ (length taskHealthMetrics ≤ 10 * length pages
       < length taskHealthMetrics + 10)%nat.
Proof.
  intros Hm Ht. unfold tcshealth.healthToPublishHealthRequests.
  rewrite Hm, Ht.
  destruct (healthLoop_pages metadata (length taskHealthMetrics)
              taskHealthMetrics 0 0 [] [])
    as (pages & left & -> & Hcat & Hleft & Hall & Hfin);
    [simpl; lia..|].
  simpl in Hcat.
  assert (length (concat (snd <$> pages)) = 10 * length pages)%nat as Hsize.
  { clear -Hall. induction Hall as [|page pages Hp _ IH]; [done|].
    rewrite fmap_cons. simpl concat. rewrite length_app, IH, Hp. simpl. lia. }
  assert (length taskHealthMetrics = 10 * length pages + length left)%nat
    as Hn.
  { by rewrite <- Hcat, length_app, Hsize. }
  destruct left as [|taskHealth left]; simpl negb; cbv iota.
  - exists pages. rewrite app_nil_r in Hcat. split; [done|].
    split; [done|]. split; [|simpl in Hn; lia].
    intros j page Hj. split; [|split].
    + rewrite (Hfin j page Hj). f_equal. apply bool_decide_ext. tauto.
    + rewrite Forall_forall in Hall.
      rewrite (Hall page); [lia|]. by eapply list_elem_of_lookup_2.
    + intros _. rewrite Forall_forall in Hall.
      apply Hall. by eapply list_elem_of_lookup_2.
  - exists (pages ++ [(tcshealth.copyHealthMetadata metadata true,
                       taskHealth :: left)]).
    split; [by rewrite fmap_app|].
    split.
    { rewrite fmap_app, concat_app. simpl. by rewrite app_nil_r. }
    split; [|rewrite length_app; simpl in *; lia].
    intros j page Hj. rewrite length_app. simpl length.
    apply lookup_app_Some in Hj as [Hj|[Hge Hj]].
    + pose proof (lookup_lt_Some _ _ _ Hj) as Hlt.
      rewrite Forall_forall in Hall.
      rewrite (Hall page) by (by eapply list_elem_of_lookup_2).
      split; [|split; [lia|done]].
      rewrite (Hfin j page Hj). f_equal.
      rewrite !bool_decide_eq_false_2; [done|lia|]. by intros [? _].
    + destruct (j - length pages)%nat as [|?] eqn:Hd; [|done].
      simpl in Hj. injection Hj as <-. simpl.
      split; [|split; [simpl in Hleft; lia|lia]].
      f_equal. symmetry. apply bool_decide_eq_true_2. lia.
Qed.

End health_facts.

(** X14: [healthToPublishHealthRequests] pages the task healths. With a
    metadata and health metrics it returns, without an error, one request per
    page, where the pages are consecutive pieces of the health metrics, in
    order and without loss or repetition; every page has between 1 and 10 task
    healths and every page but the last has exactly 10, so the number of
    requests is the number of task healths divided by 10, rounded up; each
    request has a copy of the metadata, marked final on the last page and on
    no other. *)
Theorem healthToPublishHealthRequests_paging
  {TaskHealth PublishHealthRequest : Type}
  (NewPublishHealthMetricsRequest :
     HealthMetadata.t → list TaskHealth → PublishHealthRequest)
  (health : tcshealth.HealthMessage)
  (metadata : HealthMetadata.t) (taskHealthMetrics : list TaskHealth) :
  tcshealth.Metadata health = Some metadata →
  tcshealth.HealthMetrics health = Some taskHealthMetrics →
  ∃ pages : list (HealthMetadata.t * list TaskHealth),
    tcshealth.healthToPublishHealthRequests NewPublishHealthMetricsRequest
      health
    = ((λ page, NewPublishHealthMetricsRequest page.1 page.2) <$> pages, None)
    ∧ concat (snd <$> pages) = taskHealthMetrics
    ∧ (∀ j page, pages !! j = Some page →
         page.1 = tcshealth.copyHealthMetadata metadata
                    (bool_decide (S j = length pages))
         ∧ (0 < length page.2 ≤ 10)%nat
         ∧ ((S j < length pages)%nat → length page.2 = 10%nat))
    ∧ (length taskHealthMetrics ≤ 10 * length pages
       < length taskHealthMetrics + 10)%nat.
Proof. apply healthToPublishHealthRequests_pages. Qed.

Lemma healthToPublishHealthRequests_paging_witness :
  ∃ pages : list (HealthMetadata.t * list nat),
    tcshealth.healthToPublishHealthRequests pair
      {| tcshealth.Metadata :=
           Some {| HealthMetadata.Cluster := Some "default";
                   HealthMetadata.ContainerInstance := None;
                   HealthMetadata.Fin := None;
                   HealthMetadata.MessageId := Some "message-1" |};
         tcshealth.HealthMetrics := Some (seq 0 12) |}
    = ((λ page, (page.1, page.2)) <$> pages, None)
    ∧ concat (snd <$> pages) = seq 0 12
    ∧ length pages = 2%nat.
Proof.
  match goal with
  | |- ∃ pages, tcshealth.healthToPublishHealthRequests _ ?h = _ ∧ _ =>
      destruct (healthToPublishHealthRequests_paging pair h
                  {| HealthMetadata.Cluster := Some "default";
                     HealthMetadata.ContainerInstance := None;
                     HealthMetadata.Fin := None;
                     HealthMetadata.MessageId := Some "message-1" |}
                  (seq 0 12) eq_refl eq_refl)
        as (pages & Hreq & Hcat & _ & Hcount)
  end.
  exists pages. split; [exact Hreq|]. split; [exact Hcat|].
  simpl in Hcount. lia.
Defined.

(** X15: [healthToPublishHealthRequests] never returns an error, and it
    returns no request exactly when the message has no metadata, or no health
    metrics, or health metrics without a task health. *)
Theorem healthToPublishHealthRequests_no_request
  {TaskHealth PublishHealthRequest : Type}
  (NewPublishHealthMetricsRequest :
     HealthMetadata.t → list TaskHealth → PublishHealthRequest)
  (health : tcshealth.HealthMessage) :
  (tcshealth.healthToPublishHealthRequests NewPublishHealthMetricsRequest
     health).2 = None
  ∧ ((tcshealth.healthToPublishHealthRequests NewPublishHealthMetricsRequest
        health).1 = []
     ↔ tcshealth.Metadata health = None
       ∨ tcshealth.HealthMetrics health = None
       ∨ tcshealth.HealthMetrics health = Some []).
Proof.
  destruct (tcshealth.Metadata health) as [metadata|] eqn:Hm.
  2:{ unfold tcshealth.healthToPublishHealthRequests. rewrite Hm.
      split; [done|]. split; [by left|done]. }
  destruct (tcshealth.HealthMetrics health) as [taskHealthMetrics|] eqn:Ht.
  2:{ unfold tcshealth.healthToPublishHealthRequests. rewrite Hm, Ht.
      split; [done|]. split; [by right; left|done]. }
  destruct (healthToPublishHealthRequests_pages
              NewPublishHealthMetricsRequest health metadata
              taskHealthMetrics Hm Ht)
    as (pages & -> & Hcat & _ & Hcount).
  split; [done|]. simpl. split.
  - intros Hnil%fmap_nil_inv. subst pages. simpl in Hcat. subst.
    by right; right.
  - intros [?|[?|[= ->]]]; try done.
    destruct pages; [done|]. simpl in Hcount. lia.
Qed.

(** ** Properties of [ecr/client.go] *)

(** X16: [GetAuthorizationToken] passes an error of the SDK on, with no
    datum. When the SDK returns an output without an error, the datum of that
    output is returned exactly when it is the only one; any other number of
    data is an error. A datum and an error are never returned together, and
    the call panics only when the SDK returns neither output nor error. *)
Theorem GetAuthorizationToken_single_datum {AuthorizationData : Type}
  (sdkClient : list string → option (list AuthorizationData) * option error)
  (registryId : string) :
  (∀ output err, sdkClient [registryId] = (output, Some err) →
     ecr.GetAuthorizationToken sdkClient registryId
     = Returns (None, Some err))
  ∧ (∀ authorizationData,
       sdkClient [registryId] = (Some authorizationData, None) →
       (∀ data, ecr.GetAuthorizationToken sdkClient registryId
                = Returns (Some data, None)
                ↔ authorizationData = [data])
       ∧ (length authorizationData ≠ 1%nat →
          ∃ err, ecr.GetAuthorizationToken sdkClient registryId
                 = Returns (None, Some err)))
  ∧ (∀ data err, ecr.GetAuthorizationToken sdkClient registryId
                 ≠ Returns (Some data, Some err))
  ∧ (ecr.GetAuthorizationToken sdkClient registryId = Panics
     ↔ sdkClient [registryId] = (None, None)).
Proof.
  unfold ecr.GetAuthorizationToken.
  destruct (sdkClient [registryId]) as [[l|] [err|]] eqn:Hsdk;
    try (repeat split; intros; by simplify_eq).
  destruct l as [|data [|data' l]].
  - repeat split; intros; simplify_eq; try done. by eexists.
  - repeat split; intros; simplify_eq; try done.
  - repeat split; intros; simplify_eq; try done. by eexists.
Qed.

(** ** Properties of [tcs/client/client.go]: metrics requests *)

Section metrics_facts.
Context {InstanceMetrics ContainerMetric GeneralMetricsWrapper
         TaskMetricOther PublishMetricsRequest : Type}.
Local Abbreviation TaskMetric :=
  (@tcsmetrics.TaskMetric ContainerMetric GeneralMetricsWrapper
     TaskMetricOther).
Context (NewPublishMetricsRequest :
           option InstanceMetrics → MetricsMetadata.t →
           option (list TaskMetric) → PublishMetricsRequest).
Context (exceedsSizeLimit : PublishMetricsRequest → bool).

Local Abbreviation build :=
  (λ p : option InstanceMetrics * MetricsMetadata.t * list TaskMetric,
     NewPublishMetricsRequest p.1.1 p.1.2 (Some p.2)).
Local Abbreviation scOf :=
  (λ t : TaskMetric, default [] (tcsmetrics.ServiceConnectMetricsWrapper t)).
Local Abbreviation cmOf :=
  (λ t : TaskMetric, default [] (tcsmetrics.ContainerMetrics t)).

Lemma filterInstanceMetrics_count (instanceMetrics : option InstanceMetrics)
  (requestCount : nat) :
  tcsmetrics.filterInstanceMetrics instanceMetrics requestCount
  = if (requestCount =? 0)%nat then instanceMetrics else None.
Proof.
  unfold tcsmetrics.filterInstanceMetrics.
  destruct instanceMetrics; [done|]. by destruct (_ =? _)%nat.
Qed.

Lemma filterInstanceMetrics_twice (instanceMetrics : option InstanceMetrics)
  (n m : nat) :
  (n ≤ m)%nat →
  tcsmetrics.filterInstanceMetrics
    (tcsmetrics.filterInstanceMetrics instanceMetrics n) m
  = tcsmetrics.filterInstanceMetrics instanceMetrics m.
Proof.
  intros Hle. rewrite !filterInstanceMetrics_count.
  destruct (Nat.eqb_spec m 0) as [->|Hm]; [|done].
  by assert (n = 0)%nat as -> by lia.
Qed.

Lemma sliceReset_empty {A : Type} (s : option (list A)) :
  default [] (sliceReset s) = [].
Proof. by destruct s. Qed.

Lemma serviceConnectLoop_spec (instanceMetrics : option InstanceMetrics)
  (requestMetadata : MetricsMetadata.t)
  (serviceConnectMetrics : list GeneralMetricsWrapper) :
  ∀ (tempTaskMetric : TaskMetric) (messageTaskMetrics : list TaskMetric)
    (requests : list PublishMetricsRequest),
  ∃ (added : list (option InstanceMetrics * MetricsMetadata.t
                   * list TaskMetric))
    (truncated : list TaskMetric) (tempTaskMetric' : TaskMetric)
    (messageTaskMetrics' : list TaskMetric),
    tcsmetrics.serviceConnectLoop NewPublishMetricsRequest exceedsSizeLimit
      instanceMetrics requestMetadata tempTaskMetric messageTaskMetrics
      requests serviceConnectMetrics
    = (tempTaskMetric', messageTaskMetrics', requests ++ (build <$> added))
    ∧ concat (snd <$> added) ++ messageTaskMetrics'
      = messageTaskMetrics ++ truncated
    ∧ (added = [] → truncated = [] ∧ messageTaskMetrics' = messageTaskMetrics)
    ∧ (added ≠ [] → messageTaskMetrics' = [])
    ∧ (∀ j p, added !! j = Some p →
         p.1.1 = tcsmetrics.filterInstanceMetrics instanceMetrics
                   (length requests + j)
         ∧ p.1.2 = requestMetadata
         ∧ (length p.2 ≤ length messageTaskMetrics + 1)%nat)
    ∧ Forall (λ piece, tcsmetrics.Other piece
                       = tcsmetrics.Other tempTaskMetric)
        (truncated ++ [tempTaskMetric'])
    ∧ concat (scOf <$> truncated ++ [tempTaskMetric'])
      = scOf tempTaskMetric ++ serviceConnectMetrics
    ∧ concat (cmOf <$> truncated ++ [tempTaskMetric'])
      = cmOf tempTaskMetric
    ∧ ((∀ request, exceedsSizeLimit request = false) →
       added = []
       ∧ tcsmetrics.ContainerMetrics tempTaskMetric'
         = tcsmetrics.ContainerMetrics tempTaskMetric
       ∧ (serviceConnectMetrics = [] → tempTaskMetric' = tempTaskMetric)
       ∧ (serviceConnectMetrics ≠ [] →
          tcsmetrics.ServiceConnectMetricsWrapper tempTaskMetric'
          = Some (scOf tempTaskMetric ++ serviceConnectMetrics))).
Proof.
  induction serviceConnectMetrics as [|serviceConnectMetric rest IH];
    intros tempTaskMetric messageTaskMetrics requests.
  { exists [], [], tempTaskMetric, messageTaskMetrics. simpl.
    rewrite !app_nil_r. repeat split; try done.
    by constructor. }
  cbn [tcsmetrics.serviceConnectLoop]. unfold tcsmetrics.copyTaskMetrics.
  destruct (exceedsSizeLimit _) eqn:Hex.
  - rewrite removelast_last.
    match goal with
    | |- context [tcsmetrics.serviceConnectLoop _ _ _ _ ?t [] (_ ++ [_ _ _ (Some (_ ++ [?tr]))]) rest] =>
        set (trunc := tr);
        destruct (IH t [] (requests ++ [build (tcsmetrics.filterInstanceMetrics instanceMetrics (length requests), requestMetadata, messageTaskMetrics ++ [trunc])]))
          as (added & truncated & temp' & mtm' & Heq & Hcat & Hnil & Hne
              & Hidx & Hother & Hsc & Hcm & _)
    end.
    exists ((tcsmetrics.filterInstanceMetrics instanceMetrics (length requests),
             requestMetadata, messageTaskMetrics ++ [trunc]) :: added),
      (trunc :: truncated), temp', mtm'.
    split.
    { refine (eq_trans Heq _). by rewrite <- app_assoc. }
    split.
    { rewrite fmap_cons. cbn [concat snd]. rewrite <- !app_assoc.
      rewrite Hcat. done. }
    split; [done|]. split.
    { intros _. destruct added; [by apply Hnil|by apply Hne]. }
    split.
    { intros [|j] p Hp; simpl in Hp.
      - injection Hp as <-. cbn [fst snd].
        rewrite Nat.add_0_r, length_app. simpl. by repeat split.
      - destruct (Hidx j p Hp) as (Hi1 & Hi2 & Hi3).
        rewrite length_app in Hi1. simpl in Hi1, Hi3.
        replace (length requests + S j)%nat
          with (length requests + 1 + j)%nat by lia.
        repeat split; try done. lia. }
    split; [by constructor|].
    split.
    { rewrite <- app_comm_cons, fmap_cons. cbn [concat]. rewrite Hsc.
      subst trunc. simpl. done. }
    split.
    { rewrite <- app_comm_cons, fmap_cons. cbn [concat]. rewrite Hcm.
      subst trunc. simpl. by rewrite sliceReset_empty, app_nil_r. }
    intros Hno. by rewrite Hno in Hex.
  - match goal with
    | |- context [tcsmetrics.serviceConnectLoop _ _ _ _ ?t _ _ rest] =>
        destruct (IH t messageTaskMetrics requests)
          as (added & truncated & temp' & mtm' & Heq & Hcat & Hnil & Hne
              & Hidx & Hother & Hsc & Hcm & Hno)
    end.
    exists added, truncated, temp', mtm'.
    split; [done|]. split; [done|]. split; [done|]. split; [done|].
    split; [done|]. split; [done|].
    split.
    { rewrite Hsc. simpl. by rewrite <- app_assoc. }
    split; [done|].
    intros Hall. destruct (Hno Hall) as (Ha & Hc & Hrest0 & Hrest1).
    split; [done|]. split; [done|]. split; [done|]. intros _.
    destruct rest as [|x rest].
    + rewrite Hrest0 by done. done.
    + rewrite Hrest1 by done. simpl. by rewrite <- app_assoc.
Qed.

Lemma serviceConnect_spec (instanceMetrics : option InstanceMetrics)
  (requestMetadata : MetricsMetadata.t) (taskMetric : TaskMetric)
  (messageTaskMetrics : list TaskMetric)
  (requests : list PublishMetricsRequest) :
  ∃ (added : list (option InstanceMetrics * MetricsMetadata.t
                   * list TaskMetric))
    (truncated : list TaskMetric) (taskMetric' : TaskMetric)
    (messageTaskMetrics' : list TaskMetric),
    tcsmetrics.serviceConnectMetricsToPublishMetricRequests
      NewPublishMetricsRequest exceedsSizeLimit
      instanceMetrics requestMetadata taskMetric messageTaskMetrics requests
    = (taskMetric', messageTaskMetrics', requests ++ (build <$> added))
    ∧ concat (snd <$> added) ++ messageTaskMetrics'
      = messageTaskMetrics ++ truncated
    ∧ (added = [] → truncated = [] ∧ messageTaskMetrics' = messageTaskMetrics)
    ∧ (added ≠ [] → messageTaskMetrics' = [])
    ∧ (∀ j p, added !! j = Some p →
         p.1.1 = tcsmetrics.filterInstanceMetrics instanceMetrics
                   (length requests + j)
         ∧ p.1.2 = requestMetadata
         ∧ (length p.2 ≤ length messageTaskMetrics + 1)%nat)
    ∧ splitsInto taskMetric (truncated ++ [taskMetric'])
    ∧ ((∀ request, exceedsSizeLimit request = false) →
       is_Some (tcsmetrics.ServiceConnectMetricsWrapper taskMetric) →
       added = [] ∧ taskMetric' = taskMetric).
Proof.
  unfold tcsmetrics.serviceConnectMetricsToPublishMetricRequests.
  destruct (serviceConnectLoop_spec instanceMetrics requestMetadata
              (default [] (tcsmetrics.ServiceConnectMetricsWrapper taskMetric))
              (tcsmetrics.setServiceConnectMetricsWrapper
                 (sliceReset
                    (tcsmetrics.ServiceConnectMetricsWrapper taskMetric))
                 taskMetric)
              messageTaskMetrics requests)
    as (added & truncated & temp' & mtm' & Heq & Hcat & Hnil & Hne & Hidx
        & Hother & Hsc & Hcm & Hno).
  exists added, truncated, temp', mtm'.
  split; [done|]. split; [done|]. split; [done|]. split; [done|].
  split; [done|]. simpl in Hother, Hsc, Hcm.
  rewrite sliceReset_empty in Hsc. simpl in Hsc.
  split.
  { split; [by destruct truncated|]. by repeat split. }
  intros Hall [l Hl]. destruct (Hno Hall) as (Ha & Hc & Hrest0 & Hrest1).
  split; [done|].
  destruct taskMetric as [cm sc other]. simpl in *. subst sc. simpl in *.
  destruct l as [|x l].
  - by rewrite Hrest0.
  - specialize (Hrest1 ltac:(done)).
    apply Forall_app in Hother as [_ Hlast].
    apply Forall_inv in Hlast.
    destruct temp'. simpl in *. by subst.
Qed.

Lemma splitsInto_self (taskMetric : TaskMetric) :
  splitsInto taskMetric [taskMetric].
Proof.
  split; [done|]. split; [by constructor|].
  simpl. by rewrite !app_nil_r.
Qed.

Lemma fitTaskMetric_spec (instanceMetrics : option InstanceMetrics)
  (requestMetadata : MetricsMetadata.t) (taskMetric : TaskMetric)
  (messageTaskMetrics : list TaskMetric)
  (requests : list PublishMetricsRequest) :
  ∃ (added : list (option InstanceMetrics * MetricsMetadata.t
                   * list TaskMetric))
    (truncated : list TaskMetric) (taskMetric' : TaskMetric)
    (messageTaskMetrics' : list TaskMetric),
    tcsmetrics.fitTaskMetric NewPublishMetricsRequest exceedsSizeLimit
      (tcsmetrics.filterInstanceMetrics instanceMetrics (length requests))
      requestMetadata taskMetric messageTaskMetrics requests
    = (taskMetric', messageTaskMetrics', requests ++ (build <$> added))
    ∧ concat (snd <$> added) ++ messageTaskMetrics'
      = messageTaskMetrics ++ truncated
    ∧ (added = [] → truncated = [] ∧ messageTaskMetrics' = messageTaskMetrics)
    ∧ (added ≠ [] → messageTaskMetrics' = [])
    ∧ (∀ j p, added !! j = Some p →
         p.1.1 = tcsmetrics.filterInstanceMetrics instanceMetrics
                   (length requests + j)
         ∧ p.1.2 = requestMetadata
         ∧ (length p.2 ≤ length messageTaskMetrics + 1)%nat)
    ∧ splitsInto taskMetric (truncated ++ [taskMetric'])
    ∧ ((∀ request, exceedsSizeLimit request = false) →
       added = [] ∧ taskMetric' = taskMetric).
Proof.
  unfold tcsmetrics.fitTaskMetric, tcsmetrics.copyTaskMetrics.
  set (mim := tcsmetrics.filterInstanceMetrics instanceMetrics
                (length requests)).
  destruct (exceedsSizeLimit _) eqn:Hex.
  - destruct (tcsmetrics.ServiceConnectMetricsWrapper taskMetric) eqn:Hw.
    + destruct (serviceConnect_spec mim requestMetadata taskMetric []
                  (requests
                   ++ [build (mim, requestMetadata, messageTaskMetrics)]))
        as (added & truncated & tm' & mtm' & Heq & Hcat & Hnil & Hne & Hidx
            & Hsplit & _).
      exists ((mim, requestMetadata, messageTaskMetrics) :: added),
        truncated, tm', mtm'.
      split; [refine (eq_trans Heq _); by rewrite <- app_assoc|].
      split.
      { rewrite fmap_cons. cbn [concat snd]. by rewrite <- app_assoc, Hcat. }
      split; [done|]. split.
      { intros _. destruct added; [by apply Hnil|by apply Hne]. }
      split.
      { intros [|j] p Hp; simpl in Hp.
        - injection Hp as <-. cbn [fst snd]. rewrite Nat.add_0_r.
          split; [done|]. split; [done|]. lia.
        - destruct (Hidx j p Hp) as (Hi1 & Hi2 & Hi3).
          rewrite length_app in Hi1. simpl in Hi1, Hi3.
          subst mim. rewrite filterInstanceMetrics_twice in Hi1 by lia.
          replace (length requests + S j)%nat
            with (length requests + 1 + j)%nat by lia.
          repeat split; try done. lia. }
      split; [done|]. intros Hno. by rewrite Hno in Hex.
    + exists [(mim, requestMetadata, messageTaskMetrics)], [], taskMetric, [].
      split; [done|]. split; [simpl; by rewrite !app_nil_r|].
      split; [done|]. split; [done|]. split.
      { intros [|j] p Hp; simpl in Hp; [|done].
        injection Hp as <-. cbn [fst snd]. rewrite Nat.add_0_r.
        split; [done|]. split; [done|]. lia. }
      split; [apply splitsInto_self|]. intros Hno. by rewrite Hno in Hex.
  - destruct (tcsmetrics.ServiceConnectMetricsWrapper taskMetric) eqn:Hw.
    + destruct (serviceConnect_spec mim requestMetadata taskMetric
                  messageTaskMetrics requests)
        as (added & truncated & tm' & mtm' & Heq & Hcat & Hnil & Hne & Hidx
            & Hsplit & Hno).
      exists added, truncated, tm', mtm'.
      split; [done|]. split; [done|]. split; [done|]. split; [done|].
      split.
      { intros j p Hp. destruct (Hidx j p Hp) as (Hi1 & Hi2 & Hi3).
        subst mim. rewrite filterInstanceMetrics_twice in Hi1 by lia.
        done. }
      split; [done|]. intros Hall. apply Hno; [done|]. by rewrite Hw.
    + exists [], [], taskMetric, messageTaskMetrics.
      split; [simpl; by rewrite app_nil_r|].
      split; [simpl; by rewrite app_nil_r|].
      split; [done|]. split; [done|]. split; [done|].
      split; [apply splitsInto_self|done].
Qed.

Lemma full_message (n : nat) :
  (1 ≤ n ≤ 10 → (n mod 10 =? 0) = bool_decide (n = 10))%nat.
Proof.
  intros Hn. destruct (decide (n = 10)%nat) as [->|Hne].
  - by rewrite bool_decide_eq_true_2.
  - rewrite bool_decide_eq_false_2 by done.
    apply Nat.eqb_neq. rewrite Nat.mod_small; lia.
Qed.

Lemma metricsLoop_step (instanceMetrics : option InstanceMetrics)
  (metadata mdF mdT : MetricsMetadata.t) (numTasks i : nat)
  (requests : list PublishMetricsRequest)
  (messageTaskMetrics : list TaskMetric)
  (taskMetric : TaskMetric) (rest : list TaskMetric) :
  tcsmetrics.copyMetricsMetadata metadata false = Returns mdF →
  tcsmetrics.copyMetricsMetadata metadata true = Returns mdT →
  (i + length (taskMetric :: rest) = numTasks)%nat →
  (length messageTaskMetrics < 10)%nat →
  ∃ (added : list (option InstanceMetrics * MetricsMetadata.t
                   * list TaskMetric))
    (pieces : list TaskMetric) (messageTaskMetrics' : list TaskMetric),
    tcsmetrics.metricsLoop NewPublishMetricsRequest exceedsSizeLimit
      instanceMetrics metadata numTasks i requests messageTaskMetrics
      (taskMetric :: rest)
    = tcsmetrics.metricsLoop NewPublishMetricsRequest exceedsSizeLimit
        instanceMetrics metadata numTasks (i + 1)
        (requests ++ (build <$> added)) messageTaskMetrics' rest
    ∧ concat (snd <$> added) ++ messageTaskMetrics'
      = messageTaskMetrics ++ pieces
    ∧ splitsInto taskMetric pieces
    ∧ (length messageTaskMetrics' < 10)%nat
    ∧ (added = [] →
       length messageTaskMetrics' = (length messageTaskMetrics + 1)%nat)
    ∧ (∀ j p, added !! j = Some p →
         p.1.1 = tcsmetrics.filterInstanceMetrics instanceMetrics
                   (length requests + j)
         ∧ (length p.2 ≤ 10)%nat
         ∧ p.1.2 = if bool_decide (messageTaskMetrics' = []
                                   ∧ S j = length added ∧ rest = [])
                   then mdT else mdF)
    ∧ ((∀ request, exceedsSizeLimit request = false) →
       pieces = [taskMetric]
       ∧ Forall (λ p, length p.2 = 10%nat) added).
Proof.
  intros HF HT Hn Hlen. cbn [tcsmetrics.metricsLoop]. rewrite HF.
  destruct (fitTaskMetric_spec instanceMetrics mdF taskMetric
              messageTaskMetrics requests)
    as (added & truncated & tm' & mtm' & -> & Hcat & Hnil & Hne & Hidx
        & Hsplit & Hno).
  assert (length mtm' < 10)%nat as Hlen'.
  { destruct added; [by rewrite (proj2 (Hnil eq_refl))|].
    rewrite Hne by done. simpl. lia. }
  assert ((if (i + 1 =? numTasks)%nat
           then tcsmetrics.copyMetricsMetadata metadata true
           else Returns mdF)
          = Returns (if bool_decide (rest = []) then mdT else mdF)) as ->.
  { simpl in Hn. destruct (Nat.eqb_spec (i + 1) numTasks) as [Heq|Hneq].
    - rewrite bool_decide_eq_true_2; [done|]. destruct rest; [done|].
      simpl in Hn. lia.
    - rewrite bool_decide_eq_false_2; [done|]. intros ->. simpl in Hn. lia. }
  unfold tcsmetrics.tasksInMetricMessage, tcsmetrics.copyTaskMetrics.
  rewrite full_message by (rewrite length_app; simpl; lia).
  destruct (decide (length (mtm' ++ [tm']) = 10)%nat) as [Hfull|Hnot].
  - rewrite bool_decide_eq_true_2 by done.
    assert (added = []) as ->.
    { destruct added; [done|]. rewrite Hne in Hfull by done. done. }
    destruct (Hnil eq_refl) as [-> ->]. simpl in Hsplit.
    exists [(tcsmetrics.filterInstanceMetrics instanceMetrics (length requests),
             if bool_decide (rest = []) then mdT else mdF,
             messageTaskMetrics ++ [tm'])], [tm'], [].
    split; [simpl; by rewrite app_nil_r|].
    split; [simpl; by rewrite !app_nil_r|].
    split; [done|]. split; [simpl; lia|]. split; [done|].
    split.
    { intros [|j] p Hp; simpl in Hp; [|done].
      injection Hp as <-. cbn [fst snd]. rewrite Nat.add_0_r.
      split; [done|]. split; [lia|].
      apply (f_equal (λ b : bool, if b then mdT else mdF)).
      apply bool_decide_ext. simpl. tauto. }
    intros Hall. destruct (Hno Hall) as [_ ->].
    split; [done|]. constructor; [done|constructor].
  - rewrite bool_decide_eq_false_2 by done.
    exists added, (truncated ++ [tm']), (mtm' ++ [tm']).
    split; [done|].
    split; [by rewrite !app_assoc, Hcat|].
    split; [done|].
    split; [rewrite length_app in *; simpl in *; lia|].
    split.
    { intros ->. destruct (Hnil eq_refl) as [_ ->]. by rewrite length_app. }
    split.
    { intros j p Hp. destruct (Hidx j p Hp) as (Hi1 & Hi2 & Hi3).
      split; [done|]. split; [lia|].
      rewrite bool_decide_eq_false_2; [done|].
      intros [Hnil' _]. by destruct mtm'. }
    intros Hall. destruct (Hno Hall) as [-> ->].
    destruct (Hnil eq_refl) as [-> ->]. split; [done|constructor].
Qed.

Lemma metricsLoop_spec (instanceMetrics : option InstanceMetrics)
  (metadata mdF mdT : MetricsMetadata.t) (numTasks : nat)
  (taskMetrics : list TaskMetric) :
  tcsmetrics.copyMetricsMetadata metadata false = Returns mdF →
  tcsmetrics.copyMetricsMetadata metadata true = Returns mdT →
  ∀ (i : nat) (requests : list PublishMetricsRequest)
    (messageTaskMetrics : list TaskMetric),
  (i + length taskMetrics = numTasks)%nat →
  (length messageTaskMetrics < 10)%nat →
  ∃ (added : list (option InstanceMetrics * MetricsMetadata.t
                   * list TaskMetric))
    (pieces : list (list TaskMetric)) (messageTaskMetrics' : list TaskMetric),
    tcsmetrics.metricsLoop NewPublishMetricsRequest exceedsSizeLimit
      instanceMetrics metadata numTasks i requests messageTaskMetrics
      taskMetrics
    = Returns (requests ++ (build <$> added), messageTaskMetrics')
    ∧ concat (snd <$> added) ++ messageTaskMetrics'
      = messageTaskMetrics ++ concat pieces
    ∧ Forall2 splitsInto taskMetrics pieces
    ∧ (length messageTaskMetrics' < 10)%nat
    ∧ (added = [] →
       length messageTaskMetrics'
       = (length messageTaskMetrics + length taskMetrics)%nat)
    ∧ (∀ j p, added !! j = Some p →
         p.1.1 = tcsmetrics.filterInstanceMetrics instanceMetrics
                   (length requests + j)
         ∧ (length p.2 ≤ 10)%nat
         ∧ p.1.2 = if bool_decide (messageTaskMetrics' = []
                                   ∧ S j = length added)
                   then mdT else mdF)
    ∧ (taskMetrics = [] → added = [])
    ∧ ((∀ request, exceedsSizeLimit request = false) →
       concat pieces = taskMetrics
       ∧ Forall (λ p, length p.2 = 10%nat) added).
Proof.
  intros HF HT.
  induction taskMetrics as [|taskMetric rest IH];
    intros i requests messageTaskMetrics Hn Hlen.
  { exists [], [], messageTaskMetrics. simpl. rewrite !app_nil_r.
    split; [done|]. split; [done|]. split; [constructor|].
    split; [done|]. split; [by intros _; lia|]. split; [done|].
    split; [done|]. intros _. split; [done|constructor]. }
  destruct (metricsLoop_step instanceMetrics metadata mdF mdT numTasks i
              requests messageTaskMetrics taskMetric rest HF HT Hn Hlen)
    as (sa & ps & smtm & -> & Hcat & Hsplit & Hslen & Hsnil & Hsidx & Hsno).
  destruct (IH (i + 1)%nat (requests ++ (build <$> sa)) smtm)
    as (added & pieces & mtm' & -> & Hcat' & Hsplit' & Hlen' & Hnil' & Hidx'
        & Hempty & Hno'); [simpl in Hn; lia|done|].
  exists (sa ++ added), (ps :: pieces), mtm'.
  split; [by rewrite fmap_app, app_assoc|].
  split.
  { rewrite fmap_app, concat_app, <- app_assoc, Hcat'. simpl.
    by rewrite !app_assoc, Hcat. }
  split; [by constructor|]. split; [done|].
  split.
  { intros [-> ->]%app_eq_nil. rewrite Hnil', Hsnil by done. simpl. lia. }
  split.
  { intros j p Hp. rewrite length_app.
    apply lookup_app_Some in Hp as [Hp|[Hge Hp]].
    - destruct (Hsidx j p Hp) as (Hi1 & Hi2 & Hi3).
      split; [done|]. split; [done|]. rewrite Hi3.
      apply (f_equal (λ b : bool, if b then mdT else mdF)).
      apply bool_decide_ext.
      pose proof (lookup_lt_Some _ _ _ Hp) as Hlt.
      split.
      + intros (-> & Hj & ->). rewrite (Hempty eq_refl) in *.
        specialize (Hnil' eq_refl). simpl in Hnil'.
        destruct mtm'; [|done]. simpl. split; [done|lia].
      + intros [-> Hj]. assert (added = []) as -> by (destruct added; [done|simpl in Hj; lia]).
        specialize (Hnil' eq_refl). simpl in Hnil'.
        assert (smtm = [] ∧ rest = []) as [-> ->].
        { split; [destruct smtm|destruct rest]; try done; simpl in *; lia. }
        split; [done|]. split; [simpl in Hj; lia|done].
    - destruct (Hidx' _ p Hp) as (Hi1 & Hi2 & Hi3).
      rewrite length_app, length_fmap in Hi1.
      split; [by replace (length requests + j)%nat
                with (length requests + length sa + (j - length sa))%nat
                by lia|].
      split; [done|]. rewrite Hi3.
      apply (f_equal (λ b : bool, if b then mdT else mdF)).
      apply bool_decide_ext. split; intros [? ?]; split; try done; lia. }
  split; [done|].
  intros Hall. destruct (Hsno Hall) as [-> Hs10].
  destruct (Hno' Hall) as [Hp10 Ha10].
  split; [simpl; by rewrite Hp10|]. by apply Forall_app.
Qed.

Lemma copyMetricsMetadata_returns (metadata : MetricsMetadata.t) (fin : bool) :
  (∃ requestMetadata,
     tcsmetrics.copyMetricsMetadata metadata fin = Returns requestMetadata)
  ↔ is_Some (MetricsMetadata.Cluster metadata)
    ∧ is_Some (MetricsMetadata.ContainerInstance metadata)
    ∧ is_Some (MetricsMetadata.Idle metadata)
    ∧ is_Some (MetricsMetadata.MessageId metadata).
Proof.
  unfold tcsmetrics.copyMetricsMetadata. split.
  - intros [requestMetadata Hc].
    destruct (MetricsMetadata.Cluster metadata),
      (MetricsMetadata.ContainerInstance metadata),
      (MetricsMetadata.Idle metadata), (MetricsMetadata.MessageId metadata);
      done.
  - intros ([? ->] & [? ->] & [? ->] & [? ->]). by eexists.
Qed.


Lemma copyMetricsMetadata_both (metadata : MetricsMetadata.t) (fin fin' : bool)
  (requestMetadata : MetricsMetadata.t) :
  tcsmetrics.copyMetricsMetadata metadata fin = Returns requestMetadata →
  ∃ requestMetadata',
    tcsmetrics.copyMetricsMetadata metadata fin' = Returns requestMetadata'.
Proof.
  intros Hc. apply copyMetricsMetadata_returns.
  apply (copyMetricsMetadata_returns metadata fin). by eexists.
Qed.

Lemma metricsToPublishMetricRequests_spec
  (message : tcsmetrics.TelemetryMessage)
  (metadata mdF mdT : MetricsMetadata.t) :
  tcsmetrics.Metadata message = Some metadata →
  MetricsMetadata.Idle metadata = Some false →
  tcsmetrics.copyMetricsMetadata metadata false = Returns mdF →
  tcsmetrics.copyMetricsMetadata metadata true = Returns mdT →
  ∃ (parts : list (option InstanceMetrics * MetricsMetadata.t
                   * list TaskMetric))
    (pieces : list (list TaskMetric)),
    tcsmetrics.metricsToPublishMetricRequests NewPublishMetricsRequest
      exceedsSizeLimit message
    = Returns (build <$> parts, None)
    ∧ concat (snd <$> parts) = concat pieces
    ∧ Forall2 splitsInto (default [] (tcsmetrics.TaskMetrics message)) pieces
    ∧ (∀ j p, parts !! j = Some p →
         p.1.1 = (if (j =? 0)%nat
                  then tcsmetrics.InstanceMetricsOf message else None)
         ∧ (length p.2 ≤ 10)%nat
         ∧ p.1.2 = if bool_decide (S j = length parts) then mdT else mdF)
    ∧ (parts = [] ↔ default [] (tcsmetrics.TaskMetrics message) = [])
    ∧ ((∀ request, exceedsSizeLimit request = false) →
       concat (snd <$> parts) = default [] (tcsmetrics.TaskMetrics message)
       ∧ (∀ j p, parts !! j = Some p →
            (0 < length p.2)%nat
            ∧ ((S j < length parts)%nat → length p.2 = 10%nat))).
Proof.
  intros Hm Hidle HF HT.
  unfold tcsmetrics.metricsToPublishMetricRequests. rewrite Hm, Hidle.
  destruct (metricsLoop_spec (tcsmetrics.InstanceMetricsOf message) metadata
              mdF mdT
              (length (default [] (tcsmetrics.TaskMetrics message)))
              (default [] (tcsmetrics.TaskMetrics message)) HF HT 0 [] [])
    as (added & pieces & mtm' & -> & Hcat & Hsplit & Hlen & Hnil & Hidx
        & Hempty & Hno); [done|simpl; lia|].
  simpl in Hcat, Hnil. cbn [app length] in Hidx. simpl "+" in Hidx.
  destruct mtm' as [|taskMetric mtm'].
  - simpl. rewrite app_nil_r in Hcat. exists added, pieces.
    split; [done|]. split; [done|]. split; [done|]. split.
    { intros j p Hp. destruct (Hidx j p Hp) as (Hi1 & Hi2 & Hi3).
      rewrite filterInstanceMetrics_count in Hi1.
      split; [done|]. split; [done|]. rewrite Hi3.
      apply (f_equal (λ b : bool, if b then mdT else mdF)).
      apply bool_decide_ext. tauto. }
    split.
    { split; [|done]. intros ->. specialize (Hnil eq_refl). simpl in Hnil.
      by destruct (default [] (tcsmetrics.TaskMetrics message)). }
    intros Hall. destruct (Hno Hall) as [Hp10 Ha10].
    split; [by rewrite Hcat|]. intros j p Hp.
    rewrite Forall_forall in Ha10.
    rewrite (Ha10 p) by (by eapply list_elem_of_lookup_2).
    split; [lia|done].
  - cbn [length Nat.ltb Nat.leb]. rewrite HT.
    exists (added
            ++ [(tcsmetrics.filterInstanceMetrics
                   (tcsmetrics.InstanceMetricsOf message) (length added),
                 mdT, taskMetric :: mtm')]), pieces.
    split.
    { cbn [app]. rewrite fmap_app, length_fmap. done. }
    split.
    { rewrite fmap_app, concat_app. simpl. by rewrite app_nil_r. }
    split; [done|]. split.
    { intros j p Hp. rewrite length_app. simpl length.
      apply lookup_app_Some in Hp as [Hp|[Hge Hp]].
      - destruct (Hidx j p Hp) as (Hi1 & Hi2 & Hi3).
        pose proof (lookup_lt_Some _ _ _ Hp) as Hlt.
        rewrite filterInstanceMetrics_count in Hi1.
        split; [done|]. split; [done|]. rewrite Hi3.
        rewrite !bool_decide_eq_false_2; [done|lia|]. by intros [? _].
      - destruct (j - length added)%nat as [|?] eqn:Hd; [|done].
        simpl in Hp. injection Hp as <-. cbn [fst snd].
        assert (j = length added) as -> by lia.
        rewrite filterInstanceMetrics_count.
        split; [done|]. split; [lia|].
        rewrite bool_decide_eq_true_2; [done|lia]. }
    split.
    { split; [by intros [_ ?]%app_eq_nil|].
      intros Htasks. specialize (Hempty Htasks). subst added.
      specialize (Hnil eq_refl). rewrite Htasks in Hnil. done. }
    intros Hall. destruct (Hno Hall) as [Hp10 Ha10].
    split.
    { rewrite fmap_app, concat_app. simpl. by rewrite app_nil_r, Hcat. }
    intros j p Hp. rewrite length_app. simpl length.
    apply lookup_app_Some in Hp as [Hp|[Hge Hp]].
    + rewrite Forall_forall in Ha10.
      rewrite (Ha10 p) by (by eapply list_elem_of_lookup_2).
      split; [lia|done].
    + destruct (j - length added)%nat as [|?] eqn:Hd; [|done].
      simpl in Hp. injection Hp as <-. simpl. split; lia.
Qed.

Lemma metricsToPublishMetricRequests_panics
  (message : tcsmetrics.TelemetryMessage) (metadata : MetricsMetadata.t) :
  tcsmetrics.Metadata message = Some metadata →
  MetricsMetadata.Idle metadata = Some false →
  tcsmetrics.copyMetricsMetadata metadata false = Panics →
  (default [] (tcsmetrics.TaskMetrics message) = [] →
   tcsmetrics.metricsToPublishMetricRequests NewPublishMetricsRequest
     exceedsSizeLimit message = Returns ([], None))
  ∧ (default [] (tcsmetrics.TaskMetrics message) ≠ [] →
     tcsmetrics.metricsToPublishMetricRequests NewPublishMetricsRequest
       exceedsSizeLimit message = Panics).
Proof.
  intros Hm Hidle Hp.
  unfold tcsmetrics.metricsToPublishMetricRequests. rewrite Hm, Hidle.
  destruct (default [] (tcsmetrics.TaskMetrics message)) as [|t ts].
  - by split.
  - split; [done|]. intros _. cbn [tcsmetrics.metricsLoop]. by rewrite Hp.
Qed.

Lemma metricsToPublishMetricRequests_returns
  (message : tcsmetrics.TelemetryMessage) (metadata : MetricsMetadata.t)
  (requests : list PublishMetricsRequest) :
  tcsmetrics.Metadata message = Some metadata →
  MetricsMetadata.Idle metadata = Some false →
  tcsmetrics.metricsToPublishMetricRequests NewPublishMetricsRequest
    exceedsSizeLimit message = Returns (requests, None) →
  ∃ (parts : list (option InstanceMetrics * MetricsMetadata.t
                   * list TaskMetric))
    (pieces : list (list TaskMetric)),
    requests = build <$> parts
    ∧ concat (snd <$> parts) = concat pieces
    ∧ Forall2 splitsInto (default [] (tcsmetrics.TaskMetrics message)) pieces
    ∧ (∀ j p, parts !! j = Some p →
         p.1.1 = (if (j =? 0)%nat
                  then tcsmetrics.InstanceMetricsOf message else None)
         ∧ (length p.2 ≤ 10)%nat
         ∧ tcsmetrics.copyMetricsMetadata metadata
             (bool_decide (S j = length parts)) = Returns p.1.2)
    ∧ ((∀ request, exceedsSizeLimit request = false) →
       concat (snd <$> parts) = default [] (tcsmetrics.TaskMetrics message)
       ∧ (∀ j p, parts !! j = Some p →
            (0 < length p.2)%nat
            ∧ ((S j < length parts)%nat → length p.2 = 10%nat))).
Proof.
  intros Hm Hidle Hres.
  destruct (tcsmetrics.copyMetricsMetadata metadata false) as [mdF|] eqn:HF.
  - destruct (copyMetricsMetadata_both metadata false true mdF HF)
      as [mdT HT].
    destruct (metricsToPublishMetricRequests_spec message metadata mdF mdT
                Hm Hidle HF HT)
      as (parts & pieces & Heq & Hcat & Hsplit & Hidx & _ & Hno).
    rewrite Heq in Hres. injection Hres as <-.
    exists parts, pieces.
    split; [done|]. split; [done|]. split; [done|]. split; [|exact Hno].
    intros j p Hp. destruct (Hidx j p Hp) as (Hi1 & Hi2 & Hi3).
    split; [done|]. split; [done|]. rewrite Hi3.
    by destruct (bool_decide _).
  - destruct (metricsToPublishMetricRequests_panics message metadata
                Hm Hidle HF) as [Hempty Hpanic].
    destruct (default [] (tcsmetrics.TaskMetrics message)) as [|t ts] eqn:Ht.
    + rewrite Hempty in Hres by done. injection Hres as <-.
      exists [], []. split; [done|]. split; [done|].
      split; [constructor|]. by split.
    + rewrite Hpanic in Hres by done. done.
Qed.


(** X18: the shape of the requests for an instance that is not idle. When
    [metricsToPublishMetricRequests] returns requests, the instance metrics
    are in the first request and in no other, every request has at most 10
    task metrics, and every request has a copy of the metadata that is
    marked final on the last request and on no other. *)
Theorem metricsToPublishMetricRequests_shape
  (message : tcsmetrics.TelemetryMessage) (metadata : MetricsMetadata.t)
  (requests : list PublishMetricsRequest) :
  tcsmetrics.Metadata message = Some metadata →
  MetricsMetadata.Idle metadata = Some false →
  tcsmetrics.metricsToPublishMetricRequests NewPublishMetricsRequest
    exceedsSizeLimit message = Returns (requests, None) →
  ∃ parts : list (option InstanceMetrics * MetricsMetadata.t
                  * list TaskMetric),
    requests = build <$> parts
    ∧ (∀ j p, parts !! j = Some p →
         p.1.1 = (if (j =? 0)%nat
                  then tcsmetrics.InstanceMetricsOf message else None)
         ∧ (length p.2 ≤ 10)%nat
         ∧ tcsmetrics.copyMetricsMetadata metadata
             (bool_decide (S j = length parts)) = Returns p.1.2).
Proof.
  intros Hm Hidle Hres.
  destruct (metricsToPublishMetricRequests_returns message metadata requests
              Hm Hidle Hres) as (parts & pieces & Heq & _ & _ & Hidx & _).
  by exists parts.
Qed.

(** X19: no metric is lost or sent twice. When
    [metricsToPublishMetricRequests] returns requests for an instance that is
    not idle, the task metrics of the requests, in order, are the pieces of
    the task metrics of the message, in order: every task metric is sent as
    one or more pieces that have its remaining fields and whose service
    connect metrics, and container metrics, put together are its own. *)
Theorem metricsToPublishMetricRequests_nothing_lost
  (message : tcsmetrics.TelemetryMessage) (metadata : MetricsMetadata.t)
  (requests : list PublishMetricsRequest) :
  tcsmetrics.Metadata message = Some metadata →
  MetricsMetadata.Idle metadata = Some false →
  tcsmetrics.metricsToPublishMetricRequests NewPublishMetricsRequest
    exceedsSizeLimit message = Returns (requests, None) →
  ∃ (parts : list (option InstanceMetrics * MetricsMetadata.t
                   * list TaskMetric))
    (pieces : list (list TaskMetric)),
    requests = build <$> parts
    ∧ concat (snd <$> parts) = concat pieces
    ∧ Forall2 splitsInto (default [] (tcsmetrics.TaskMetrics message)) pieces.
Proof.
  intros Hm Hidle Hres.
  destruct (metricsToPublishMetricRequests_returns message metadata requests
              Hm Hidle Hres) as (parts & pieces & Heq & Hcat & Hsplit & _).
  by exists parts, pieces.
Qed.

(** X20: when no message exceeds the size limit, the requests of an instance
    that is not idle page the task metrics: the task metrics of the requests,
    in order, are the task metrics of the message, unchanged; every request
    has between 1 and 10 task metrics, and every request but the last has
    exactly 10. *)
Theorem metricsToPublishMetricRequests_paging
  (message : tcsmetrics.TelemetryMessage) (metadata : MetricsMetadata.t)
  (requests : list PublishMetricsRequest) :
  (∀ request, exceedsSizeLimit request = false) →
  tcsmetrics.Metadata message = Some metadata →
  MetricsMetadata.Idle metadata = Some false →
  tcsmetrics.metricsToPublishMetricRequests NewPublishMetricsRequest
    exceedsSizeLimit message = Returns (requests, None) →
  ∃ parts : list (option InstanceMetrics * MetricsMetadata.t
                  * list TaskMetric),
    requests = build <$> parts
    ∧ concat (snd <$> parts) = default [] (tcsmetrics.TaskMetrics message)
    ∧ (∀ j p, parts !! j = Some p →
         (0 < length p.2 ≤ 10)%nat
         ∧ ((S j < length parts)%nat → length p.2 = 10%nat)).
Proof.
  intros Hall Hm Hidle Hres.
  destruct (metricsToPublishMetricRequests_returns message metadata requests
              Hm Hidle Hres) as (parts & pieces & Heq & _ & _ & Hidx & Hno).
  destruct (Hno Hall) as [Hcat Hpages].
  exists parts. split; [done|]. split; [done|].
  intros j p Hp. destruct (Hidx j p Hp) as (_ & Hle & _).
  destruct (Hpages j p Hp) as [Hpos Hten]. split; [lia|done].
Qed.

End metrics_facts.

Lemma metricsToPublishMetricRequests_shape_witness :
  ∃ requests parts,
    tcsmetrics.metricsToPublishMetricRequests reference.newMetricsRequest
      reference.exceedsSizeLimit reference.telemetryMessage
    = Returns (requests, None)
    ∧ length requests = 3%nat
    ∧ requests
      = (λ p, reference.newMetricsRequest p.1.1 p.1.2 (Some p.2)) <$> parts
    ∧ (∀ j p, parts !! j = Some p →
         p.1.1 = (if (j =? 0)%nat then Some 7%nat else None)).
Proof.
  assert (∃ requests,
            tcsmetrics.metricsToPublishMetricRequests
              reference.newMetricsRequest reference.exceedsSizeLimit
              reference.telemetryMessage = Returns (requests, None)
            ∧ length requests = 3%nat) as (requests & Hres & Hlen).
  { eexists. split; vm_compute; reflexivity. }
  destruct (metricsToPublishMetricRequests_shape reference.newMetricsRequest
              reference.exceedsSizeLimit reference.telemetryMessage
              reference.telemetryMetadata requests eq_refl eq_refl Hres)
    as (parts & Heq & Hshape).
  exists requests, parts. split; [exact Hres|]. split; [exact Hlen|].
  split; [exact Heq|]. intros j p Hp. exact (proj1 (Hshape j p Hp)).
Defined.

Lemma metricsToPublishMetricRequests_nothing_lost_witness :
  ∃ requests parts pieces,
    tcsmetrics.metricsToPublishMetricRequests reference.newMetricsRequest
      reference.exceedsSizeLimit reference.telemetryMessage
    = Returns (requests, None)
    ∧ requests
      = (λ p, reference.newMetricsRequest p.1.1 p.1.2 (Some p.2)) <$> parts
    ∧ concat (snd <$> parts) = concat pieces
    ∧ length pieces = 2%nat.
Proof.
  assert (∃ requests,
            tcsmetrics.metricsToPublishMetricRequests
              reference.newMetricsRequest reference.exceedsSizeLimit
              reference.telemetryMessage = Returns (requests, None))
    as (requests & Hres).
  { eexists. vm_compute. reflexivity. }
  destruct (metricsToPublishMetricRequests_nothing_lost
              reference.newMetricsRequest reference.exceedsSizeLimit
              reference.telemetryMessage reference.telemetryMetadata requests
              eq_refl eq_refl Hres)
    as (parts & pieces & Heq & Hcat & Hsplit).
  exists requests, parts, pieces. split; [exact Hres|]. split; [exact Heq|].
  split; [exact Hcat|]. apply Forall2_length in Hsplit. by rewrite <- Hsplit.
Defined.

Lemma metricsToPublishMetricRequests_paging_witness :
  ∃ requests parts,
    tcsmetrics.metricsToPublishMetricRequests reference.newMetricsRequest
      (λ _, false) reference.telemetryMessage
    = Returns (requests, None)
    ∧ requests
      = (λ p, reference.newMetricsRequest p.1.1 p.1.2 (Some p.2)) <$> parts
    ∧ concat (snd <$> parts)
      = default [] (tcsmetrics.TaskMetrics reference.telemetryMessage).
Proof.
  assert (∃ requests,
            tcsmetrics.metricsToPublishMetricRequests
              reference.newMetricsRequest (λ _, false)
              reference.telemetryMessage = Returns (requests, None))
    as (requests & Hres).
  { eexists. vm_compute. reflexivity. }
  destruct (metricsToPublishMetricRequests_paging
              reference.newMetricsRequest (λ _, false)
              reference.telemetryMessage reference.telemetryMetadata requests
              (λ _, eq_refl) eq_refl eq_refl Hres)
    as (parts & Heq & Hcat & _).
  exists requests, parts. split; [exact Hres|]. split; [exact Heq|exact Hcat].
Defined.

(** ** Publishing the requests *)

Section publish_facts.
Context {Connection Request : Type}.
Context (MakeRequest : Connection → Request → Connection * option error).

Lemma makeRequests_trace (requests : list Request) :
  ∀ conn : Connection,
  ∃ sent rest : list Request,
    requests = sent ++ rest
    ∧ (tcsmetrics.makeRequests MakeRequest conn requests).1
      = foldl (λ c r, (MakeRequest c r).1) conn sent
    ∧ (∀ before r after, sent = before ++ r :: after →
         (MakeRequest (foldl (λ c r, (MakeRequest c r).1) conn before) r).2
         = match after with
           | [] => (tcsmetrics.makeRequests MakeRequest conn requests).2
           | _ => None
           end)
    ∧ ((tcsmetrics.makeRequests MakeRequest conn requests).2 = None →
       rest = [])
    ∧ (is_Some (tcsmetrics.makeRequests MakeRequest conn requests).2 →
       sent ≠ []).
Proof.
  induction requests as [|request requests IH]; intros conn.
  { exists [], []. simpl. split; [done|]. split; [done|].
    split; [by intros [|r0 before] r after ?|]. split; [done|]. by intros [? ?]. }
  simpl. destruct (MakeRequest conn request) as [conn' [err|]] eqn:Hmake.
  - exists [request], requests. simpl. split; [done|].
    split; [by rewrite Hmake|]. split.
    { intros [|r0 before] r after Heq; simplify_eq/=.
      - by rewrite Hmake.
      - by destruct before. }
    split; [done|]. done.
  - destruct (IH conn') as (sent & rest & -> & Hconn & Htrace & Hnone & Hsome).
    exists (request :: sent), rest. split; [done|].
    split; [simpl; by rewrite Hmake|]. split.
    { intros [|r0 before] r after Heq; simplify_eq/=.
      - rewrite Hmake. simpl. destruct after as [|r' after]; [|done].
        symmetry. apply eq_None_not_Some. intros Hs. by apply Hsome.
      - rewrite Hmake. simpl. by apply Htrace. }
    split; [done|]. done.
Qed.

End publish_facts.

Lemma healthToPublishHealthRequests_no_error
  {TaskHealth PublishHealthRequest : Type}
  (NewPublishHealthMetricsRequest :
     HealthMetadata.t → list TaskHealth → PublishHealthRequest)
  (health : tcshealth.HealthMessage) :
  (tcshealth.healthToPublishHealthRequests NewPublishHealthMetricsRequest
     health).2 = None.
Proof.
  unfold tcshealth.healthToPublishHealthRequests.
  destruct (tcshealth.Metadata health); [|done].
  destruct (tcshealth.HealthMetrics health); [|done].
  destruct (tcshealth.healthLoop _ _ _ _ _ _ _) as [requests taskHealths].
  by destruct (negb _).
Qed.

(** X21: [publishHealthOnce] makes the health requests in their order and
    stops at the first request that fails. The requests that are made are a
    prefix of the requests of the message; the connection is the one left by
    making them in order; every request made but the last succeeds, and the
    result of the last is the result of the call; when the call succeeds,
    every request has been made. *)
Theorem publishHealthOnce_in_order
  {Connection TaskHealth PublishHealthRequest : Type}
  (NewPublishHealthMetricsRequest :
     HealthMetadata.t → list TaskHealth → PublishHealthRequest)
  (MakeRequest : Connection → PublishHealthRequest → Connection * option error)
  (conn : Connection) (health : tcshealth.HealthMessage) :
  ∃ sent rest : list PublishHealthRequest,
    (tcshealth.healthToPublishHealthRequests NewPublishHealthMetricsRequest
       health).1 = sent ++ rest
    ∧ (publishHealthOnce NewPublishHealthMetricsRequest MakeRequest conn
         health).1
      = foldl (λ c r, (MakeRequest c r).1) conn sent
    ∧ (∀ before r after, sent = before ++ r :: after →
         (MakeRequest (foldl (λ c r, (MakeRequest c r).1) conn before) r).2
         = match after with
           | [] => (publishHealthOnce NewPublishHealthMetricsRequest
                      MakeRequest conn health).2
           | _ => None
           end)
    ∧ ((publishHealthOnce NewPublishHealthMetricsRequest MakeRequest conn
          health).2 = None → rest = []).
Proof.
  unfold publishHealthOnce.
  pose proof (healthToPublishHealthRequests_no_error
                NewPublishHealthMetricsRequest health) as Herr.
  destruct (tcshealth.healthToPublishHealthRequests _ _)
    as [requests err]. simpl in Herr. subst err. simpl.
  destruct (makeRequests_trace MakeRequest requests conn)
    as (sent & rest & Heq & Hconn & Htrace & Hnone & _).
  by exists sent, rest.
Qed.

(** X22: [publishMetricsOnce] makes no request for a message without
    metadata and returns the error of the conversion, leaving the connection
    as it is; for an idle instance it makes the one request of the message
    and returns its result; and when the conversion returns requests, it
    makes them in their order and stops at the first that fails. *)
Theorem publishMetricsOnce_in_order
  {Connection InstanceMetrics ContainerMetric GeneralMetricsWrapper
   TaskMetricOther PublishMetricsRequest : Type}
  (NewPublishMetricsRequest :
     option InstanceMetrics → MetricsMetadata.t →
     option (list (@tcsmetrics.TaskMetric ContainerMetric
                     GeneralMetricsWrapper TaskMetricOther)) →
     PublishMetricsRequest)
  (exceedsSizeLimit : PublishMetricsRequest → bool)
  (MakeRequest : Connection → PublishMetricsRequest → Connection * option error)
  (conn : Connection) (message : tcsmetrics.TelemetryMessage) :
  (tcsmetrics.Metadata message = None →
   tcsmetrics.publishMetricsOnce NewPublishMetricsRequest exceedsSizeLimit
     MakeRequest conn message
   = Returns (conn, Some (errorString "nil metrics metadata")))
  ∧ (∀ metadata,
       tcsmetrics.Metadata message = Some metadata →
       MetricsMetadata.Idle metadata = Some true →
       tcsmetrics.publishMetricsOnce NewPublishMetricsRequest exceedsSizeLimit
         MakeRequest conn message
       = Returns (MakeRequest conn
                    (NewPublishMetricsRequest
                       (tcsmetrics.InstanceMetricsOf message)
                       (MetricsMetadata.setFin true metadata)
                       (tcsmetrics.TaskMetrics message))))
  ∧ (∀ requests,
       tcsmetrics.metricsToPublishMetricRequests NewPublishMetricsRequest
         exceedsSizeLimit message = Returns (requests, None) →
       ∃ (sent rest : list PublishMetricsRequest) (conn' : Connection)
         (err : option error),
         tcsmetrics.publishMetricsOnce NewPublishMetricsRequest
           exceedsSizeLimit MakeRequest conn message
         = Returns (conn', err)
         ∧ requests = sent ++ rest
         ∧ conn' = foldl (λ c r, (MakeRequest c r).1) conn sent
         ∧ (∀ before r after, sent = before ++ r :: after →
              (MakeRequest (foldl (λ c r, (MakeRequest c r).1) conn before)
                 r).2
              = match after with
                | [] => err
                | _ => None
                end)
         ∧ (err = None → rest = [])).
Proof.
  unfold tcsmetrics.publishMetricsOnce. split; [|split].
  - intros Hm. unfold tcsmetrics.metricsToPublishMetricRequests.
    by rewrite Hm.
  - intros metadata Hm Hidle.
    unfold tcsmetrics.metricsToPublishMetricRequests. rewrite Hm, Hidle.
    simpl. by destruct (MakeRequest conn _) as [conn' [err|]].
  - intros requests ->.
    destruct (makeRequests_trace MakeRequest requests conn)
      as (sent & rest & Heq & Hconn & Htrace & Hnone & _).
    destruct (tcsmetrics.makeRequests MakeRequest conn requests)
      as [conn' err] eqn:Hmake.
    exists sent, rest, conn', err. by repeat split.
Qed.

(** ** Events of the constructors are submitted *)

Section submitted_facts.
Context `{StatusMethods} `{TaskMethods} `{AgentDeclarations}.

Lemma NewContainerStateChangeEvent_event (task : apitask.Task)
  (cont : apicontainer.Container) (reason : string) :
  (api.NewContainerStateChangeEvent task cont reason).2 = None →
  ContainerStateChange.Status
    (api.NewContainerStateChangeEvent task cont reason).1
  = api.containerStatusChangeStatus (apicontainer.GetKnownStatus cont)
      (apicontainer.GetSteadyStateStatus cont)
  ∧ ContainerStateChange.ContainerName
      (api.NewContainerStateChangeEvent task cont reason).1
    = apicontainer.Name cont
  ∧ ContainerStateChange.Container
      (api.NewContainerStateChangeEvent task cont reason).1 = Some cont
  ∧ (apicontainer.GetKnownStatus cont = ContainerManifestPulled
     ∨ ContainerStatus_ShouldReportToBackend
         (apicontainer.GetKnownStatus cont)
         (apicontainer.GetSteadyStateStatus cont) = true).
Proof.
  intros Herr.
  destruct (NewContainerStateChangeEvent_cases task cont reason)
    as [Hiff _].
  destruct (proj1 Hiff Herr) as (Hint & Hp & Hrep & _).
  destruct (newUnchecked_ok task cont reason Hint Hp)
    as (event & Hev & Hstat & _ & Hname & Hcont).
  unfold api.NewContainerStateChangeEvent in *. rewrite Hev in *.
  destruct (_ && _); [done|]. destruct (_ && _); [done|].
  destruct (apicontainerstatus.geb _ _); [done|].
  destruct (apicontainer.ApplyingError cont);
    [destruct (String.eqb reason "")|]; simpl; by repeat split.
Qed.

Lemma containerPayloads_no_panic (events : list ContainerStateChange.t) :
  Forall (λ ev, ∃ r, api.buildContainerStateChangePayload ev = Returns r
                     ∧ r ≠ (None, None)) events →
  ∃ r, api.containerPayloads events = Returns r.
Proof.
  induction 1 as [|ev events (r & Hr & Hne) _ [rest IH]]; simpl.
  { by eexists. }
  rewrite Hr. destruct r as [[pl|] [err|]].
  - by eexists.
  - rewrite IH. destruct rest as [[?|] [?|]]; by eexists.
  - by eexists.
  - done.
Qed.

End submitted_facts.

(** X23: the events of [NewContainerStateChangeEvent] are submitted. Let a
    container status be reported to the backend only when it is the steady
    state status or STOPPED. Then an event that [NewContainerStateChangeEvent]
    creates has one of the statuses MANIFEST_PULLED, RUNNING and STOPPED, and
    [buildContainerStateChangePayload] returns for it, for a container with a
    name, a payload or an error, never neither of them. Hence
    [TaskStateChange.ToECSAgent] does not panic on a task change whose
    container changes are such events and whose managed agent changes have
    containers. *)
Theorem constructor_events_are_submitted
  `{StatusMethods} `{TaskMethods} `{AgentDeclarations} :
  (∀ cs steadyStateStatus,
     ContainerStatus_ShouldReportToBackend cs steadyStateStatus = true →
     cs = steadyStateStatus ∨ cs = ContainerStopped) →
  (∀ task cont reason,
     (api.NewContainerStateChangeEvent task cont reason).2 = None →
     api.supportedUpstream
       (ContainerStateChange.Status
          (api.NewContainerStateChangeEvent task cont reason).1)
     ∧ (apicontainer.Name cont ≠ "" →
        ∃ r, api.buildContainerStateChangePayload
               (api.NewContainerStateChangeEvent task cont reason).1
             = Returns r
             ∧ r ≠ (None, None)))
  ∧ (∀ c : api.TaskStateChangeAll,
       Forall (λ ev, ∃ task cont reason,
                 ev = (api.NewContainerStateChangeEvent task cont reason).1
                 ∧ (api.NewContainerStateChangeEvent task cont reason).2
                   = None
                 ∧ apicontainer.Name cont ≠ "")
         (TaskStateChange.Containers (api.change c)) →
       Forall (λ m, is_Some (ManagedAgentStateChange.Container m))
         (api.ManagedAgents c) →
       ∃ r, api.TaskStateChange_ToECSAgent c = Returns r).
Proof.
  intros Hreport.
  assert (∀ task cont reason,
            (api.NewContainerStateChangeEvent task cont reason).2 = None →
            api.supportedUpstream
              (ContainerStateChange.Status
                 (api.NewContainerStateChangeEvent task cont reason).1)
            ∧ (apicontainer.Name cont ≠ "" →
               ∃ r, api.buildContainerStateChangePayload
                      (api.NewContainerStateChangeEvent task cont reason).1
                    = Returns r
                    ∧ r ≠ (None, None))) as Hevent.
  { intros task cont reason Herr.
    destruct (NewContainerStateChangeEvent_event task cont reason Herr)
      as (Hstat & Hname & Hcont & Hrep).
    assert (api.supportedUpstream
              (ContainerStateChange.Status
                 (api.NewContainerStateChangeEvent task cont reason).1))
      as Hsup.
    { rewrite Hstat. unfold api.containerStatusChangeStatus,
        api.supportedUpstream.
      destruct (decide (_ = _)) as [?|Hne]; [by auto|].
      destruct (decide (_ = ContainerManifestPulled)) as [?|Hmp]; [by auto|].
      destruct (decide (_ = ContainerStopped)) as [?|Hst]; [by auto|].
      destruct Hrep as [?|Hrep]; [done|].
      by destruct (Hreport _ _ Hrep). }
    split; [done|]. intros Hnonempty.
    unfold api.buildContainerStateChangePayload.
    rewrite Hname. apply String.eqb_neq in Hnonempty. rewrite Hnonempty.
    rewrite supportedUpstream_guard.
    rewrite (bool_decide_eq_false_2 (¬ _)) by tauto.
    unfold api.getNetworkBindings. rewrite Hcont.
    destruct (_ && _); by eexists. }
  split; [done|]. intros c Hevents Hagents.
  destruct (managedAgentPayloads_returns _ Hagents) as (agents & Ha & _).
  destruct (containerPayloads_no_panic
              (TaskStateChange.Containers (api.change c))) as [r Hr].
  { eapply Forall_impl; [exact Hevents|].
    intros ev (task & cont & reason & -> & Herr & Hname).
    by apply Hevent. }
  unfold api.TaskStateChange_ToECSAgent. rewrite Ha, Hr.
  destruct r as [[?|] [?|]]; by eexists.
Qed.

Lemma constructor_events_are_submitted_witness :
  api.supportedUpstream
    (ContainerStateChange.Status
       (api.NewContainerStateChangeEvent
          (reference.CreateTestTask "test-arn" "EC2" 512
             [reference.stoppedContainer])
          reference.stoppedContainer "").1).
Proof.
  refine (proj1 (proj1 (constructor_events_are_submitted _) _ _ _ _)).
  - intros cs steady Hr. simpl in Hr.
    apply orb_true_iff in Hr as [Hr|Hr]; apply bool_decide_eq_true in Hr;
      by auto.
  - vm_compute. reflexivity.
Defined.

(** ** A further property of [utils.go] *)

(** X24: [MaxNum] at an integer type is the maximum: it is one of its
    arguments and not below either, so it is the least upper bound of the
    two; it is commutative, associative and idempotent. *)
Theorem MaxNum_is_maximum (a b c : Z) :
  (utils.MaxNum a b = a ∨ utils.MaxNum a b = b)
  ∧ (a ≤ utils.MaxNum a b)%Z ∧ (b ≤ utils.MaxNum a b)%Z
  ∧ ((a ≤ c)%Z → (b ≤ c)%Z → (utils.MaxNum a b ≤ c)%Z)
  ∧ utils.MaxNum a b = utils.MaxNum b a
  ∧ utils.MaxNum (utils.MaxNum a b) c = utils.MaxNum a (utils.MaxNum b c)
  ∧ utils.MaxNum a a = a.
Proof.
  assert (∀ x y, utils.MaxNum x y = Z.max x y) as Hmax.
  { intros x y. unfold utils.MaxNum. destruct (Z.ltb_spec y x); lia. }
  rewrite !Hmax. lia.
Qed.

(** ** The metadata of the requests and the validators of the tests *)

(** X25: the copies of the metadata that the requests carry are as valid as
    the metadata of the message. [validateHealthMetricsMetadata] gives the
    same result on a copy made by [copyHealthMetadata] as on the original; a
    copy made by [copyMetricsMetadata] never makes [validateMetricsMetadata]
    panic, and gets the result of the original. *)
Theorem metadata_copies_validate_alike :
  (∀ metadata fin,
     stats.validateHealthMetricsMetadata
       (Some (tcshealth.copyHealthMetadata metadata fin))
     = stats.validateHealthMetricsMetadata (Some metadata))
  ∧ (∀ metadata fin requestMetadata,
       tcsmetrics.copyMetricsMetadata metadata fin = Returns requestMetadata →
       stats.validateMetricsMetadata (Some requestMetadata)
       = stats.validateMetricsMetadata (Some metadata)
       ∧ stats.validateMetricsMetadata (Some requestMetadata) ≠ Panics).
Proof.
  split.
  - intros metadata fin. unfold stats.validateHealthMetricsMetadata,
      tcshealth.copyHealthMetadata, aws_String, aws_ToString. simpl.
    done.
  - intros metadata fin requestMetadata.
    unfold tcsmetrics.copyMetricsMetadata, stats.validateMetricsMetadata.
    destruct (MetricsMetadata.Cluster metadata) as [cluster|]; [|done].
    destruct (MetricsMetadata.ContainerInstance metadata) as [ci|]; [|done].
    destruct (MetricsMetadata.Idle metadata) as [idle|]; [|done].
    destruct (MetricsMetadata.MessageId metadata) as [messageId|]; [|done].
    intros [= <-]. simpl. split; [done|].
    destruct (negb _); [done|]. destruct (negb _); [done|].
    by destruct (_ =? _)%nat.
Qed.

(** ** Properties of [tcs/client/client.go]: instance status *)

Section instancestatus_facts.
Context {Doctor Healthcheck Time Connection : Type}.
Context (GetCluster GetContainerInstanceArn : Doctor → string).
Context (GetHealthchecks : Doctor → option (list Healthcheck)).
Context (HasStatusBeenReported : Doctor → bool).
Context (SetStatusReported : bool → Doctor → Doctor).
Context (GetStatusChangeTime GetLastHealthcheckTime : Healthcheck → Time).
Context (GetHealthcheckStatus_String GetHealthcheckType : Healthcheck → string).
Context (EmptyHealthcheckError : error).

Local Abbreviation statusOf :=
  (instancestatus.instanceStatusOf GetStatusChangeTime GetLastHealthcheckTime
     GetHealthcheckStatus_String GetHealthcheckType).

Lemma appended_statuses (healthchecks : list Healthcheck)
  (instanceStatuses : option (list instancestatus.InstanceStatus)) :
  foldl (λ instanceStatuses healthcheck,
           sliceAppend instanceStatuses (statusOf healthcheck))
    instanceStatuses healthchecks
  = match healthchecks with
    | [] => instanceStatuses
    | _ => Some (default [] instanceStatuses ++ (statusOf <$> healthchecks))
    end.
Proof.
  revert instanceStatuses.
  induction healthchecks as [|healthcheck healthchecks IH];
    intros instanceStatuses; [done|].
  simpl. rewrite IH. unfold sliceAppend. simpl.
  destruct healthchecks; [done|]. by rewrite <- app_assoc.
Qed.

Lemma getInstanceStatuses_some (doctor : Doctor)
  (healthchecks : list Healthcheck) :
  GetHealthchecks doctor = Some healthchecks →
  instancestatus.getInstanceStatuses GetHealthchecks GetStatusChangeTime
    GetLastHealthcheckTime GetHealthcheckStatus_String GetHealthcheckType
    doctor
  = Returns (match healthchecks with
             | [] => None
             | _ => Some (statusOf <$> healthchecks)
             end).
Proof.
  intros Hh. unfold instancestatus.getInstanceStatuses. rewrite Hh.
  rewrite appended_statuses. by destruct healthchecks.
Qed.

End instancestatus_facts.

(** X26: [publishInstanceStatusOnce] marks the status as reported only after
    a request has succeeded. Without a health check it makes no request and
    returns [EmptyHealthcheckError], the doctor unchanged; with health checks
    it makes one request, which carries the cluster and the container
    instance of the doctor and one status for each health check, in order;
    the doctor is marked exactly when that request succeeds. On a tick, no
    request is made once the status has been reported. *)
Theorem publishInstanceStatusOnce_reports_after_success
  {Doctor Healthcheck Time Connection : Type}
  (GetCluster GetContainerInstanceArn : Doctor → string)
  (GetHealthchecks : Doctor → option (list Healthcheck))
  (HasStatusBeenReported : Doctor → bool)
  (SetStatusReported : bool → Doctor → Doctor)
  (GetStatusChangeTime GetLastHealthcheckTime : Healthcheck → Time)
  (GetHealthcheckStatus_String GetHealthcheckType : Healthcheck → string)
  (EmptyHealthcheckError : error)
  (MakeRequest : Connection →
                 option (@instancestatus.PublishInstanceStatusRequest Time) →
                 Connection * option error)
  (conn : Connection) (doctor : Doctor) (requestId : string) (now : Time) :
  (GetHealthchecks doctor = Some [] →
   instancestatus.publishInstanceStatusOnce GetCluster GetContainerInstanceArn
     GetHealthchecks SetStatusReported GetStatusChangeTime
     GetLastHealthcheckTime GetHealthcheckStatus_String GetHealthcheckType
     EmptyHealthcheckError MakeRequest conn doctor requestId now
   = Returns (conn, doctor, Some EmptyHealthcheckError))
  ∧ (∀ healthchecks,
       GetHealthchecks doctor = Some healthchecks → healthchecks ≠ [] →
       ∃ request,
         instancestatus.Statuses request
         = instancestatus.instanceStatusOf GetStatusChangeTime
             GetLastHealthcheckTime GetHealthcheckStatus_String
             GetHealthcheckType <$> healthchecks
         ∧ instancestatus.Cluster (instancestatus.Metadata request)
           = Some (GetCluster doctor)
         ∧ instancestatus.ContainerInstance (instancestatus.Metadata request)
           = Some (GetContainerInstanceArn doctor)
         ∧ instancestatus.publishInstanceStatusOnce GetCluster
             GetContainerInstanceArn GetHealthchecks SetStatusReported
             GetStatusChangeTime GetLastHealthcheckTime
             GetHealthcheckStatus_String GetHealthcheckType
             EmptyHealthcheckError MakeRequest conn doctor requestId now
           = Returns
               ((MakeRequest conn (Some request)).1,
                match (MakeRequest conn (Some request)).2 with
                | None => SetStatusReported true doctor
                | Some _ => doctor
                end,
                (MakeRequest conn (Some request)).2))
  ∧ (instancestatus.publishInstanceStatusOnce GetCluster
       GetContainerInstanceArn GetHealthchecks SetStatusReported
       GetStatusChangeTime GetLastHealthcheckTime
       GetHealthcheckStatus_String GetHealthcheckType
       EmptyHealthcheckError MakeRequest conn doctor requestId now = Panics
     ↔ GetHealthchecks doctor = None)
  ∧ (HasStatusBeenReported doctor = true →
     instancestatus.publishInstanceStatusTick GetCluster
       GetContainerInstanceArn GetHealthchecks HasStatusBeenReported
       SetStatusReported GetStatusChangeTime GetLastHealthcheckTime
       GetHealthcheckStatus_String GetHealthcheckType
       EmptyHealthcheckError MakeRequest conn doctor requestId now
     = Returns (conn, doctor)).
Proof.
  unfold instancestatus.publishInstanceStatusTick,
    instancestatus.publishInstanceStatusOnce,
    instancestatus.getPublishInstanceStatusRequest.
  split; [|split; [|split]].
  - intros Hh. by rewrite (getInstanceStatuses_some _ _ _ _ _ doctor [] Hh).
  - intros healthchecks Hh Hne.
    rewrite (getInstanceStatuses_some _ _ _ _ _ doctor healthchecks Hh).
    destruct healthchecks as [|healthcheck healthchecks]; [done|].
    exists {| instancestatus.Metadata :=
                {| instancestatus.Cluster := aws_String (GetCluster doctor);
                   instancestatus.ContainerInstance :=
                     aws_String (GetContainerInstanceArn doctor);
                   instancestatus.RequestId := aws_String requestId |};
              instancestatus.Statuses :=
                instancestatus.instanceStatusOf GetStatusChangeTime
                  GetLastHealthcheckTime GetHealthcheckStatus_String
                  GetHealthcheckType <$> healthcheck :: healthchecks;
              instancestatus.Timestamp := Some now |}.
    split; [done|]. split; [done|]. split; [done|].
    by destruct (MakeRequest conn _) as [conn' [err|]].
  - destruct (GetHealthchecks doctor) as [healthchecks|] eqn:Hh.
    + rewrite (getInstanceStatuses_some _ _ _ _ _ doctor healthchecks Hh).
      split; [|done].
      destruct healthchecks; [done|].
      by destruct (MakeRequest conn _) as [conn' [err|]].
    + unfold instancestatus.getInstanceStatuses. by rewrite Hh.
  - by intros ->.
Qed.

(** ** The log fields of a task state change *)

Section fields_facts.
Context `{StatusMethods} `{AgentDeclarations}.
Context (PortBindings_String : list apicontainer.PortBinding → string).
Context (Time_RFC3339 : option Z → string).
Context (ENIAttachment_String : ENIAttachment → string).

Local Abbreviation containerKey :=
  (λ i : nat, "containerChange-" +:+ utils.Itoa (Z.of_nat i)).
Local Abbreviation managedAgentKey :=
  (λ i : nat, "managedAgentChange-" +:+ utils.Itoa (Z.of_nat i)).

Lemma append_inj_r (p s1 s2 : string) : p +:+ s1 = p +:+ s2 → s1 = s2.
Proof. induction p as [|a p IH]; simpl; [done|]. intros [= Heq]. auto. Qed.

Lemma indexed_key_inj (p : string) (i j : nat) :
  p +:+ utils.Itoa (Z.of_nat i) = p +:+ utils.Itoa (Z.of_nat j) → i = j.
Proof. intros Heq%append_inj_r%Itoa_inj. lia. Qed.

Lemma containerChangeFields_spec (containers : list ContainerStateChange.t) :
  ∀ (fields : gmap string FieldValue) (i : nat),
    (∀ j, (i ≤ j)%nat → fields !! containerKey j = None) →
    size (apifmt.containerChangeFields PortBindings_String fields i
            containers)
    = (size fields + length containers)%nat
    ∧ (∀ j containerChange, containers !! j = Some containerChange →
         apifmt.containerChangeFields PortBindings_String fields i containers
         !! containerKey (i + j)%nat
         = Some (FieldString
                   (apifmt.ContainerStateChange_String PortBindings_String
                      containerChange)))
    ∧ (∀ k, (∀ j, (i ≤ j)%nat → k ≠ containerKey j) →
         apifmt.containerChangeFields PortBindings_String fields i containers
         !! k = fields !! k).
Proof.
  induction containers as [|containerChange rest IH]; intros fields i Hfresh.
  { simpl. split; [lia|]. by split. }
  cbn [apifmt.containerChangeFields].
  destruct (IH (<[containerKey i :=
                    FieldString
                      (apifmt.ContainerStateChange_String PortBindings_String
                         containerChange)]> fields) (i + 1)%nat)
    as (Hsize & Hlookup & Hother).
  { intros j Hj. rewrite lookup_insert_ne; [apply Hfresh; lia|].
    intros Heq%indexed_key_inj. lia. }
  split; [|split].
  - rewrite Hsize, map_size_insert_None by (apply Hfresh; lia). simpl. lia.
  - intros [|j] cc Hcc; simpl in Hcc.
    + injection Hcc as <-. rewrite Nat.add_0_r. rewrite Hother.
      * by rewrite lookup_insert_eq.
      * intros j Hj Heq%indexed_key_inj. lia.
    + replace (i + S j)%nat with (i + 1 + j)%nat by lia. by apply Hlookup.
  - intros k Hk. rewrite Hother.
    + rewrite lookup_insert_ne; [done|]. intros Heq. by apply (Hk i).
    + intros j Hj. apply Hk. lia.
Qed.

Lemma managedAgentChangeFields_spec
  (managedAgents : list ManagedAgentStateChange.t) :
  Forall (λ m, is_Some (ManagedAgentStateChange.Container m))
    managedAgents →
  ∀ (fields : gmap string FieldValue) (i : nat),
    (∀ j, (i ≤ j)%nat → fields !! managedAgentKey j = None) →
    ∃ result,
      apifmt.managedAgentChangeFields fields i managedAgents = Returns result
      ∧ size result = (size fields + length managedAgents)%nat
      ∧ (∀ j managedAgentChange,
           managedAgents !! j = Some managedAgentChange →
           ∃ str,
             apifmt.ManagedAgentStateChange_String managedAgentChange
             = Returns str
             ∧ result !! managedAgentKey (i + j)%nat = Some (FieldString str))
      ∧ (∀ k, (∀ j, (i ≤ j)%nat → k ≠ managedAgentKey j) →
           result !! k = fields !! k).
Proof.
  induction 1 as [|m rest [cont Hcont] _ IH]; intros fields i Hfresh.
  { exists fields. simpl. split; [done|]. split; [lia|]. by split. }
  cbn [apifmt.managedAgentChangeFields].
  destruct (apifmt.ManagedAgentStateChange_String m) as [str|] eqn:Hstr.
  2:{ unfold apifmt.ManagedAgentStateChange_String in Hstr.
      by rewrite Hcont in Hstr. }
  destruct (IH (<[managedAgentKey i := FieldString str]> fields) (i + 1)%nat)
    as (result & Heq & Hsize & Hlookup & Hother).
  { intros j Hj. rewrite lookup_insert_ne; [apply Hfresh; lia|].
    intros Heq%indexed_key_inj. lia. }
  exists result. split; [done|]. split; [|split].
  - rewrite Hsize, map_size_insert_None by (apply Hfresh; lia). simpl. lia.
  - intros [|j] m' Hm'; simpl in Hm'.
    + injection Hm' as <-. exists str. split; [done|].
      rewrite Nat.add_0_r. rewrite Hother.
      * by rewrite lookup_insert_eq.
      * intros j Hj Heq'%indexed_key_inj. lia.
    + replace (i + S j)%nat with (i + 1 + j)%nat by lia. by apply Hlookup.
  - intros k Hk. rewrite Hother.
    + rewrite lookup_insert_ne; [done|]. intros Heq'. by apply (Hk i).
    + intros j Hj. apply Hk. lia.
Qed.

Lemma managedAgentChangeFields_panics
  (managedAgents : list ManagedAgentStateChange.t) :
  ¬ Forall (λ m, is_Some (ManagedAgentStateChange.Container m))
      managedAgents →
  ∀ (fields : gmap string FieldValue) (i : nat),
    apifmt.managedAgentChangeFields fields i managedAgents = Panics.
Proof.
  induction managedAgents as [|m rest IH]; intros Hnot fields i.
  { destruct Hnot. constructor. }
  cbn [apifmt.managedAgentChangeFields].
  unfold apifmt.ManagedAgentStateChange_String.
  destruct (ManagedAgentStateChange.Container m) as [cont|] eqn:Hcont;
    [|done].
  apply IH. intros Hrest. apply Hnot. constructor; [by eexists|done].
Qed.

(** X27: the log fields of a task state change lose no change. When every
    managed agent change has a container, [TaskStateChange.ToFields] returns
    a map with one field for each container change and one for each managed
    agent change besides those of the task, under keys that never collide:
    the field [containerChange-i] holds the string of the container change
    at index [i], and [managedAgentChange-i] that of the managed agent
    change at index [i]. It panics exactly when a managed agent change has
    no container. *)
Theorem TaskStateChange_ToFields_keeps_every_change
  (c : api.TaskStateChangeAll) :
  (Forall (λ m, is_Some (ManagedAgentStateChange.Container m))
     (api.ManagedAgents c) →
   ∃ fields,
     apifmt.TaskStateChange_ToFields PortBindings_String Time_RFC3339
       ENIAttachment_String c = Returns fields
     ∧ size fields
       = (4 + (if TaskStateChange.Task (api.change c) is Some _ then 4 else 0)
          + (if api.Attachment c is Some _ then 1 else 0)
          + length (TaskStateChange.Containers (api.change c))
          + length (api.ManagedAgents c))%nat
     ∧ (∀ i containerChange,
          TaskStateChange.Containers (api.change c) !! i
          = Some containerChange →
          fields !! containerKey i
          = Some (FieldString
                    (apifmt.ContainerStateChange_String PortBindings_String
                       containerChange)))
     ∧ (∀ i managedAgentChange,
          api.ManagedAgents c !! i = Some managedAgentChange →
          ∃ str,
            apifmt.ManagedAgentStateChange_String managedAgentChange
            = Returns str
            ∧ fields !! managedAgentKey i = Some (FieldString str))
     ∧ fields !! "eventType" = Some (FieldString "TaskStateChange")
     ∧ fields !! "taskArn"
       = Some (FieldString (TaskStateChange.TaskARN (api.change c))))
  ∧ (apifmt.TaskStateChange_ToFields PortBindings_String Time_RFC3339
       ENIAttachment_String c = Panics
     ↔ ¬ Forall (λ m, is_Some (ManagedAgentStateChange.Container m))
           (api.ManagedAgents c)).
Proof.
  assert (Forall (λ m, is_Some (ManagedAgentStateChange.Container m))
            (api.ManagedAgents c) →
          ∃ fields,
            apifmt.TaskStateChange_ToFields PortBindings_String Time_RFC3339
              ENIAttachment_String c = Returns fields
            ∧ size fields
              = (4 + (if TaskStateChange.Task (api.change c) is Some _ then 4 else 0)
                 + (if api.Attachment c is Some _ then 1 else 0)
                 + length (TaskStateChange.Containers (api.change c))
                 + length (api.ManagedAgents c))%nat
            ∧ (∀ i containerChange,
                 TaskStateChange.Containers (api.change c) !! i
                 = Some containerChange →
                 fields !! containerKey i
                 = Some (FieldString
                           (apifmt.ContainerStateChange_String
                              PortBindings_String containerChange)))
            ∧ (∀ i managedAgentChange,
                 api.ManagedAgents c !! i = Some managedAgentChange →
                 ∃ str,
                   apifmt.ManagedAgentStateChange_String managedAgentChange
                   = Returns str
                   ∧ fields !! managedAgentKey i = Some (FieldString str))
            ∧ fields !! "eventType" = Some (FieldString "TaskStateChange")
            ∧ fields !! "taskArn"
              = Some (FieldString (TaskStateChange.TaskARN (api.change c))))
    as Hreturns.
  { intros Hagents. unfold apifmt.TaskStateChange_ToFields.
    match goal with
    | |- context [apifmt.containerChangeFields _ ?base 0 _] =>
        set (fields0 := base)
    end.
    assert (size fields0
            = (4 + (if TaskStateChange.Task (api.change c) is Some _ then 4 else 0)
               + (if api.Attachment c is Some _ then 1 else 0))%nat
            ∧ (∀ j, fields0 !! containerKey j = None)
            ∧ (∀ j, fields0 !! managedAgentKey j = None)
            ∧ fields0 !! "eventType" = Some (FieldString "TaskStateChange")
            ∧ fields0 !! "taskArn"
              = Some (FieldString (TaskStateChange.TaskARN (api.change c))))
      as (Hsize0 & Hc0 & Hm0 & Hevent & Harn).
    { subst fields0.
      destruct (TaskStateChange.Task (api.change c)), (api.Attachment c);
        (split;
         [rewrite !map_size_insert_None, map_size_empty
            by (by simplify_map_eq); done|]);
        (split;
         [intros j; rewrite !lookup_insert_ne by (simpl; discriminate);
          apply lookup_empty|]);
        (split;
         [intros j; rewrite !lookup_insert_ne by (simpl; discriminate);
          apply lookup_empty|]);
        split; by simplify_map_eq. }
    destruct (containerChangeFields_spec
                (TaskStateChange.Containers (api.change c)) fields0 0)
      as (Hsize1 & Hlookup1 & Hother1); [by intros j _|].
    destruct (managedAgentChangeFields_spec (api.ManagedAgents c) Hagents
                (apifmt.containerChangeFields PortBindings_String fields0 0
                   (TaskStateChange.Containers (api.change c))) 0)
      as (result & Heq & Hsize2 & Hlookup2 & Hother2).
    { intros j _. rewrite Hother1; [done|].
      intros j' _. simpl. discriminate. }
    exists result. split; [done|]. split; [lia|]. split; [|split; [|split]].
    - intros i cc Hcc. rewrite Hother2.
      + by apply (Hlookup1 i cc).
      + intros j _. simpl. discriminate.
    - intros i m Hm. by apply (Hlookup2 i m).
    - rewrite Hother2, Hother1; [done|..]; intros j _; simpl; discriminate.
    - rewrite Hother2, Hother1; [done|..]; intros j _; simpl; discriminate. }
  split; [done|]. split.
  - intros Hpanic Hagents. destruct (Hreturns Hagents) as (? & Heq & _).
    congruence.
  - intros Hnot. unfold apifmt.TaskStateChange_ToFields.
    by apply managedAgentChangeFields_panics.
Qed.

End fields_facts.

(** ** A new task event converts *)

(** X28: the event that [NewTaskStateChangeEvent] creates is converted by
    [TaskStateChange.ToECSAgent] without error or panic, and the result has
    the ARN, the known status and the timestamps of the task, the given
    reason, the task itself, and no container or managed agent change. *)
Theorem new_task_event_converts
  `{StatusMethods} `{TaskMethods} `{AgentDeclarations}
  (task : apitask.Task) (reason : string) :
  (api.NewTaskStateChangeEvent task reason).2 = None →
  api.TaskStateChange_ToECSAgent
    {| api.change := (api.NewTaskStateChangeEvent task reason).1;
       api.Attachment := None;
       api.ManagedAgents := [] |}
  = Returns
      (Some {| ecsTaskStateChange.Attachment := None;
               ecsTaskStateChange.TaskARN := apitask.Arn task;
               ecsTaskStateChange.Status := apitask.GetKnownStatus task;
               ecsTaskStateChange.Reason := reason;
               ecsTaskStateChange.Containers := [];
               ecsTaskStateChange.ManagedAgents := [];
               ecsTaskStateChange.PullStartedAt := apitask.PullStartedAt task;
               ecsTaskStateChange.PullStoppedAt := apitask.PullStoppedAt task;
               ecsTaskStateChange.ExecutionStoppedAt :=
                 apitask.ExecutionStoppedAt task;
               ecsTaskStateChange.MetadataGetter := Some task |},
       None).
Proof.
  intros Herr.
  destruct (NewTaskStateChangeEvent_cases task reason) as [_ Hevent].
  rewrite (Hevent Herr). reflexivity.
Qed.

Lemma new_task_event_converts_witness :
  ∃ out,
    api.TaskStateChange_ToECSAgent
      {| api.change :=
           (api.NewTaskStateChangeEvent
              (apitask.update (reference.CreateTestTask "test-arn" "EC2" 512 [])
                 TaskRunning TaskRunning TaskStatusNone) "started").1;
         api.Attachment := None;
         api.ManagedAgents := [] |}
    = Returns (Some out, None)
    ∧ ecsTaskStateChange.Status out = TaskRunning.
Proof.
  eexists. split.
  - apply (new_task_event_converts
             (apitask.update (reference.CreateTestTask "test-arn" "EC2" 512 [])
                TaskRunning TaskRunning TaskStatusNone) "started").
    vm_compute. reflexivity.
  - reflexivity.
Defined.
